(** * sims_utils: time representation and the astrometry pipeline

    A shallow embedding of [ModifiedJulianDate.py] and [AstrometryUtils.py]
    (with the two attributes of [ObservationMetaData.py] the pipeline reads).

    Python values are modelled as the code handles them: [None] as [option],
    exceptions as the [Raise] branch of [res], a float-or-array argument as
    [value].  The libraries the code calls (astropy.time, numpy's scalar
    functions, palpy, the helpers of lsst.sims.utils) are interfaces: every
    definition and theorem is parametric in them, so what is proved is how
    the code orchestrates, validates and composes the calls. *)

From Stdlib Require Import List String Bool Arith ZArith.
From Stdlib Require Import DecimalString.
Import ListNotations.
Open Scope string_scope.
Open Scope list_scope.

(** ** Python exceptions and results *)

Inductive exn : Type :=
| RuntimeError (msg : string)
| AttributeError (msg : string)
| TypeError (msg : string)
| ValueError (msg : string)
| IndexError (msg : string).

Inductive res (A : Type) : Type :=
| Ok (a : A)
| Raise (e : exn).
Arguments Ok {A} a.
Arguments Raise {A} e.

Definition res_bind {A B} (r : res A) (k : A -> res B) : res B :=
  match r with
  | Ok a => k a
  | Raise e => Raise e
  end.

Definition res_map {A B} (f : A -> B) (r : res A) : res B :=
  res_bind r (fun a => Ok (f a)).

Declare Scope res_scope.
Delimit Scope res_scope with res.
Notation "x <- c1 ;; c2" := (res_bind c1 (fun x => c2))
  (at level 61, c1 at next level, right associativity) : res_scope.
Notation "' pat <- c1 ;; c2" := (res_bind c1 (fun x => match x with pat => c2 end))
  (at level 61, pat pattern, c1 at next level, right associativity) : res_scope.

(** The class of an exception: what an [except RuntimeError:] clause or an
    [assertRaises] looks at.  The errors the code raises on purpose (its
    configuration errors) are all [RuntimeError]s. *)
Inductive exn_class : Type := CRuntime | CAttribute | CType | CValue | CIndex.

Definition class_of (e : exn) : exn_class :=
  match e with
  | RuntimeError _ => CRuntime
  | AttributeError _ => CAttribute
  | TypeError _ => CType
  | ValueError _ => CValue
  | IndexError _ => CIndex
  end.

Definition is_configuration_error {A} (r : res A) : Prop :=
  exists msg, r = Raise (RuntimeError msg).

Definition succeeds {A} (r : res A) : Prop := exists a, r = Ok a.

Definition raises {A} (r : res A) : Prop := exists e, r = Raise e.

(** ["%d" % n] *)
Definition pct_d (n : nat) : string := NilEmpty.string_of_uint (Nat.to_uint n).

(** ** Floats, arrays and numpy

    [F] stands for a 64-bit float; its arithmetic is numpy's and is kept
    abstract. *)

Class Float64 (F : Type) : Type := {
  (** the literals [0.0], [0.5], [-1.0], [1.e-10] *)
  fzero : F;
  f0_5 : F;
  fminus1 : F;
  f1em10 : F;
  fmul : F -> F -> F;
  fdiv : F -> F -> F;
  fcos : F -> F;
  (** [numpy.degrees] and [numpy.radians] on one number *)
  fdegrees : F -> F;
  fradians : F -> F
}.

(** ** astropy.time, as the code uses it *)

Inductive scale : Type := scale_tai | scale_utc.

(** What [Time.get_delta_ut1_utc()] hands back: a quantity with a [.value],
    or a bare number (the inner [try]/[except] of [dut1] takes either). *)
Inductive delta (F : Type) : Type :=
| Quantity (value : F)
| Bare (x : F).
Arguments Quantity {F} value.
Arguments Bare {F} x.

Class Astropy (F : Type) : Type := {
  Time : Type;
  (** [Time(x, scale=s, format='mjd')] *)
  Time_mjd : F -> scale -> Time;
  (** [t.tai.mjd], [t.utc.mjd], [t.tt.mjd], [t.tdb.mjd] *)
  time_tai : Time -> F;
  time_utc : Time -> F;
  time_tt : Time -> F;
  time_tdb : Time -> F;
  (** [t.ut1.mjd] raises outside the IERS table *)
  time_ut1 : Time -> res F;
  (** [t.get_delta_ut1_utc()] raises outside the IERS table *)
  time_get_delta_ut1_utc : Time -> res (delta F)
}.

(** ** ModifiedJulianDate.py *)

Module MJD.

Section Instant.
Context {F : Type} {float64 : Float64 F} {astropy : Astropy F}.

Record ModifiedJulianDate : Type := mkMJD {
  _time : Time;
  _tai : option F;
  _utc : option F;
  _tt : option F;
  _tdb : option F;
  _ut1 : option F;
  _dut1 : option F
}.

(** [warnings.warn("UTC %e is outside of IERS table for UT1-UTC.\n" % self.UTC
    + "Returning UT1 = UTC for lack of a better idea")]: the one warning of
    the module, with the number it formats. *)
Inductive warning : Type :=
| OutsideIERS (utc : F).

Definition __init__ (TAI UTC : option F) : res ModifiedJulianDate :=
  match TAI, UTC with
  | None, None =>
      Raise (RuntimeError
        "You must specify either TAI or UTC to instantiate ModifiedJulianDate")
  | Some tai, _ =>
      Ok (mkMJD (Time_mjd tai scale_tai) (Some tai) None None None None None)
  | None, Some utc =>
      Ok (mkMJD (Time_mjd utc scale_utc) None (Some utc) None None None None)
  end.

(** A property read runs on the object: it may fill a cache field, emit
    warnings, and (in principle) raise. *)
Definition St (A : Type) : Type :=
  ModifiedJulianDate -> res A * ModifiedJulianDate * list warning.

Definition ret {A} (a : A) : St A := fun self => (Ok a, self, []).

Definition bind {A B} (c : St A) (k : A -> St B) : St B :=
  fun self =>
    match c self with
    | (Ok a, self1, w1) =>
        match k a self1 with
        | (r, self2, w2) => (r, self2, w1 ++ w2)
        end
    | (Raise e, self1, w1) => (Raise e, self1, w1)
    end.

(** [try: body / except: handler] with a bare [except]. *)
Definition try_except {A} (body handler : St A) : St A :=
  fun self =>
    match body self with
    | (Ok a, self1, w1) => (Ok a, self1, w1)
    | (Raise _, self1, w1) =>
        match handler self1 with
        | (r, self2, w2) => (r, self2, w1 ++ w2)
        end
    end.

Definition get {A} (f : ModifiedJulianDate -> A) : St A :=
  fun self => (Ok (f self), self, []).

Definition modify (f : ModifiedJulianDate -> ModifiedJulianDate) : St unit :=
  fun self => (Ok tt, f self, []).

Definition warn (w : warning) : St unit := fun self => (Ok tt, self, [w]).

Definition call {A} (r : res A) : St A := fun self => (r, self, []).

Declare Scope st_scope.
Delimit Scope st_scope with st.
Notation "x <- c1 ;; c2" := (bind c1 (fun x => c2))
  (at level 61, c1 at next level, right associativity) : st_scope.
Notation "c1 ;;; c2" := (bind c1 (fun _ => c2))
  (at level 61, right associativity) : st_scope.
Local Open Scope st_scope.

Definition set_tai v self :=
  mkMJD (_time self) (Some v) (_utc self) (_tt self) (_tdb self) (_ut1 self) (_dut1 self).
Definition set_utc v self :=
  mkMJD (_time self) (_tai self) (Some v) (_tt self) (_tdb self) (_ut1 self) (_dut1 self).
Definition set_tt v self :=
  mkMJD (_time self) (_tai self) (_utc self) (Some v) (_tdb self) (_ut1 self) (_dut1 self).
Definition set_tdb v self :=
  mkMJD (_time self) (_tai self) (_utc self) (_tt self) (Some v) (_ut1 self) (_dut1 self).
Definition set_ut1 v self :=
  mkMJD (_time self) (_tai self) (_utc self) (_tt self) (_tdb self) (Some v) (_dut1 self).
Definition set_dut1 v self :=
  mkMJD (_time self) (_tai self) (_utc self) (_tt self) (_tdb self) (_ut1 self) (Some v).

(** A lazily cached property: [if self._x is None: self._x = compute]
    followed by [return self._x]. *)
Definition cached (field : ModifiedJulianDate -> option F)
    (store : F -> ModifiedJulianDate -> ModifiedJulianDate)
    (compute : St F) : St F :=
  c <- get field ;;
  match c with
  | Some v => ret v
  | None => v <- compute ;; modify (store v) ;;; ret v
  end.

Definition TAI : St F :=
  cached _tai set_tai (t <- get _time ;; ret (time_tai t)).

Definition UTC : St F :=
  cached _utc set_utc (t <- get _time ;; ret (time_utc t)).

Definition TT : St F :=
  cached _tt set_tt (t <- get _time ;; ret (time_tt t)).

Definition TDB : St F :=
  cached _tdb set_tdb (t <- get _time ;; ret (time_tdb t)).

Definition UT1 : St F :=
  cached _ut1 set_ut1
    (try_except
       (t <- get _time ;; call (time_ut1 t))
       (u <- UTC ;; warn (OutsideIERS u) ;;; UTC)).

Definition dut1 : St F :=
  cached _dut1 set_dut1
    (try_except
       (t <- get _time ;;
        intermediate_value <- call (time_get_delta_ut1_utc t) ;;
        match intermediate_value with
        | Quantity v => ret v
        | Bare x => ret x
        end)
       (u <- UTC ;; warn (OutsideIERS u) ;;; ret fzero)).

(** The value a property read returns, the object it leaves, the warnings. *)
Definition result {A} (c : St A) (self : ModifiedJulianDate) : res A :=
  fst (fst (c self)).
Definition after {A} (c : St A) (self : ModifiedJulianDate) : ModifiedJulianDate :=
  snd (fst (c self)).
Definition warnings {A} (c : St A) (self : ModifiedJulianDate) : list warning :=
  snd (c self).

(** What the [UTC] property returns on [self], whatever is cached. *)
Definition utc_of (self : ModifiedJulianDate) : F :=
  match _utc self with
  | Some v => v
  | None => time_utc (_time self)
  end.

End Instant.

Arguments ModifiedJulianDate F {astropy}.
Arguments warning F : clear implicits.

End MJD.

(** ** Arguments that are a float, an array or a list *)

Inductive value (F : Type) : Type :=
| VFloat (x : F)          (** a Python float or a numpy.float64 *)
| VArray (xs : list F)    (** a one-dimensional numpy.ndarray *)
| VList (xs : list F).    (** a Python list of floats *)
Arguments VFloat {F} x.
Arguments VArray {F} xs.
Arguments VList {F} xs.

(** An n-dimensional array, as far as the code builds them. *)
Inductive ndarray (F : Type) : Type :=
| Nd1 (xs : list F)
| Nd2 (rows : list (list F)).
Arguments Nd1 {F} xs.
Arguments Nd2 {F} rows.

Section Numpy.
Context {F : Type} {float64 : Float64 F}.

Definition isinstance_list (v : value F) : bool :=
  match v with VList _ => true | _ => false end.

Definition isinstance_ndarray (v : value F) : bool :=
  match v with VArray _ => true | _ => false end.

(** [hasattr(v, '__len__')] *)
Definition hasattr_len (v : value F) : bool :=
  match v with VFloat _ => false | _ => true end.

Definition len (v : value F) : res nat :=
  match v with
  | VFloat _ => Raise (TypeError "object of type 'float' has no len()")
  | VArray xs | VList xs => Ok (List.length xs)
  end.

(** A numpy ufunc of one argument: a float gives a float, an array or a
    list gives an array. *)
Definition ufunc (f : F -> F) (v : value F) : value F :=
  match v with
  | VFloat x => VFloat (f x)
  | VArray xs | VList xs => VArray (map f xs)
  end.

Definition np_cos : value F -> value F := ufunc fcos.
Definition np_degrees : value F -> value F := ufunc fdegrees.
Definition np_radians : value F -> value F := ufunc fradians.

Definition np_zeros (n : nat) : value F := VArray (repeat fzero n).

Fixpoint zip_with (f : F -> F -> F) (xs ys : list F) : list F :=
  match xs, ys with
  | x :: xs', y :: ys' => f x y :: zip_with f xs' ys'
  | _, _ => []
  end.

(** Broadcasting of two one-dimensional shapes: equal lengths go
    elementwise, a length-one side is repeated, anything else is numpy's
    [ValueError]. *)
Definition broadcast (f : F -> F -> F) (xs ys : list F) : res (list F) :=
  if Nat.eqb (List.length xs) (List.length ys) then Ok (zip_with f xs ys)
  else match xs, ys with
       | [x], _ => Ok (map (f x) ys)
       | _, [y] => Ok (map (fun x => f x y) xs)
       | _, _ => Raise (ValueError "operands could not be broadcast together")
       end.

(** [a / b] for [b] a numpy float or array. *)
Definition np_divide (a b : value F) : res (value F) :=
  match a, b with
  | VFloat x, VFloat y => Ok (VFloat (fdiv x y))
  | VFloat x, (VArray ys | VList ys) => Ok (VArray (map (fdiv x) ys))
  | (VArray xs | VList xs), VFloat y => Ok (VArray (map (fun x => fdiv x y) xs))
  | (VArray xs | VList xs), (VArray ys | VList ys) =>
      res_map VArray (broadcast fdiv xs ys)
  end.

(** [numpy.array([row0, row1])]: what every transform returns. *)
Definition array2 : Type := value F * value F.

Definition degrees2 (a : array2) : array2 :=
  (np_degrees (fst a), np_degrees (snd a)).

End Numpy.
Arguments array2 F : clear implicits.

(** [numpy.dot] and [ndarray.transpose], used by the precession stage. *)
Class Linalg (F : Type) : Type := {
  np_dot : ndarray F -> ndarray F -> ndarray F;
  np_transpose : ndarray F -> ndarray F
}.

(** Modelled from the spec: the helpers imported from lsst.sims.utils, whose
    source files are not among the sources: the arcsecond/radian conversion
    utilities (elementwise, like a numpy ufunc), the spherical/Cartesian
    conversion utility and the great-circle distance utility. *)
Class SimsUtils (F : Type) : Type := {
  arcsec_of_radians : F -> F;
  radians_of_arcsec : F -> F;
  cartesianFromSpherical : value F -> value F -> ndarray F;
  sphericalFromCartesian : ndarray F -> value F * value F;
  haversine : value F -> value F -> value F -> value F -> value F
}.

(** Modelled from the spec: the Site class (Site.py is not among the
    sources), an immutable description of a telescope location; the fields
    are the attributes the pipeline reads. *)
Record Site (F : Type) : Type := mkSite {
  height : F;
  temperature : F;
  temperature_kelvin : F;
  pressure : F;
  humidity : F;
  latitude_rad : F;
  longitude_rad : F;
  lapseRate : F
}.
Arguments mkSite {F}.
Arguments height {F}.
Arguments temperature {F}.
Arguments temperature_kelvin {F}.
Arguments pressure {F}.
Arguments humidity {F}.
Arguments latitude_rad {F}.
Arguments longitude_rad {F}.
Arguments lapseRate {F}.

(** The palpy primitives.  Those that take the caller's arguments as they
    come receive [value]s and may raise; a parameter block is a numpy array
    of floats. *)
Class Palpy (F : Type) : Type := {
  mappa : F -> F -> list F;
  dcc2s : list F -> F * F;
  refco : F -> F -> F -> F -> F -> F -> F -> F -> F * F;
  refz : F -> F -> F -> F;
  refzVector : list F -> F -> F -> list F;
  prenut : F -> F -> ndarray F;
  epj : F -> F;
  pm : value F -> value F -> value F -> value F -> value F -> value F ->
       F -> F -> res (F * F);
  pmVector : value F -> value F -> value F -> value F -> value F -> value F ->
             F -> F -> res (list F * list F);
  mapqkVector : value F -> value F -> value F -> value F -> value F -> value F ->
                list F -> res (list F * list F);
  ampqkVector : value F -> value F -> list F -> res (list F * list F);
  aoppa : F -> F -> F -> F -> F -> F -> F -> F -> F -> F -> F -> F -> list F;
  (** azimuth, zenith, hourAngle, decOut, raOut *)
  aopqkVector : value F -> value F -> list F ->
                res (list F * list F * list F * list F * list F);
  de2hVector : list F -> list F -> F -> list F * list F;
  oapqkVector : string -> value F -> value F -> list F -> res (list F * list F)
}.

(** ** ObservationMetaData.py: the two attributes the pipeline reads *)

Record ObservationMetaData (F : Type) {astropy : Astropy F} : Type :=
  mkObservationMetaData {
  _site : option (Site F);
  _mjd : option (MJD.ModifiedJulianDate F)
}.
Arguments mkObservationMetaData {F astropy}.
Arguments _site {F astropy}.
Arguments _mjd {F astropy}.

Definition site {F} `{Astropy F} (self : ObservationMetaData F) := _site self.
Definition mjd {F} `{Astropy F} (self : ObservationMetaData F) := _mjd self.

(** ** AstrometryUtils.py *)

Module Astrometry.

Section Pipeline.
Context {F : Type} {float64 : Float64 F} {astropy : Astropy F}
        {linalg : Linalg F} {sims : SimsUtils F} {palpy : Palpy F}.
Local Open Scope res_scope.

(** A property of an Instant is read for its value ([MJD.result]): no read
    changes what a later read returns (lemma [read_stable]), so the cache
    the reads fill is not threaded through the pipeline. *)
Local Abbreviation Instant := (MJD.ModifiedJulianDate F).
Local Notation "s1 +++ s2" := (String.append s1 s2)
  (at level 60, right associativity).

(** [o.name] for an [o] that may be [None]. *)
Definition getattr {A} (o : option A) (name : string) : res A :=
  match o with
  | Some a => Ok a
  | None =>
      Raise (AttributeError ("'NoneType' object has no attribute '" +++ name +++ "'"))
  end.

(** [if cond: raise RuntimeError(msg)] *)
Definition raise_if (cond : bool) (msg : string) : res unit :=
  if cond then Raise (RuntimeError msg) else Ok tt.

(** [len(a) != len(b)] *)
Definition len_differs (a b : value F) : res bool :=
  n <- len a ;; m <- len b ;; Ok (negb (Nat.eqb n m)).

(** Python's [or]: the right operand is evaluated only if the left is false. *)
Definition lazy_or (a b : res bool) : res bool :=
  x <- a ;; if x then Ok true else b.

Definition arcsecFromRadians : value F -> value F := ufunc arcsec_of_radians.
Definition radiansFromArcsec : value F -> value F := ufunc radians_of_arcsec.

Definition _solarRaDec (mjd epoch : F) : F * F :=
  let params := mappa epoch mjd in
  dcc2s (map (fmul fminus1) (firstn 3 (skipn 4 params))).

Definition solarRaDec (mjd epoch : F) : F * F :=
  let '(solarRA, solarDec) := _solarRaDec mjd epoch in
  (fdegrees solarRA, fdegrees solarDec).

Definition _distanceToSun (ra dec : value F) (mjd epoch : F) : value F :=
  let '(sunRa, sunDec) := _solarRaDec mjd epoch in
  match ra with
  | VArray xs | VList xs =>
      haversine ra dec (VArray (repeat sunRa (List.length xs)))
                       (VArray (repeat sunDec (List.length xs)))
  | VFloat _ => haversine ra dec (VFloat sunRa) (VFloat sunDec)
  end.

Definition distanceToSun (ra dec : value F) (mjd epoch : F) : value F :=
  np_degrees (_distanceToSun (np_radians ra) (np_radians dec) mjd epoch).

Definition refractionCoefficients (wavelength : F) (site : option (Site F))
  : res (F * F) :=
  let precision := f1em10 in
  match site with
  | None => Raise (RuntimeError "Cannot call refractionCoefficients; no site information")
  | Some site =>
      let _refcoOutput :=
        refco (height site) (temperature_kelvin site) (pressure site)
              (humidity site) wavelength (latitude_rad site) (lapseRate site)
              precision in
      Ok (fst _refcoOutput, snd _refcoOutput)
  end.

Definition applyRefraction (zenithDistance : value F) (tanzCoeff tan3zCoeff : F)
  : res (value F) :=
  match zenithDistance with
  | VList _ =>
      Raise (RuntimeError ("You passed a list of zenithDistances to " +++
                           "applyRefraction.  The method won't know how to " +++
                           "handle that.  Pass a numpy array."))
  | VArray zs => Ok (VArray (refzVector zs tanzCoeff tan3zCoeff))
  | VFloat z => Ok (VFloat (refz z tanzCoeff tan3zCoeff))
  end.

Definition _applyPrecession (ra dec : value F) (epoch : F) (mjd : option Instant)
  : res (array2 F) :=
  _ <- (if hasattr_len ra then
          n_ra <- len ra ;;
          n_dec <- len dec ;;
          raise_if (negb (Nat.eqb n_ra n_dec))
            ("You supplied " +++ pct_d n_ra +++ " RAs but " +++ pct_d n_dec +++
             " Decs to applyPrecession")
        else Ok tt) ;;
  match mjd with
  | None => Raise (RuntimeError "You need to supply applyPrecession with an mjd")
  | Some mjd =>
      tt_ <- MJD.result MJD.TT mjd ;;
      let rmat := prenut epoch tt_ in
      let xyz := cartesianFromSpherical ra dec in
      let xyz := np_transpose (np_dot rmat (np_transpose xyz)) in
      let '(raOut, decOut) := sphericalFromCartesian xyz in
      Ok (raOut, decOut)
  end.

Definition applyPrecession (ra dec : value F) (epoch : F) (mjd : option Instant)
  : res (array2 F) :=
  output <- _applyPrecession (np_radians ra) (np_radians dec) epoch mjd ;;
  Ok (degrees2 output).

Definition _applyProperMotion (ra dec pm_ra pm_dec parallax v_rad : value F)
    (epoch : F) (mjd : option Instant) : res (array2 F) :=
  if isinstance_list ra || isinstance_list dec ||
     isinstance_list pm_ra || isinstance_list pm_dec ||
     isinstance_list parallax || isinstance_list v_rad
  then Raise (RuntimeError ("You tried to pass lists to applyPm. " +++
                            "The method does not know how to handle lists. " +++
                            "Use numpy arrays."))
  else
  match mjd with
  | None => Raise (RuntimeError "cannot call applyProperMotion; mjd is None")
  | Some mjd =>
      let parallaxArcsec := arcsecFromRadians parallax in
      tt_ <- MJD.result MJD.TT mjd ;;
      let julianEpoch := epj tt_ in
      pm_ra_corrected <- np_divide pm_ra (np_cos dec) ;;
      if isinstance_ndarray ra then
        mismatch <- lazy_or (len_differs ra dec)
                   (lazy_or (len_differs ra pm_ra)
                   (lazy_or (len_differs ra pm_dec)
                   (lazy_or (len_differs ra parallaxArcsec)
                            (len_differs ra v_rad)))) ;;
        if (mismatch : bool) then
          n1 <- len ra ;; n2 <- len dec ;; n3 <- len pm_ra ;;
          n4 <- len pm_dec ;; n5 <- len parallaxArcsec ;; n6 <- len v_rad ;;
          Raise (RuntimeError ("You passed: " +++
                               pct_d n1 +++ " RAs, " +++
                               pct_d n2 +++ " Dec, " +++
                               pct_d n3 +++ " pm_ras, " +++
                               pct_d n4 +++ " pm_decs, " +++
                               pct_d n5 +++ " parallaxes, " +++
                               pct_d n6 +++ " v_rads " +++
                               "to applyPm; those numbers need to be identical."))
        else
          '(raOut, decOut) <- pmVector ra dec pm_ra_corrected pm_dec parallaxArcsec
                                       v_rad epoch julianEpoch ;;
          Ok (VArray raOut, VArray decOut)
      else
        '(raOut, decOut) <- pm ra dec pm_ra_corrected pm_dec parallaxArcsec
                               v_rad epoch julianEpoch ;;
        Ok (VFloat raOut, VFloat decOut)
  end.

Definition applyProperMotion (ra dec pm_ra pm_dec parallax v_rad : value F)
    (epoch : F) (mjd : option Instant) : res (array2 F) :=
  output <- _applyProperMotion (np_radians ra) (np_radians dec)
                               (radiansFromArcsec pm_ra)
                               (radiansFromArcsec pm_dec)
                               (radiansFromArcsec parallax)
                               v_rad epoch mjd ;;
  Ok (degrees2 output).

Definition _appGeoFromICRS (ra dec : value F)
    (pm_ra pm_dec parallax v_rad : option (value F))
    (epoch : F) (mjd : option Instant) : res (array2 F) :=
  match mjd with
  | None => Raise (RuntimeError "cannot call appGeoFromICRS; mjd is None")
  | Some mjd =>
      n_ra <- len ra ;;
      n_dec <- len dec ;;
      _ <- raise_if (negb (Nat.eqb n_ra n_dec))
             ("appGeoFromICRS: len(ra) " +++ pct_d n_ra +++ " len(dec) " +++
              pct_d n_dec +++ " ") ;;
      let pm_ra := match pm_ra with None => np_zeros n_ra | Some v => v end in
      let pm_dec := match pm_dec with None => np_zeros n_ra | Some v => v end in
      let v_rad := match v_rad with None => np_zeros n_ra | Some v => v end in
      let parallax := match parallax with None => np_zeros n_ra | Some v => v end in
      tdb <- MJD.result MJD.TDB mjd ;;
      let prms := mappa epoch tdb in
      pm_ra_corrected <- np_divide pm_ra (np_cos dec) ;;
      '(raOut, decOut) <- mapqkVector ra dec pm_ra_corrected pm_dec
                                      (arcsecFromRadians parallax) v_rad prms ;;
      Ok (VArray raOut, VArray decOut)
  end.

Definition appGeoFromICRS (ra dec : value F)
    (pm_ra pm_dec parallax v_rad : option (value F))
    (epoch : F) (mjd : option Instant) : res (array2 F) :=
  let pm_ra_in :=
    match pm_ra with Some v => Some (radiansFromArcsec v) | None => None end in
  let pm_dec_in :=
    match pm_dec with Some v => Some (radiansFromArcsec v) | None => None end in
  let px_in :=
    match parallax with Some v => Some (radiansFromArcsec v) | None => None end in
  output <- _appGeoFromICRS (np_radians ra) (np_radians dec)
                            pm_ra_in pm_dec_in px_in v_rad epoch mjd ;;
  Ok (degrees2 output).

Definition _icrsFromAppGeo (ra dec : value F) (epoch : F) (mjd : option Instant)
  : res (array2 F) :=
  mjd <- getattr mjd "TDB" ;;
  tdb <- MJD.result MJD.TDB mjd ;;
  let params := mappa epoch tdb in
  '(raOut, decOut) <- ampqkVector ra dec params ;;
  Ok (VArray raOut, VArray decOut).

Definition icrsFromAppGeo (ra dec : value F) (epoch : F) (mjd : option Instant)
  : res (array2 F) :=
  '(raOut, decOut) <- _icrsFromAppGeo (np_radians ra) (np_radians dec) epoch mjd ;;
  Ok (np_degrees raOut, np_degrees decOut).

Definition _calculateObservatoryParameters (obs_metadata : ObservationMetaData F)
    (wavelength : F) (includeRefraction : bool) : res (list F) :=
  let xPolar := fzero in
  let yPolar := fzero in
  if includeRefraction then
    instant <- getattr (mjd obs_metadata) "UTC" ;;
    utc <- MJD.result MJD.UTC instant ;;
    dut1 <- MJD.result MJD.dut1 instant ;;
    site <- getattr (site obs_metadata) "longitude_rad" ;;
    Ok (aoppa utc dut1
              (longitude_rad site)
              (latitude_rad site)
              (height site)
              xPolar
              yPolar
              (temperature_kelvin site)
              (pressure site)
              (humidity site)
              wavelength
              (lapseRate site))
  else
    instant <- getattr (mjd obs_metadata) "UTC" ;;
    utc <- MJD.result MJD.UTC instant ;;
    dut1 <- MJD.result MJD.dut1 instant ;;
    site <- getattr (site obs_metadata) "longitude_rad" ;;
    Ok (aoppa utc dut1
              (longitude_rad site)
              (latitude_rad site)
              (height site)
              xPolar
              yPolar
              (temperature site)
              fzero
              fzero
              wavelength
              (lapseRate site)).

(** With [altAzHr] the core returns a pair of arrays, without it one array:
    the second component is the altitude/azimuth array when there is one. *)
Definition _observedFromAppGeo (ra dec : value F)
    (includeRefraction altAzHr : bool) (wavelength : F)
    (obs_metadata : option (ObservationMetaData F))
  : res (array2 F * option (array2 F)) :=
  match obs_metadata with
  | None => Raise (RuntimeError "Cannot call observedFromAppGeo without an obs_metadata")
  | Some obs_metadata =>
  match site obs_metadata with
  | None => Raise (RuntimeError "Cannot call observedFromAppGeo: obs_metadata has no site info")
  | Some the_site =>
  match mjd obs_metadata with
  | None => Raise (RuntimeError "Cannot call observedFromAppGeo: obs_metadata has no mjd")
  | Some _ =>
      n_ra <- len ra ;;
      n_dec <- len dec ;;
      _ <- raise_if (negb (Nat.eqb n_ra n_dec))
             ("You passed " +++ pct_d n_ra +++ " RAs but " +++ pct_d n_dec +++
              " Decs to observedFromAppGeo") ;;
      obsPrms <- _calculateObservatoryParameters obs_metadata wavelength
                                                 includeRefraction ;;
      '(azimuth, zenith, hourAngle, decOut, raOut) <- aopqkVector ra dec obsPrms ;;
      if altAzHr then
        let '(az, alt) := de2hVector hourAngle decOut (latitude_rad the_site) in
        Ok ((VArray raOut, VArray decOut), Some (VArray alt, VArray az))
      else
        Ok ((VArray raOut, VArray decOut), None)
  end end end.

(** Both branches of the wrapper convert every array the core returned. *)
Definition observedFromAppGeo (ra dec : value F)
    (includeRefraction altAzHr : bool) (wavelength : F)
    (obs_metadata : option (ObservationMetaData F))
  : res (array2 F * option (array2 F)) :=
  '(raDec, altAz) <- _observedFromAppGeo (np_radians ra) (np_radians dec)
                       includeRefraction altAzHr wavelength obs_metadata ;;
  Ok (degrees2 raDec,
      match altAz with Some a => Some (degrees2 a) | None => None end).

Definition _appGeoFromObserved (ra dec : value F)
    (includeRefraction : bool) (wavelength : F)
    (obs_metadata : option (ObservationMetaData F)) : res (array2 F) :=
  match obs_metadata with
  | None => Raise (RuntimeError "Cannot call appGeoFromObserved without an obs_metadata")
  | Some obs_metadata =>
  match site obs_metadata with
  | None => Raise (RuntimeError "Cannot call appGeoFromObserved: obs_metadata has no site info")
  | Some _ =>
  match mjd obs_metadata with
  | None => Raise (RuntimeError "Cannot call appGeoFromObserved: obs_metadata has no mjd")
  | Some _ =>
      n_ra <- len ra ;;
      n_dec <- len dec ;;
      _ <- raise_if (negb (Nat.eqb n_ra n_dec))
             ("You passed " +++ pct_d n_ra +++ " RAs but " +++ pct_d n_dec +++
              " Decs to appGeoFromObserved") ;;
      obsPrms <- _calculateObservatoryParameters obs_metadata wavelength
                                                 includeRefraction ;;
      '(raOut, decOut) <- oapqkVector "r" ra dec obsPrms ;;
      Ok (VArray raOut, VArray decOut)
  end end end.

Definition appGeoFromObserved (ra dec : value F)
    (includeRefraction : bool) (wavelength : F)
    (obs_metadata : option (ObservationMetaData F)) : res (array2 F) :=
  '(raOut, decOut) <- _appGeoFromObserved (np_radians ra) (np_radians dec)
                        includeRefraction wavelength obs_metadata ;;
  Ok (np_degrees raOut, np_degrees decOut).

Definition _observedFromICRS (ra dec : value F)
    (pm_ra pm_dec parallax v_rad : option (value F))
    (obs_metadata : option (ObservationMetaData F)) (epoch : option F)
    (includeRefraction : bool) : res (array2 F) :=
  match obs_metadata with
  | None => Raise (RuntimeError "cannot call observedFromICRS; obs_metadata is none")
  | Some om =>
  match mjd om with
  | None => Raise (RuntimeError "cannot call observedFromICRS; obs_metadata.mjd is none")
  | Some _ =>
  match epoch with
  | None => Raise (RuntimeError "cannot call observedFromICRS; you have not specified an epoch")
  | Some epoch =>
      n_ra <- len ra ;;
      n_dec <- len dec ;;
      _ <- raise_if (negb (Nat.eqb n_ra n_dec))
             ("You passed " +++ pct_d n_ra +++ " RAs but " +++ pct_d n_dec +++
              " Decs to observedFromICRS") ;;
      '(ra_apparent, dec_apparent) <-
         _appGeoFromICRS ra dec pm_ra pm_dec parallax v_rad epoch (mjd om) ;;
      '((ra_out, dec_out), _) <-
         _observedFromAppGeo ra_apparent dec_apparent includeRefraction false
                             f0_5 obs_metadata ;;
      Ok (ra_out, dec_out)
  end end end.

Definition observedFromICRS (ra dec : value F)
    (pm_ra pm_dec parallax v_rad : option (value F))
    (obs_metadata : option (ObservationMetaData F)) (epoch : option F)
    (includeRefraction : bool) : res (array2 F) :=
  let pm_ra_in :=
    match pm_ra with Some v => Some (radiansFromArcsec v) | None => None end in
  let pm_dec_in :=
    match pm_dec with Some v => Some (radiansFromArcsec v) | None => None end in
  let parallax_in :=
    match parallax with Some v => Some (radiansFromArcsec v) | None => None end in
  output <- _observedFromICRS (np_radians ra) (np_radians dec)
                              pm_ra_in pm_dec_in parallax_in v_rad
                              obs_metadata epoch includeRefraction ;;
  Ok (degrees2 output).

Definition _icrsFromObserved (ra dec : value F)
    (obs_metadata : option (ObservationMetaData F)) (epoch : option F)
    (includeRefraction : bool) : res (array2 F) :=
  match obs_metadata with
  | None => Raise (RuntimeError "cannot call icrsFromObserved; obs_metadata is None")
  | Some om =>
  match mjd om with
  | None => Raise (RuntimeError "cannot call icrsFromObserved; obs_metadata.mjd is None")
  | Some _ =>
  match epoch with
  | None => Raise (RuntimeError "cannot call icrsFromObserved; you have not specified an epoch")
  | Some epoch =>
      n_ra <- len ra ;;
      n_dec <- len dec ;;
      _ <- raise_if (negb (Nat.eqb n_ra n_dec))
             ("You passed " +++ pct_d n_ra +++ " RAs but " +++ pct_d n_dec +++
              " Decs to icrsFromObserved") ;;
      '(ra_app, dec_app) <-
         _appGeoFromObserved ra dec includeRefraction f0_5 obs_metadata ;;
      '(ra_icrs, dec_icrs) <- _icrsFromAppGeo ra_app dec_app epoch (mjd om) ;;
      Ok (ra_icrs, dec_icrs)
  end end end.

Definition icrsFromObserved (ra dec : value F)
    (obs_metadata : option (ObservationMetaData F)) (epoch : option F)
    (includeRefraction : bool) : res (array2 F) :=
  '(ra_out, dec_out) <- _icrsFromObserved (np_radians ra) (np_radians dec)
                          obs_metadata epoch includeRefraction ;;
  Ok (np_degrees ra_out, np_degrees dec_out).

End Pipeline.

End Astrometry.

(** ** Specification vocabulary *)

Module Spec.

Section Instant.
Context {F : Type} {float64 : Float64 F} {astropy : Astropy F}.

(** The six read-only properties of an Instant. *)
Inductive property : Type := pTAI | pUTC | pUT1 | pdut1 | pTT | pTDB.

Definition read (p : property) : MJD.St F :=
  match p with
  | pTAI => MJD.TAI
  | pUTC => MJD.UTC
  | pUT1 => MJD.UT1
  | pdut1 => MJD.dut1
  | pTT => MJD.TT
  | pTDB => MJD.TDB
  end.

(** The objects a program can hold: built by the constructor, then read
    any number of times. *)
Inductive reachable : MJD.ModifiedJulianDate F -> Prop :=
| reach_init TAI UTC self :
    MJD.__init__ TAI UTC = Ok self -> reachable self
| reach_read p self :
    reachable self -> reachable (MJD.after (read p) self).

(** The requested instant lies outside the Earth-orientation table: both
    astropy look-ups raise. *)
Definition outside_IERS (self : MJD.ModifiedJulianDate F) : Prop :=
  raises (time_ut1 (MJD._time self)) /\
  raises (time_get_delta_ut1_utc (MJD._time self)).

(** Cached values are the ones the property computes. *)
Definition coherent (self : MJD.ModifiedJulianDate F) : Prop :=
  (forall v, MJD._ut1 self = Some v ->
     time_ut1 (MJD._time self) = Ok v \/
     (raises (time_ut1 (MJD._time self)) /\ v = MJD.utc_of self)) /\
  (forall v, MJD._dut1 self = Some v ->
     time_get_delta_ut1_utc (MJD._time self) = Ok (Quantity v) \/
     time_get_delta_ut1_utc (MJD._time self) = Ok (Bare v) \/
     (raises (time_get_delta_ut1_utc (MJD._time self)) /\ v = fzero)) /\
  (forall v, MJD._tt self = Some v -> v = time_tt (MJD._time self)) /\
  (forall v, MJD._tdb self = Some v -> v = time_tdb (MJD._time self)).

Definition tt_of (self : MJD.ModifiedJulianDate F) : F :=
  match MJD._tt self with Some v => v | None => time_tt (MJD._time self) end.

Definition tdb_of (self : MJD.ModifiedJulianDate F) : F :=
  match MJD._tdb self with Some v => v | None => time_tdb (MJD._time self) end.

End Instant.

(** Two runs end the same way: the same value, or an exception of the same
    class (messages name the function that raised them). *)
Definition same_outcome {A} (r1 r2 : res A) : Prop :=
  match r1, r2 with
  | Ok a, Ok b => a = b
  | Raise e1, Raise e2 => class_of e1 = class_of e2
  | _, _ => False
  end.

End Spec.

(** ** A symbolic run-time

    Every library call is kept as an uninterpreted application, so that the
    value a function returns shows which calls were made, on what, and in
    which order.  Only the range of the Earth-orientation table is
    interpreted: MJDs given as literals are in range from 41684 to 60000. *)

Module Symbolic.

#[warnings="-register-all"]
Inductive term : Type :=
| Lit (z : Z)
| Var (name : string)
| App (f : string) (args : list term).

Definition app1 f (a : term) := App f [a].
Definition app2 f (a b : term) := App f [a; b].

#[export] Instance float64 : Float64 term := {|
  fzero := Lit 0;
  f0_5 := Var "0.5";
  fminus1 := Lit (-1);
  f1em10 := Var "1.e-10";
  fmul := app2 "mul";
  fdiv := app2 "div";
  fcos := app1 "cos";
  fdegrees := app1 "degrees";
  fradians := app1 "radians"
|}.

Definition in_IERS_table (x : term) : bool :=
  match x with
  | Lit z => (41684 <=? z)%Z && (z <? 60000)%Z
  | _ => true
  end.

Definition out_of_range : exn :=
  IndexError "(some) times are outside of range covered by IERS table.".

#[export] Instance astropy : Astropy term := {|
  Time := term * scale;
  Time_mjd := fun x s => (x, s);
  time_tai := fun t =>
    match snd t with scale_tai => fst t | scale_utc => app1 "tai" (fst t) end;
  time_utc := fun t =>
    match snd t with scale_utc => fst t | scale_tai => app1 "utc" (fst t) end;
  time_tt := fun t => app1 "tt" (fst t);
  time_tdb := fun t => app1 "tdb" (fst t);
  time_ut1 := fun t =>
    if in_IERS_table (fst t) then Ok (app1 "ut1" (fst t)) else Raise out_of_range;
  time_get_delta_ut1_utc := fun t =>
    if in_IERS_table (fst t) then Ok (Quantity (app1 "delta_ut1_utc" (fst t)))
    else Raise out_of_range
|}.

#[export] Instance linalg : Linalg term := {|
  np_dot := fun a b =>
    match a, b with
    | Nd2 r, Nd2 s => Nd2 (map (map (fun x => App "dot" (x :: List.concat r))) s)
    | _, _ => Nd1 []
    end;
  np_transpose := fun a => a
|}.

Definition elems (v : value term) : list term :=
  match v with
  | VFloat x => [x]
  | VArray xs | VList xs => xs
  end.

(** The arguments of star [i] of a vectorised call. *)
Definition star (cols : list (value term)) (i : nat) : list term :=
  map (fun c => nth i (elems c) (Var "?")) cols.

(** A vectorised primitive: one application per star, over arrays of one
    length. *)
Definition vectorised (f : string) (cols : list (value term)) (prms : list term)
  : res (list term) :=
  match cols with
  | VArray xs :: rest =>
      if forallb (fun c => isinstance_ndarray c &&
                           Nat.eqb (List.length (elems c)) (List.length xs)) rest
      then Ok (map (fun i => App f (star cols i ++ prms)) (seq 0 (List.length xs)))
      else Raise (ValueError "arrays of different lengths")
  | _ => Raise (TypeError "expected a numpy.ndarray")
  end.

Definition vectorised2 (f g : string) cols prms : res (list term * list term) :=
  res_bind (vectorised f cols prms) (fun a =>
  res_bind (vectorised g cols prms) (fun b => Ok (a, b))).

Definition scalar (f : string) (args : list (value term)) (prms : list term)
  : res term :=
  if forallb (fun c => negb (hasattr_len c)) args
  then Ok (App f (List.concat (map elems args) ++ prms))
  else Raise (TypeError "only size-1 arrays can be converted to Python scalars").

#[export] Instance sims : SimsUtils term := {|
  arcsec_of_radians := app1 "arcsecFromRadians";
  radians_of_arcsec := app1 "radiansFromArcsec";
  cartesianFromSpherical := fun ra dec =>
    Nd2 (map (fun i => [App "x" (star [ra; dec] i); App "y" (star [ra; dec] i);
                        App "z" (star [ra; dec] i)])
             (seq 0 (List.length (elems ra))));
  sphericalFromCartesian := fun xyz =>
    match xyz with
    | Nd2 rows => (VArray (map (App "lon") rows), VArray (map (App "lat") rows))
    | Nd1 xs => (VFloat (App "lon" xs), VFloat (App "lat" xs))
    end;
  haversine := fun a b c d =>
    match a with
    | VFloat _ => VFloat (App "haversine" (List.concat (map elems [a; b; c; d])))
    | _ => VArray (map (fun i => App "haversine" (star [a; b; c; d] i))
                       (seq 0 (List.length (elems a))))
    end
|}.

#[export] Instance palpy : Palpy term := {|
  mappa := fun epoch date => map (fun i => App "mappa" [Lit (Z.of_nat i); epoch; date])
                                 (seq 0 21);
  dcc2s := fun v => (App "dcc2s.a" v, App "dcc2s.b" v);
  refco := fun hm tdk pmb rh wl phi tlr eps =>
    (App "refco.a" [hm; tdk; pmb; rh; wl; phi; tlr; eps],
     App "refco.b" [hm; tdk; pmb; rh; wl; phi; tlr; eps]);
  refz := fun zu refa refb => App "refz" [zu; refa; refb];
  refzVector := fun zu refa refb => map (fun z => App "refz" [z; refa; refb]) zu;
  prenut := fun epoch date => Nd2 [[App "prenut" [epoch; date]]];
  epj := app1 "epj";
  pm := fun r0 d0 pr pd px rv ep0 ep1 =>
    res_bind (scalar "pm.ra" [r0; d0; pr; pd; px; rv] [ep0; ep1]) (fun a =>
    res_bind (scalar "pm.dec" [r0; d0; pr; pd; px; rv] [ep0; ep1]) (fun b =>
    Ok (a, b)));
  pmVector := fun r0 d0 pr pd px rv ep0 ep1 =>
    vectorised2 "pm.ra" "pm.dec" [r0; d0; pr; pd; px; rv] [ep0; ep1];
  mapqkVector := fun rm dm pr pd px rv amprms =>
    vectorised2 "mapqk.ra" "mapqk.dec" [rm; dm; pr; pd; px; rv] amprms;
  ampqkVector := fun ra da amprms =>
    vectorised2 "ampqk.ra" "ampqk.dec" [ra; da] amprms;
  aoppa := fun date dut elongm phim hm xp yp tdk pmb rh wl tlr =>
    [date; dut; elongm; phim; hm; xp; yp; tdk; pmb; rh; wl; tlr];
  aopqkVector := fun rap dap aoprms =>
    res_bind (vectorised "aopqk.az" [rap; dap] aoprms) (fun az =>
    res_bind (vectorised "aopqk.zd" [rap; dap] aoprms) (fun zd =>
    res_bind (vectorised "aopqk.ha" [rap; dap] aoprms) (fun ha =>
    res_bind (vectorised "aopqk.dec" [rap; dap] aoprms) (fun d =>
    res_bind (vectorised "aopqk.ra" [rap; dap] aoprms) (fun r =>
    Ok (az, zd, ha, d, r))))));
  de2hVector := fun ha dec phi =>
    (map (fun i => App "de2h.az" [nth i ha (Var "?"); nth i dec (Var "?"); phi])
         (seq 0 (List.length ha)),
     map (fun i => App "de2h.el" [nth i ha (Var "?"); nth i dec (Var "?"); phi])
         (seq 0 (List.length ha)));
  oapqkVector := fun type ob1 ob2 aoprms =>
    vectorised2 "oapqk.ra" "oapqk.dec" [ob1; ob2] (Var type :: aoprms)
|}.

(** An observatory and two instants, one inside the table and one outside. *)
Definition a_site : Site term :=
  mkSite (Var "height") (Lit 10) (Lit 283) (Var "pressure") (Var "humidity")
         (Var "latitude") (Var "longitude") (Var "lapseRate").

Definition instant_of (tai : Z) : MJD.ModifiedJulianDate term :=
  MJD.mkMJD (Lit tai, scale_tai) (Some (Lit tai)) None None None None None.

Definition an_observation : ObservationMetaData term :=
  mkObservationMetaData (Some a_site) (Some (instant_of 57388)).

(** The same observatory with pressure and humidity set to zero. *)
Definition a_dry_site : Site term :=
  mkSite (height a_site) (temperature a_site) (temperature_kelvin a_site)
         (Lit 0) (Lit 0)
         (latitude_rad a_site) (longitude_rad a_site) (lapseRate a_site).

Definition a_dry_observation : ObservationMetaData term :=
  mkObservationMetaData (Some a_dry_site) (Some (instant_of 57388)).

End Symbolic.

(** ** Instants over time: equality and sequences of reads *)

(** [t1 == t2] on astropy times. *)
Class TimeEq (F : Type) {astropy : Astropy F} : Type := {
  time_eqb : Time -> Time -> bool
}.

Module Instants.

Section Instants.
Context {F : Type} {float64 : Float64 F} {astropy : Astropy F}.

(** [ModifiedJulianDate.__eq__] *)
Definition __eq__ {time_eq : TimeEq F}
    (self other : MJD.ModifiedJulianDate F) : bool :=
  time_eqb (MJD._time self) (MJD._time other).

(** A program reading properties one after the other on one object: the
    object it is left with and every warning emitted on the way. *)
Fixpoint reads (ps : list Spec.property) (self : MJD.ModifiedJulianDate F)
  : MJD.ModifiedJulianDate F * list (MJD.warning F) :=
  match ps with
  | [] => (self, [])
  | p :: ps' =>
      let '(self', ws) := reads ps' (MJD.after (Spec.read p) self) in
      (self', MJD.warnings (Spec.read p) self ++ ws)
  end.

(** The fallbacks that have not been taken yet. *)
Definition pending (self : MJD.ModifiedJulianDate F) : nat :=
  (match MJD._ut1 self with None => 1 | Some _ => 0 end) +
  (match MJD._dut1 self with None => 1 | Some _ => 0 end).

End Instants.

End Instants.

(** ** ObservationMetaData.py: the whole class

    The record [ObservationMetaData] above is what the pipeline sees of an
    observation; [OMD.ObservationMetaData] is the object itself, with its
    constructor, its properties and its setters, and [OMD.for_pipeline]
    takes the one to the other. *)

(** Modelled from the spec: [SpatialBounds.getSpatialBounds] (SpatialBounds.py
    is not among the sources), the field-of-view bound computation; it is
    given the bound type, the pointing and the bound length, and may refuse
    them. *)
Class SpatialBoundsAPI (F : Type) : Type := {
  SpatialBounds : Type;
  getSpatialBounds : string -> F -> F -> value F -> res SpatialBounds
}.

(** What the class asks of the Python it runs on: whether a [str] has an
    [__iter__] attribute ([False] in Python 2, which the package's tests,
    indented with tabs and spaces mixed, are written in; [True] in
    Python 3), and the float an [int] stands for. *)
Class Python (F : Type) : Type := {
  str_has_iter : bool;
  float_of_int : Z -> F
}.

Module OMD.

(** [bandpassName]: a name or a list of names. *)
Inductive bands : Type :=
| BName (name : string)
| BNames (names : list string).

(** [m5] and [seeing] as they are passed in: a float or a list of floats. *)
Inductive per_band (F : Type) : Type :=
| Single (x : F)
| Many (xs : list F).
Arguments Single {F} x.
Arguments Many {F} xs.

(** A dict keyed by bandpass name: the latest assignment to a key is the
    one a look-up finds. *)
Definition dict (F : Type) : Type := list (string * F).

Definition setitem {F} (k : string) (v : F) (d : dict F) : dict F := (k, v) :: d.

Fixpoint getitem {F} (k : string) (d : dict F) : option F :=
  match d with
  | [] => None
  | (k', v) :: d' => if String.eqb k k' then Some v else getitem k d'
  end.

(** The characters of a string, each as a string: what iterating over a
    [str] yields. *)
Fixpoint chars (s : string) : list string :=
  match s with
  | EmptyString => []
  | String c s' => String c EmptyString :: chars s'
  end.

(** The [mjd] argument: a float, an int, a ModifiedJulianDate, or anything
    else. *)
Inductive mjd_arg (F : Type) {astropy : Astropy F} : Type :=
| MjdFloat (x : F)
| MjdInt (z : Z)
| MjdInstant (m : MJD.ModifiedJulianDate F)
| MjdOther.
Arguments MjdFloat {F astropy} x.
Arguments MjdInt {F astropy} z.
Arguments MjdInstant {F astropy} m.
Arguments MjdOther {F astropy}.

(** An attribute that may not have been assigned yet ([hasattr]). *)
Inductive attribute (A : Type) : Type :=
| Missing
| Attr (a : A).
Arguments Missing {A}.
Arguments Attr {A} a.

(** The phoSimMetaData dict, as far as the class reads it: [k in d] is
    "the field is not [None]", [d[k][0]] is the field's value, with the
    type OpSim gives it. *)
Record PhoSimMetaData (F : Type) : Type := mkPhoSimMetaData {
  Opsim_expmjd : option F;
  Opsim_rotskypos : option F;
  Opsim_filter : option bands;
  Opsim_rawseeing : option F;
  phoSim_pointingRA : option F;
  phoSim_pointingDec : option F
}.
Arguments mkPhoSimMetaData {F}.
Arguments Opsim_expmjd {F}.
Arguments Opsim_rotskypos {F}.
Arguments Opsim_filter {F}.
Arguments Opsim_rawseeing {F}.
Arguments phoSim_pointingRA {F}.
Arguments phoSim_pointingDec {F}.

Section Class.
Context {F : Type} {float64 : Float64 F} {astropy : Astropy F}
        {bounds_api : SpatialBoundsAPI F} {python : Python F}.
Local Notation "s1 +++ s2" := (String.append s1 s2)
  (at level 60, right associativity).

Record ObservationMetaData : Type := mkOMD {
  _bounds : option SpatialBounds;
  _boundType : option string;
  _bandpass : option bands;
  _skyBrightness : option F;
  _site : option (Site F);
  _epoch : F;
  _mjd : option (MJD.ModifiedJulianDate F);
  _rotSkyPos : option F;
  _pointingRA : option F;
  _pointingDec : option F;
  _boundLength : option (value F);
  _phoSimMetaData : option (PhoSimMetaData F);
  _m5 : option (dict F);
  _seeing : attribute (option (dict F))
}.

Definition set_bounds v s :=
  mkOMD v (_boundType s) (_bandpass s) (_skyBrightness s) (_site s) (_epoch s)
        (_mjd s) (_rotSkyPos s) (_pointingRA s) (_pointingDec s) (_boundLength s)
        (_phoSimMetaData s) (_m5 s) (_seeing s).
Definition set_boundType v s :=
  mkOMD (_bounds s) v (_bandpass s) (_skyBrightness s) (_site s) (_epoch s)
        (_mjd s) (_rotSkyPos s) (_pointingRA s) (_pointingDec s) (_boundLength s)
        (_phoSimMetaData s) (_m5 s) (_seeing s).
Definition set_bandpass v s :=
  mkOMD (_bounds s) (_boundType s) v (_skyBrightness s) (_site s) (_epoch s)
        (_mjd s) (_rotSkyPos s) (_pointingRA s) (_pointingDec s) (_boundLength s)
        (_phoSimMetaData s) (_m5 s) (_seeing s).
Definition set_skyBrightness v s :=
  mkOMD (_bounds s) (_boundType s) (_bandpass s) v (_site s) (_epoch s)
        (_mjd s) (_rotSkyPos s) (_pointingRA s) (_pointingDec s) (_boundLength s)
        (_phoSimMetaData s) (_m5 s) (_seeing s).
Definition set_site v s :=
  mkOMD (_bounds s) (_boundType s) (_bandpass s) (_skyBrightness s) v (_epoch s)
        (_mjd s) (_rotSkyPos s) (_pointingRA s) (_pointingDec s) (_boundLength s)
        (_phoSimMetaData s) (_m5 s) (_seeing s).
Definition set_mjd v s :=
  mkOMD (_bounds s) (_boundType s) (_bandpass s) (_skyBrightness s) (_site s) (_epoch s)
        v (_rotSkyPos s) (_pointingRA s) (_pointingDec s) (_boundLength s)
        (_phoSimMetaData s) (_m5 s) (_seeing s).
Definition set_rotSkyPos v s :=
  mkOMD (_bounds s) (_boundType s) (_bandpass s) (_skyBrightness s) (_site s) (_epoch s)
        (_mjd s) v (_pointingRA s) (_pointingDec s) (_boundLength s)
        (_phoSimMetaData s) (_m5 s) (_seeing s).
Definition set_pointingRA v s :=
  mkOMD (_bounds s) (_boundType s) (_bandpass s) (_skyBrightness s) (_site s) (_epoch s)
        (_mjd s) (_rotSkyPos s) v (_pointingDec s) (_boundLength s)
        (_phoSimMetaData s) (_m5 s) (_seeing s).
Definition set_pointingDec v s :=
  mkOMD (_bounds s) (_boundType s) (_bandpass s) (_skyBrightness s) (_site s) (_epoch s)
        (_mjd s) (_rotSkyPos s) (_pointingRA s) v (_boundLength s)
        (_phoSimMetaData s) (_m5 s) (_seeing s).
Definition set_boundLength v s :=
  mkOMD (_bounds s) (_boundType s) (_bandpass s) (_skyBrightness s) (_site s) (_epoch s)
        (_mjd s) (_rotSkyPos s) (_pointingRA s) (_pointingDec s) v
        (_phoSimMetaData s) (_m5 s) (_seeing s).
Definition set_phoSimMetaData v s :=
  mkOMD (_bounds s) (_boundType s) (_bandpass s) (_skyBrightness s) (_site s) (_epoch s)
        (_mjd s) (_rotSkyPos s) (_pointingRA s) (_pointingDec s) (_boundLength s)
        v (_m5 s) (_seeing s).
Definition set_m5 v s :=
  mkOMD (_bounds s) (_boundType s) (_bandpass s) (_skyBrightness s) (_site s) (_epoch s)
        (_mjd s) (_rotSkyPos s) (_pointingRA s) (_pointingDec s) (_boundLength s)
        (_phoSimMetaData s) v (_seeing s).
Definition set_seeing v s :=
  mkOMD (_bounds s) (_boundType s) (_bandpass s) (_skyBrightness s) (_site s) (_epoch s)
        (_mjd s) (_rotSkyPos s) (_pointingRA s) (_pointingDec s) (_boundLength s)
        (_phoSimMetaData s) (_m5 s) (Attr v).

(** A method runs on the object: it returns or raises, and leaves the
    object as it was when it stopped. *)
Definition Method (A : Type) : Type :=
  ObservationMetaData -> res A * ObservationMetaData.

Definition ret {A} (a : A) : Method A := fun self => (Ok a, self).
Definition raise {A} (e : exn) : Method A := fun self => (Raise e, self).
Definition bind {A B} (m : Method A) (k : A -> Method B) : Method B :=
  fun self =>
    match m self with
    | (Ok a, self1) => k a self1
    | (Raise e, self1) => (Raise e, self1)
    end.
Definition get {A} (f : ObservationMetaData -> A) : Method A :=
  fun self => (Ok (f self), self).
Definition assign (f : ObservationMetaData -> ObservationMetaData) : Method unit :=
  fun self => (Ok tt, f self).
Definition lift {A} (r : res A) : Method A := fun self => (r, self).

(** The object a method leaves when it returns. *)
Definition exec {A} (m : Method A) (self : ObservationMetaData)
  : res ObservationMetaData :=
  match m self with
  | (Ok _, self1) => Ok self1
  | (Raise e, _) => Raise e
  end.

Declare Scope method_scope.
Delimit Scope method_scope with method.
Notation "x <- c1 ;; c2" := (bind c1 (fun x => c2))
  (at level 61, c1 at next level, right associativity) : method_scope.
Notation "c1 ;;; c2" := (bind c1 (fun _ => c2))
  (at level 61, right associativity) : method_scope.
Local Open Scope method_scope.

(** [if cond: raise RuntimeError(msg)] *)
Definition raise_if (cond : bool) (msg : string) : Method unit :=
  if cond then raise (RuntimeError msg) else ret tt.

(** [if cond: body] *)
Definition when (cond : bool) (body : Method unit) : Method unit :=
  if cond then body else ret tt.

Definition is_some {A} (o : option A) : bool :=
  match o with Some _ => true | None => false end.

(** [hasattr(b, '__iter__')] and [len(b)] on a bandpass, and the names
    [zip] runs over. *)
Definition bandpass_has_iter (b : bands) : bool :=
  match b with BNames _ => true | BName _ => str_has_iter end.
Definition bandpass_len (b : bands) : nat :=
  match b with BNames l => List.length l | BName s => String.length s end.
Definition bandpass_iter (b : bands) : list string :=
  match b with BNames l => l | BName s => chars s end.

Definition _assignDictKeyedToBandpass (inputValue : option (per_band F))
    (inputName : string) : Method (option (dict F)) :=
  match inputValue with
  | None => ret None
  | Some inputValue =>
      the_bandpass <- get _bandpass ;;
      match the_bandpass with
      | None =>
          raise (RuntimeError ("You cannot set " +++ inputName +++
                               " if you have not set " +++
                               "bandpass in ObservationMetaData"))
      | Some the_bandpass =>
          let bandpassIsList := bandpass_has_iter the_bandpass in
          let inputIsList :=
            match inputValue with Many _ => true | Single _ => false end in
          raise_if (bandpassIsList && negb inputIsList)
            ("You passed a list of bandpass names" +++
             "but did not pass a list of " +++ inputName +++
             " to ObservationMetaData") ;;;
          raise_if (inputIsList && negb bandpassIsList)
            ("You passed a list of " +++ inputName +++ " " +++
             "but did not pass a list of bandpass names to ObservationMetaData") ;;;
          match inputValue with
          | Many xs =>
              raise_if (negb (Nat.eqb (List.length xs) (bandpass_len the_bandpass)))
                ("The list of " +++ inputName +++
                 " you passed to ObservationMetaData " +++
                 "has a different length than the list of bandpass names you passed")
          | Single _ => ret tt
          end ;;;
          if bandpassIsList then
            match inputValue with
            | Many xs =>
                raise_if (negb (Nat.eqb (List.length xs) (bandpass_len the_bandpass)))
                  ("In ObservationMetaData you tried to assign bandpass " +++
                   "and " +++ inputName +++ " with lists of different length") ;;;
                ret (Some (fold_left (fun outputDict bm => setitem (fst bm) (snd bm) outputDict)
                                     (combine (bandpass_iter the_bandpass) xs) []))
            | Single _ =>
                raise (TypeError "object of type 'float' has no len()")
            end
          else
            match the_bandpass, inputValue with
            | BName b, Single x => ret (Some (setitem b x []))
            | _, _ => raise (TypeError "unhashable type: 'list'")
            end
      end
  end.

Definition _buildBounds : Method unit :=
  boundType <- get _boundType ;;
  match boundType with
  | None => ret tt
  | Some boundType =>
      boundLength <- get _boundLength ;;
      match boundLength with
      | None => ret tt
      | Some boundLength =>
          pointingRA <- get _pointingRA ;;
          pointingDec <- get _pointingDec ;;
          match pointingRA, pointingDec with
          | Some pointingRA, Some pointingDec =>
              b <- lift (getSpatialBounds boundType pointingRA pointingDec
                                          boundLength) ;;
              assign (set_bounds (Some b))
          | _, _ => ret tt
          end
      end
  end.

(** [ModifiedJulianDate(TAI=x)] *)
Definition instant_of_TAI (x : F) : Method (MJD.ModifiedJulianDate F) :=
  lift (MJD.__init__ (Some x) None).

(** Called with a dict only, so that the test [self._phoSimMetaData is not
    None] that follows the assignment holds. *)
Definition _assignPhoSimMetaData (metaData : PhoSimMetaData F) : Method unit :=
  assign (set_phoSimMetaData (Some metaData)) ;;;
  match Opsim_expmjd metaData with
  | Some expmjd =>
      the_mjd <- get _mjd ;;
      raise_if (is_some the_mjd)
        "WARNING in ObservationMetaData trying to overwrite mjd with phoSimMetaData" ;;;
      m <- instant_of_TAI expmjd ;;
      assign (set_mjd (Some m))
  | None => ret tt
  end ;;;
  match Opsim_rotskypos metaData with
  | Some rotskypos =>
      rotSkyPos <- get _rotSkyPos ;;
      raise_if (is_some rotSkyPos)
        ("WARNING in ObservationMetaData trying to overwrite rotSkyPos " +++
         "with phoSimMetaData") ;;;
      assign (set_rotSkyPos (Some rotskypos))
  | None => ret tt
  end ;;;
  match Opsim_filter metaData with
  | Some filter =>
      the_bandpass <- get _bandpass ;;
      raise_if (is_some the_bandpass)
        ("WARNING in ObservationMetaData trying to overwrite bandpass " +++
         "with phoSimMetaData") ;;;
      assign (set_bandpass (Some filter))
  | None => ret tt
  end ;;;
  match Opsim_rawseeing metaData with
  | Some _ =>
      seeing <- get _seeing ;;
      raise_if (match seeing with Attr (Some _) => true | _ => false end)
        ("WARNING in ObservationMetaDAta trying to overwrite seeing " +++
         "with phoSimMetaData")
  | None => ret tt
  end ;;;
  raise_if (is_some (phoSim_pointingDec metaData) &&
            negb (is_some (phoSim_pointingRA metaData)))
    ("In ObservationMetaData, your phoSimMetaData specifies pointingDec, " +++
     "but not pointingRA") ;;;
  raise_if (is_some (phoSim_pointingRA metaData) &&
            negb (is_some (phoSim_pointingDec metaData)))
    ("In ObservationMetaData, your phoSimMetaData specifies pointingRA, " +++
     "but not pointingDec") ;;;
  match phoSim_pointingRA metaData, phoSim_pointingDec metaData with
  | Some ra, Some dec =>
      pointingRA <- get _pointingRA ;;
      raise_if (is_some pointingRA)
        ("WARNING in ObservationMetaData trying to overwrite pointingRA " +++
         "with phoSimMetaData") ;;;
      pointingDec <- get _pointingDec ;;
      raise_if (is_some pointingDec)
        ("WARNING in ObservationMetaData trying to overwrite pointingDec " +++
         "with phoSimMetaData") ;;;
      assign (set_pointingRA (Some ra)) ;;;
      assign (set_pointingDec (Some dec))
  | _, _ => ret tt
  end ;;;
  _buildBounds.

(** The constructor.  [self._seeing] does not exist yet when the
    phoSimMetaData are assigned. *)
Definition __init__ (boundType : option string) (boundLength : option (value F))
    (mjd : option (mjd_arg F)) (pointingRA pointingDec rotSkyPos : option F)
    (bandpassName : option bands) (phoSimMetaData : option (PhoSimMetaData F))
    (site : option (Site F)) (m5 : option (per_band F)) (skyBrightness : option F)
    (seeing : option (per_band F)) (epoch : F) : res ObservationMetaData :=
  res_bind
    (match mjd with
     | Some (MjdFloat x) => res_map Some (MJD.__init__ (Some x) None)
     | Some (MjdInt z) => res_map Some (MJD.__init__ (Some (float_of_int z)) None)
     | Some (MjdInstant m) => Ok (Some m)
     | Some MjdOther =>
         Raise (RuntimeError ("You must pass either a float or a ModifiedJulianDate " +++
                              "as the kwarg mjd to ObservationMetaData"))
     | None => Ok None
     end)
    (fun the_mjd =>
  let self :=
    mkOMD None boundType bandpassName skyBrightness site epoch the_mjd
          (match rotSkyPos with Some x => Some (fradians x) | None => None end)
          (match pointingRA with Some x => Some (fradians x) | None => None end)
          (match pointingDec with Some x => Some (fradians x) | None => None end)
          (match boundLength with Some v => Some (np_radians v) | None => None end)
          None None Missing in
  exec
    (match phoSimMetaData with
     | Some metaData => _assignPhoSimMetaData metaData
     | None => assign (set_phoSimMetaData None)
     end ;;;
     the_m5 <- _assignDictKeyedToBandpass m5 "m5" ;;
     assign (set_m5 the_m5) ;;;
     the_seeing <- _assignDictKeyedToBandpass seeing "seeing" ;;
     assign (set_seeing the_seeing) ;;;
     bounds <- get _bounds ;;
     when (negb (is_some bounds)) _buildBounds)
    self).

(** *** Properties *)

Definition pointingRA (self : ObservationMetaData) : option F :=
  match _pointingRA self with Some x => Some (fdegrees x) | None => None end.
Definition pointingDec (self : ObservationMetaData) : option F :=
  match _pointingDec self with Some x => Some (fdegrees x) | None => None end.
Definition boundLength (self : ObservationMetaData) : option (value F) :=
  match _boundLength self with None => None | Some v => Some (np_degrees v) end.
Definition boundType (self : ObservationMetaData) := _boundType self.
Definition bounds (self : ObservationMetaData) := _bounds self.
Definition rotSkyPos (self : ObservationMetaData) : option F :=
  match _rotSkyPos self with Some x => Some (fdegrees x) | None => None end.
Definition m5 (self : ObservationMetaData) := _m5 self.
Definition seeing (self : ObservationMetaData) := _seeing self.
Definition site (self : ObservationMetaData) := _site self.
Definition mjd (self : ObservationMetaData) := _mjd self.
Definition bandpass (self : ObservationMetaData) : bands :=
  match _bandpass self with Some b => b | None => BName "r" end.
Definition skyBrightness (self : ObservationMetaData) := _skyBrightness self.
Definition phoSimMetaData (self : ObservationMetaData) := _phoSimMetaData self.

(** [k in self._phoSimMetaData], guarded by [self._phoSimMetaData is not None] *)
Definition set_by_phoSim {A} (key : PhoSimMetaData F -> option A)
    (self : ObservationMetaData) : bool :=
  match _phoSimMetaData self with
  | Some d => is_some (key d)
  | None => false
  end.

(** *** Setters *)

Definition pointingRA_setter (value : F) : Method unit :=
  guarded <- get (set_by_phoSim phoSim_pointingRA) ;;
  raise_if guarded ("WARNING overwriting pointingRA " +++
                    "which was set by phoSimMetaData") ;;;
  assign (set_pointingRA (Some (fradians value))) ;;;
  _buildBounds.

Definition pointingDec_setter (value : F) : Method unit :=
  guarded <- get (set_by_phoSim phoSim_pointingDec) ;;
  raise_if guarded ("WARNING overwriting pointingDec " +++
                    "which was set by phoSimMetaData") ;;;
  assign (set_pointingDec (Some (fradians value))) ;;;
  _buildBounds.

Definition boundLength_setter (value : value F) : Method unit :=
  assign (set_boundLength (Some (np_radians value))) ;;;
  _buildBounds.

Definition boundType_setter (value : option string) : Method unit :=
  assign (set_boundType value) ;;;
  _buildBounds.

Definition rotSkyPos_setter (value : F) : Method unit :=
  guarded <- get (set_by_phoSim Opsim_rotskypos) ;;
  raise_if guarded ("WARNING overwriting rotSkyPos " +++
                    "which was set by phoSimMetaData") ;;;
  assign (set_rotSkyPos (Some (fradians value))).

Definition m5_setter (value : option (per_band F)) : Method unit :=
  the_m5 <- _assignDictKeyedToBandpass value "m5" ;;
  assign (set_m5 the_m5).

Definition seeing_setter (value : option (per_band F)) : Method unit :=
  guarded <- get (set_by_phoSim Opsim_rawseeing) ;;
  raise_if guarded ("In ObservationMetaData trying to overwrite seeing " +++
                    "which was set by phoSimMetaData") ;;;
  the_seeing <- _assignDictKeyedToBandpass value "seeing" ;;
  assign (set_seeing the_seeing).

Definition site_setter (value : option (Site F)) : Method unit :=
  assign (set_site value).

Definition skyBrightness_setter (value : option F) : Method unit :=
  assign (set_skyBrightness value).

Definition mjd_setter (value : mjd_arg F) : Method unit :=
  guarded <- get (set_by_phoSim Opsim_expmjd) ;;
  raise_if guarded ("WARNING overwriting mjd " +++
                    "which was set by phoSimMetaData") ;;;
  match value with
  | MjdFloat x =>
      m <- instant_of_TAI x ;;
      assign (set_mjd (Some m))
  | MjdInstant m => assign (set_mjd (Some m))
  | MjdInt _ | MjdOther =>
      raise (RuntimeError "You can only set mjd to either a float or a ModifiedJulianDate")
  end.

Definition setBandpassM5andSeeing (bandpassName : option bands)
    (m5 seeing : option (per_band F)) : Method unit :=
  filter_set <- get (set_by_phoSim Opsim_filter) ;;
  rawseeing_set <- get (set_by_phoSim Opsim_rawseeing) ;;
  raise_if filter_set ("WARNING overwriting bandpass " +++
                       "which was set by phoSimMetaData") ;;;
  raise_if rawseeing_set ("WARNING overwriting seeing " +++
                          "which was set by phoSimMetaData") ;;;
  assign (set_bandpass bandpassName) ;;;
  the_m5 <- _assignDictKeyedToBandpass m5 "m5" ;;
  assign (set_m5 the_m5) ;;;
  the_seeing <- _assignDictKeyedToBandpass seeing "seeing" ;;
  assign (set_seeing the_seeing).

Definition phoSimMetaData_setter (value : PhoSimMetaData F) : Method unit :=
  when (is_some (phoSim_pointingRA value)) (assign (set_pointingRA None)) ;;;
  when (is_some (phoSim_pointingDec value)) (assign (set_pointingDec None)) ;;;
  when (is_some (Opsim_rotskypos value)) (assign (set_rotSkyPos None)) ;;;
  when (is_some (Opsim_expmjd value)) (assign (set_mjd None)) ;;;
  when (is_some (Opsim_filter value))
    (assign (set_bandpass None) ;;;
     assign (set_m5 None) ;;;
     assign (set_seeing None)) ;;;
  _assignPhoSimMetaData value.

End Class.

Arguments ObservationMetaData F {astropy bounds_api}.

End OMD.

(** What the pipeline reads of the object: [obs_metadata.site] and
    [obs_metadata.mjd]. *)
Definition for_pipeline {F : Type} {astropy : Astropy F}
    {bounds_api : SpatialBoundsAPI F} (self : OMD.ObservationMetaData F)
  : ObservationMetaData F :=
  mkObservationMetaData (OMD.site self) (OMD.mjd self).

(** ** Vocabulary for the observation object *)

Module OMDSpec.

Section Spec.
Context {F : Type} {float64 : Float64 F} {astropy : Astropy F}
        {bounds_api : SpatialBoundsAPI F} {python : Python F}.

(** The Instant [ModifiedJulianDate(TAI=x)] *)
Definition instant (x : F) : MJD.ModifiedJulianDate F :=
  MJD.mkMJD (Time_mjd x scale_tai) (Some x) None None None None None.

(** The Instant the constructor makes of its [mjd] argument. *)
Definition instant_of_arg (a : OMD.mjd_arg F) : option (MJD.ModifiedJulianDate F) :=
  match a with
  | OMD.MjdFloat x => Some (instant x)
  | OMD.MjdInt z => Some (instant (float_of_int z))
  | OMD.MjdInstant m => Some m
  | OMD.MjdOther => None
  end.

(** The object as the constructor has it before it turns to
    phoSimMetaData, [m5] and [seeing]: angles in radians, no bounds yet. *)
Definition fresh (boundType : option string) (boundLength : option (value F))
    (the_mjd : option (MJD.ModifiedJulianDate F))
    (pointingRA pointingDec rotSkyPos : option F)
    (bandpassName : option OMD.bands) (site : option (Site F))
    (skyBrightness : option F) (epoch : F) : OMD.ObservationMetaData F :=
  OMD.mkOMD None boundType bandpassName skyBrightness site epoch the_mjd
            (option_map fradians rotSkyPos)
            (option_map fradians pointingRA)
            (option_map fradians pointingDec)
            (option_map np_radians boundLength)
            None None OMD.Missing.

(** The object with the entries of a phoSimMetaData dict written in,
    before the bounds are rebuilt. *)
Definition written (d : OMD.PhoSimMetaData F) (self : OMD.ObservationMetaData F)
  : OMD.ObservationMetaData F :=
  OMD.mkOMD
    (OMD._bounds self) (OMD._boundType self)
    (match OMD.Opsim_filter d with Some f => Some f | None => OMD._bandpass self end)
    (OMD._skyBrightness self) (OMD._site self) (OMD._epoch self)
    (match OMD.Opsim_expmjd d with Some x => Some (instant x) | None => OMD._mjd self end)
    (match OMD.Opsim_rotskypos d with Some r => Some r | None => OMD._rotSkyPos self end)
    (match OMD.phoSim_pointingRA d, OMD.phoSim_pointingDec d with
     | Some ra, Some _ => Some ra
     | _, _ => OMD._pointingRA self
     end)
    (match OMD.phoSim_pointingRA d, OMD.phoSim_pointingDec d with
     | Some _, Some dec => Some dec
     | _, _ => OMD._pointingDec self
     end)
    (OMD._boundLength self) (Some d) (OMD._m5 self) (OMD._seeing self).

(** The bounds [_buildBounds] leaves in the object: those of the
    field-of-view computation when the bound type, the bound length and
    both pointing angles are known, the ones already there otherwise. *)
Definition bounds_of (self : OMD.ObservationMetaData F)
  : res (option SpatialBounds) :=
  match OMD._boundType self, OMD._boundLength self,
        OMD._pointingRA self, OMD._pointingDec self with
  | Some t, Some l, Some ra, Some dec => res_map Some (getSpatialBounds t ra dec l)
  | _, _, _, _ => Ok (OMD._bounds self)
  end.

(** The object still holds what the phoSimMetaData dict [d] gave it. *)
Definition holds (d : OMD.PhoSimMetaData F) (self : OMD.ObservationMetaData F)
  : Prop :=
  OMD._phoSimMetaData self = Some d /\
  (forall x, OMD.Opsim_expmjd d = Some x -> OMD._mjd self = Some (instant x)) /\
  (forall r, OMD.Opsim_rotskypos d = Some r -> OMD._rotSkyPos self = Some r) /\
  (forall f, OMD.Opsim_filter d = Some f -> OMD._bandpass self = Some f) /\
  (forall ra, OMD.phoSim_pointingRA d = Some ra -> OMD._pointingRA self = Some ra) /\
  (forall dec, OMD.phoSim_pointingDec d = Some dec -> OMD._pointingDec self = Some dec).

(** The setters a program may call on an observation, the phoSimMetaData
    setter apart. *)
Inductive setter_call : Type :=
| SetPointingRA (value : F)
| SetPointingDec (value : F)
| SetBoundLength (value : value F)
| SetBoundType (value : option string)
| SetRotSkyPos (value : F)
| SetM5 (value : option (OMD.per_band F))
| SetSeeing (value : option (OMD.per_band F))
| SetSite (value : option (Site F))
| SetSkyBrightness (value : option F)
| SetMjd (value : OMD.mjd_arg F)
| SetBandpassM5andSeeing (bandpassName : option OMD.bands)
                         (m5 seeing : option (OMD.per_band F)).

Definition call (c : setter_call) : OMD.Method unit :=
  match c with
  | SetPointingRA v => OMD.pointingRA_setter v
  | SetPointingDec v => OMD.pointingDec_setter v
  | SetBoundLength v => OMD.boundLength_setter v
  | SetBoundType v => OMD.boundType_setter v
  | SetRotSkyPos v => OMD.rotSkyPos_setter v
  | SetM5 v => OMD.m5_setter v
  | SetSeeing v => OMD.seeing_setter v
  | SetSite v => OMD.site_setter v
  | SetSkyBrightness v => OMD.skyBrightness_setter v
  | SetMjd v => OMD.mjd_setter v
  | SetBandpassM5andSeeing b m s => OMD.setBandpassM5andSeeing b m s
  end.

(** The object after a sequence of calls, each of which returned or was
    caught raising. *)
Fixpoint after_calls (cs : list setter_call) (self : OMD.ObservationMetaData F)
  : OMD.ObservationMetaData F :=
  match cs with
  | [] => self
  | c :: cs' => after_calls cs' (snd (call c self))
  end.

End Spec.

End OMDSpec.

(** ** The symbolic run-time, for the observation object *)

Module SymbolicObservation.
Import Symbolic.

#[export] Instance python2 : Python term := {|
  str_has_iter := false;
  float_of_int := Lit
|}.

#[export] Instance bounds_api : SpatialBoundsAPI term := {|
  SpatialBounds := term;
  getSpatialBounds := fun boundType ra dec length =>
    if String.eqb boundType "circle" || String.eqb boundType "box"
    then Ok (App boundType (ra :: dec :: elems length))
    else Raise (RuntimeError "There is no SpatialBounds class keyed to this boundType")
|}.

#[export] Instance time_eq : TimeEq term := {|
  time_eqb := fun t1 t2 =>
    match time_tai t1, time_tai t2 with
    | Lit a, Lit b => Z.eqb a b
    | _, _ => false
    end
|}.

(** An observation given by hand: a circular field of view, a time as a
    float, two bandpasses with their limiting magnitudes. *)
Abbreviation by_hand :=
  (OMD.__init__ (Some "circle") (Some (VFloat (Var "radius")))
                (Some (OMD.MjdFloat (Lit 57388)))
                (Some (Var "ra")) (Some (Var "dec")) (Some (Var "rot"))
                (Some (OMD.BNames ["u"; "g"])) None (Some a_site)
                (Some (OMD.Many [Lit 23; Lit 24])) None None (Lit 2000)).

(** An observation whose time, rotation, filter and pointing come from
    phoSimMetaData. *)
Definition phoSim_dict : OMD.PhoSimMetaData term :=
  OMD.mkPhoSimMetaData (Some (Lit 57388)) (Some (Var "rot")) (Some (OMD.BName "r"))
                       (Some (Var "rawseeing")) (Some (Var "ra")) (Some (Var "dec")).

Abbreviation from_phoSim :=
  (OMD.__init__ (Some "circle") (Some (VFloat (Var "radius"))) None None None None
                None (Some phoSim_dict) (Some a_site) None None None (Lit 2000)).

(** An observation without a time. *)
Abbreviation timeless :=
  (OMD.__init__ None None None None None None None None (Some a_site)
                None None None (Lit 2000)).

Definition blank : OMD.ObservationMetaData term :=
  OMDSpec.fresh None None None None None None None None None (Lit 2000).

Definition constructed (r : res (OMD.ObservationMetaData term))
  : OMD.ObservationMetaData term :=
  match r with Ok om => om | Raise _ => blank end.

(** The observed place of one star, altitude and azimuth asked for. *)
Definition observed_with_altAz : array2 term * option (array2 term) :=
  Eval vm_compute in
  match Astrometry._observedFromAppGeo (VArray [Var "ra1"]) (VArray [Var "dec1"])
                                       true true (Var "wavelength")
                                       (Some an_observation) with
  | Ok r => r
  | Raise _ => ((VFloat (Lit 0), VFloat (Lit 0)), None)
  end.

Definition by_hand_object := Eval vm_compute in constructed by_hand.
Definition from_phoSim_object := Eval vm_compute in constructed from_phoSim.
Definition timeless_object := Eval vm_compute in constructed timeless.

(** The hand-made observation after it was assigned the phoSimMetaData. *)
Definition taken_over : OMD.ObservationMetaData term :=
  Eval vm_compute in snd (OMD.phoSimMetaData_setter phoSim_dict by_hand_object).

End SymbolicObservation.

(** * Theorems *)

(** ** The Instant *)

Section InstantFacts.
Context {F : Type} {float64 : Float64 F} {astropy : Astropy F}.
Import Spec.

Ltac run_property :=
  unfold MJD.TAI, MJD.UTC, MJD.UT1, MJD.dut1, MJD.TT, MJD.TDB,
         MJD.cached, MJD.try_except, MJD.bind, MJD.get, MJD.ret,
         MJD.modify, MJD.warn, MJD.call;
  cbn.

(** Case analysis on what is cached and on what astropy answers. *)
Ltac split_cases :=
  repeat (match goal with
          | |- context [match ?x with _ => _ end] => is_var x; destruct x
          | |- context [match time_ut1 ?t with _ => _ end] =>
              destruct (time_ut1 t) eqn:?
          | |- context [match time_get_delta_ut1_utc ?t with _ => _ end] =>
              destruct (time_get_delta_ut1_utc t) as [[?|?]|?] eqn:?
          end; cbn).

Lemma UTC_run (self : MJD.ModifiedJulianDate F) :
  MJD.UTC self =
  (Ok (MJD.utc_of self),
   match MJD._utc self with
   | Some _ => self
   | None => MJD.set_utc (time_utc (MJD._time self)) self
   end,
   []).
Proof.
  run_property. unfold MJD.utc_of. destruct (MJD._utc self); reflexivity.
Qed.

Lemma TT_run (self : MJD.ModifiedJulianDate F) :
  MJD.TT self =
  (Ok (tt_of self),
   match MJD._tt self with
   | Some _ => self
   | None => MJD.set_tt (time_tt (MJD._time self)) self
   end,
   []).
Proof.
  run_property. unfold tt_of. destruct (MJD._tt self); reflexivity.
Qed.

Lemma TDB_run (self : MJD.ModifiedJulianDate F) :
  MJD.TDB self =
  (Ok (tdb_of self),
   match MJD._tdb self with
   | Some _ => self
   | None => MJD.set_tdb (time_tdb (MJD._time self)) self
   end,
   []).
Proof.
  run_property. unfold tdb_of. destruct (MJD._tdb self); reflexivity.
Qed.

Lemma result_TT (self : MJD.ModifiedJulianDate F) :
  MJD.result MJD.TT self = Ok (tt_of self).
Proof. unfold MJD.result. rewrite TT_run. reflexivity. Qed.

Lemma result_TDB (self : MJD.ModifiedJulianDate F) :
  MJD.result MJD.TDB self = Ok (tdb_of self).
Proof. unfold MJD.result. rewrite TDB_run. reflexivity. Qed.

Lemma result_UTC (self : MJD.ModifiedJulianDate F) :
  MJD.result MJD.UTC self = Ok (MJD.utc_of self).
Proof. unfold MJD.result. rewrite UTC_run. reflexivity. Qed.

(** The fallback branch of [UT1], taken on the first read outside the table. *)
Lemma UT1_run_outside (self : MJD.ModifiedJulianDate F) :
  raises (time_ut1 (MJD._time self)) ->
  MJD._ut1 self = None ->
  MJD.UT1 self =
  (Ok (MJD.utc_of self),
   MJD.set_ut1 (MJD.utc_of self) (MJD.after MJD.UTC self),
   [MJD.OutsideIERS (MJD.utc_of self)]).
Proof.
  intros [e He] Hc. unfold MJD.after. rewrite UTC_run.
  unfold MJD.UT1, MJD.cached, MJD.try_except, MJD.bind, MJD.get, MJD.call,
         MJD.warn, MJD.modify, MJD.ret.
  rewrite Hc, He, UTC_run. cbv beta iota. rewrite UTC_run.
  unfold MJD.utc_of. cbn.
  destruct (MJD._utc self) eqn:E; cbn; rewrite ?E; reflexivity.
Qed.

Lemma dut1_run_outside (self : MJD.ModifiedJulianDate F) :
  raises (time_get_delta_ut1_utc (MJD._time self)) ->
  MJD._dut1 self = None ->
  MJD.dut1 self =
  (Ok fzero,
   MJD.set_dut1 fzero (MJD.after MJD.UTC self),
   [MJD.OutsideIERS (MJD.utc_of self)]).
Proof.
  intros [e He] Hc. unfold MJD.after. rewrite UTC_run.
  unfold MJD.dut1, MJD.cached, MJD.try_except, MJD.bind, MJD.get, MJD.call,
         MJD.warn, MJD.modify, MJD.ret.
  rewrite Hc, He, UTC_run. cbv beta iota.
  unfold MJD.utc_of. cbn.
  destruct (MJD._utc self) eqn:E; cbn; rewrite ?E; reflexivity.
Qed.

(** Reads never touch the underlying time nor change what [UTC] returns. *)
Lemma read_keeps_time p (self : MJD.ModifiedJulianDate F) :
  MJD._time (MJD.after (read p) self) = MJD._time self /\
  MJD.utc_of (MJD.after (read p) self) = MJD.utc_of self.
Proof.
  unfold MJD.after, MJD.utc_of.
  destruct self as [t tai utc tt_ tdb ut1 dut1].
  destruct p; cbn [read]; run_property; split_cases; auto.
Qed.

Lemma init_coherent TAI UTC (self : MJD.ModifiedJulianDate F) :
  MJD.__init__ TAI UTC = Ok self -> coherent self.
Proof.
  unfold MJD.__init__. intros H.
  destruct TAI, UTC; inversion H; subst; clear H;
    repeat split; cbn; intros; discriminate.
Qed.

Lemma read_coherent p (self : MJD.ModifiedJulianDate F) :
  coherent self -> coherent (MJD.after (read p) self).
Proof.
  intros (H1 & H2 & H3 & H4).
  unfold coherent, raises, MJD.after, MJD.utc_of in *.
  destruct self as [t tai utc tt_ tdb ut1 dut1]; cbn in *.
  destruct p; cbn [read]; run_property; split_cases;
    repeat split; intros; cbn in *;
    repeat match goal with
           | H : Some _ = Some _ |- _ => inversion H; subst; clear H
           end;
    eauto 6; try discriminate.
Qed.

Lemma reachable_coherent (self : MJD.ModifiedJulianDate F) :
  reachable self -> coherent self.
Proof.
  induction 1 as [TAI UTC self H | p self _ IH].
  - exact (init_coherent _ _ _ H).
  - exact (read_coherent _ _ IH).
Qed.

(** A read leaves every later read with the same value: the pipeline may
    read an Instant it was handed at any point of its life. *)
Lemma read_stable p q (self : MJD.ModifiedJulianDate F) :
  MJD.result (read q) (MJD.after (read p) self) = MJD.result (read q) self.
Proof.
  unfold MJD.after, MJD.result.
  destruct self as [t tai utc tt_ tdb ut1 dut1].
  destruct p, q; cbn [read]; run_property; split_cases;
    try reflexivity; try congruence.
Qed.

(** C1 (as amended).  Construction fails, with the configuration error,
    exactly when neither TAI nor UTC is supplied; it succeeds as soon as one
    is supplied, and an Instant given TAI is built from TAI in the atomic
    scale whatever is passed as UTC. *)
Theorem init_fails_exactly_when_neither_given :
  (forall TAI UTC : option F,
     is_configuration_error (MJD.__init__ TAI UTC) <-> TAI = None /\ UTC = None) /\
  (forall TAI UTC : option F,
     succeeds (MJD.__init__ TAI UTC) <-> TAI <> None \/ UTC <> None) /\
  (forall (tai : F) (UTC : option F),
     MJD.__init__ (Some tai) UTC =
     Ok (MJD.mkMJD (Time_mjd tai scale_tai) (Some tai) None None None None None)) /\
  (forall utc : F,
     MJD.__init__ None (Some utc) =
     Ok (MJD.mkMJD (Time_mjd utc scale_utc) None (Some utc) None None None None)).
Proof.
  unfold is_configuration_error, succeeds.
  repeat split; intros; try reflexivity.
  - destruct TAI, H as [msg H]; [discriminate | reflexivity ].
  - destruct TAI, UTC, H as [msg H]; try discriminate; reflexivity.
  - destruct H as [-> ->]. eexists; reflexivity.
  - destruct TAI as [tai|]; [left; discriminate|].
    destruct UTC as [utc|]; [right; discriminate|].
    destruct H as [a H]; discriminate.
  - destruct TAI as [tai|].
    + eexists; reflexivity.
    + destruct UTC as [utc|]; [eexists; reflexivity|].
      destruct H as [H|H]; contradiction H; reflexivity.
Qed.

Lemma cached_hit field store compute (self : MJD.ModifiedJulianDate F) v :
  field self = Some v ->
  MJD.cached field store compute self = (Ok v, self, []).
Proof.
  intros H. unfold MJD.cached, MJD.bind, MJD.get, MJD.ret. rewrite H. reflexivity.
Qed.

Lemma UT1_outside (self : MJD.ModifiedJulianDate F) :
  coherent self ->
  raises (time_ut1 (MJD._time self)) ->
  MJD.result MJD.UT1 self = Ok (MJD.utc_of self) /\
  MJD.warnings MJD.UT1 self =
    match MJD._ut1 self with
    | None => [MJD.OutsideIERS (MJD.utc_of self)]
    | Some _ => []
    end.
Proof.
  intros (C1 & _) Hraises. unfold MJD.result, MJD.warnings.
  destruct (MJD._ut1 self) as [v|] eqn:E.
  - unfold MJD.UT1. rewrite (cached_hit _ _ _ _ v E). cbn.
    destruct (C1 v eq_refl) as [H | [_ ->]]; [|split; reflexivity].
    destruct Hraises as [e He]. congruence.
  - rewrite (UT1_run_outside _ Hraises E). split; reflexivity.
Qed.

Lemma dut1_outside (self : MJD.ModifiedJulianDate F) :
  coherent self ->
  raises (time_get_delta_ut1_utc (MJD._time self)) ->
  MJD.result MJD.dut1 self = Ok fzero /\
  MJD.warnings MJD.dut1 self =
    match MJD._dut1 self with
    | None => [MJD.OutsideIERS (MJD.utc_of self)]
    | Some _ => []
    end.
Proof.
  intros (_ & C2 & _) Hraises. unfold MJD.result, MJD.warnings.
  destruct (MJD._dut1 self) as [v|] eqn:E.
  - unfold MJD.dut1. rewrite (cached_hit _ _ _ _ v E). cbn.
    destruct Hraises as [e He].
    destruct (C2 v eq_refl) as [H | [H | [_ ->]]];
      [congruence | congruence | split; reflexivity].
  - rewrite (dut1_run_outside _ Hraises E). split; reflexivity.
Qed.

(** C9.  On an Instant outside the Earth-orientation table, [UT1] returns
    what [UTC] returns and [dut1] returns 0.0; neither read raises, and the
    read that computes the value (the cache being empty) emits the one
    warning. *)
Theorem UT1_and_dut1_fall_back_outside_IERS (self : MJD.ModifiedJulianDate F) :
  reachable self ->
  outside_IERS self ->
  MJD.result MJD.UT1 self = Ok (MJD.utc_of self) /\
  MJD.result MJD.UTC self = Ok (MJD.utc_of self) /\
  MJD.warnings MJD.UT1 self =
    match MJD._ut1 self with
    | None => [MJD.OutsideIERS (MJD.utc_of self)]
    | Some _ => []
    end /\
  MJD.result MJD.dut1 self = Ok fzero /\
  MJD.warnings MJD.dut1 self =
    match MJD._dut1 self with
    | None => [MJD.OutsideIERS (MJD.utc_of self)]
    | Some _ => []
    end.
Proof.
  intros Hr [Hut1 Hdut1].
  pose proof (reachable_coherent _ Hr) as Hc.
  destruct (UT1_outside _ Hc Hut1) as [-> ->].
  destruct (dut1_outside _ Hc Hdut1) as [-> ->].
  rewrite result_UTC. repeat split.
Qed.

End InstantFacts.

(** ** The pipeline *)

Section PipelineFacts.
Context {F : Type} {float64 : Float64 F} {astropy : Astropy F}
        {linalg : Linalg F} {sims : SimsUtils F} {palpy : Palpy F}.
Import Spec Astrometry.
Local Open Scope res_scope.

Lemma same_outcome_refl {A} (r : res A) : same_outcome r r.
Proof. destruct r; reflexivity. Qed.

Lemma broadcast_same_length (f : F -> F -> F) (xs ys : list F) :
  List.length xs = List.length ys ->
  broadcast f xs ys = Ok (zip_with f xs ys).
Proof.
  intros H. unfold broadcast. rewrite H, Nat.eqb_refl. reflexivity.
Qed.

(** A proper-motion array of the batch's length, over the cosines of the
    declinations. *)
Lemma divide_by_cos_dec (pm_ra dec : list F) :
  List.length pm_ra = List.length dec ->
  np_divide (VArray pm_ra) (np_cos (VArray dec)) =
  Ok (VArray (zip_with fdiv pm_ra (map fcos dec))).
Proof.
  intros H. cbn. rewrite broadcast_same_length.
  - reflexivity.
  - rewrite length_map. exact H.
Qed.

(** C4.  On a batch of arrays, [_observedFromICRS] ends as
    [_appGeoFromICRS] followed by [_observedFromAppGeo] does, and
    [_icrsFromObserved] as [_appGeoFromObserved] followed by
    [_icrsFromAppGeo]: the same arrays in radians, handed from one stage to
    the next as they are, or an exception of the same class. *)
Theorem composed_transforms_are_the_two_stages
    (ra dec : list F) (pm_ra pm_dec parallax v_rad : option (value F))
    (obs_metadata : ObservationMetaData F) (epoch : F) (includeRefraction : bool) :
  same_outcome
    (_observedFromICRS (VArray ra) (VArray dec) pm_ra pm_dec parallax v_rad
                       (Some obs_metadata) (Some epoch) includeRefraction)
    ('(ra_apparent, dec_apparent) <-
        _appGeoFromICRS (VArray ra) (VArray dec) pm_ra pm_dec parallax v_rad
                        epoch (mjd obs_metadata) ;;
     '((ra_out, dec_out), _) <-
        _observedFromAppGeo ra_apparent dec_apparent includeRefraction false
                            f0_5 (Some obs_metadata) ;;
     Ok (ra_out, dec_out)) /\
  same_outcome
    (_icrsFromObserved (VArray ra) (VArray dec) (Some obs_metadata) (Some epoch)
                       includeRefraction)
    ('(ra_app, dec_app) <-
        _appGeoFromObserved (VArray ra) (VArray dec) includeRefraction f0_5
                            (Some obs_metadata) ;;
     '(ra_icrs, dec_icrs) <-
        _icrsFromAppGeo ra_app dec_app epoch (mjd obs_metadata) ;;
     Ok (ra_icrs, dec_icrs)).
Proof.
  split.
  - unfold _observedFromICRS.
    destruct (mjd obs_metadata) as [instant|] eqn:Hmjd; [|reflexivity].
    cbn [len res_bind].
    destruct (Nat.eqb (List.length ra) (List.length dec)) eqn:Hlen; cbn.
    + apply same_outcome_refl.
    + rewrite Hlen. reflexivity.
  - unfold _icrsFromObserved.
    destruct (mjd obs_metadata) as [instant|] eqn:Hmjd.
    + cbn [len res_bind].
      destruct (Nat.eqb (List.length ra) (List.length dec)) eqn:Hlen; cbn.
      * apply same_outcome_refl.
      * unfold _appGeoFromObserved.
        destruct (site obs_metadata); [|reflexivity].
        rewrite Hmjd. cbn. rewrite Hlen. reflexivity.
    + unfold _appGeoFromObserved.
      destruct (site obs_metadata); [|reflexivity].
      rewrite Hmjd. reflexivity.
Qed.

(** C6.  On a batch whose arrays all have the batch's length, the
    proper-motion rate that reaches the space-motion primitive
    ([palpy.pmVector], or [palpy.pm] for floats) and the mean-to-apparent
    primitive ([palpy.mapqkVector]) is the rate passed in divided by
    [cos(dec)], once; the degrees-facing wrappers add the unit conversions
    and no division of their own. *)
Theorem proper_motion_is_divided_by_cos_dec_once
    (ra dec pm_ra pm_dec parallax v_rad : list F)
    (ra0 dec0 pm_ra0 pm_dec0 parallax0 v_rad0 : F)
    (epoch : F) (instant : MJD.ModifiedJulianDate F) :
  List.length dec = List.length ra ->
  List.length pm_ra = List.length ra ->
  List.length pm_dec = List.length ra ->
  List.length parallax = List.length ra ->
  List.length v_rad = List.length ra ->
  _applyProperMotion (VArray ra) (VArray dec) (VArray pm_ra) (VArray pm_dec)
                     (VArray parallax) (VArray v_rad) epoch (Some instant) =
    ('(raOut, decOut) <-
        pmVector (VArray ra) (VArray dec)
                 (VArray (zip_with fdiv pm_ra (map fcos dec)))
                 (VArray pm_dec) (VArray (map arcsec_of_radians parallax))
                 (VArray v_rad) epoch (epj (tt_of instant)) ;;
     Ok (VArray raOut, VArray decOut)) /\
  _applyProperMotion (VFloat ra0) (VFloat dec0) (VFloat pm_ra0) (VFloat pm_dec0)
                     (VFloat parallax0) (VFloat v_rad0) epoch (Some instant) =
    ('(raOut, decOut) <-
        pm (VFloat ra0) (VFloat dec0) (VFloat (fdiv pm_ra0 (fcos dec0)))
           (VFloat pm_dec0) (VFloat (arcsec_of_radians parallax0))
           (VFloat v_rad0) epoch (epj (tt_of instant)) ;;
     Ok (VFloat raOut, VFloat decOut)) /\
  applyProperMotion (VArray ra) (VArray dec) (VArray pm_ra) (VArray pm_dec)
                    (VArray parallax) (VArray v_rad) epoch (Some instant) =
    ('(raOut, decOut) <-
        pmVector (VArray (map fradians ra)) (VArray (map fradians dec))
                 (VArray (zip_with fdiv (map radians_of_arcsec pm_ra)
                                        (map fcos (map fradians dec))))
                 (VArray (map radians_of_arcsec pm_dec))
                 (VArray (map arcsec_of_radians (map radians_of_arcsec parallax)))
                 (VArray v_rad) epoch (epj (tt_of instant)) ;;
     Ok (VArray (map fdegrees raOut), VArray (map fdegrees decOut))) /\
  _appGeoFromICRS (VArray ra) (VArray dec) (Some (VArray pm_ra))
                  (Some (VArray pm_dec)) (Some (VArray parallax))
                  (Some (VArray v_rad)) epoch (Some instant) =
    ('(raOut, decOut) <-
        mapqkVector (VArray ra) (VArray dec)
                    (VArray (zip_with fdiv pm_ra (map fcos dec)))
                    (VArray pm_dec) (VArray (map arcsec_of_radians parallax))
                    (VArray v_rad) (mappa epoch (tdb_of instant)) ;;
     Ok (VArray raOut, VArray decOut)) /\
  appGeoFromICRS (VArray ra) (VArray dec) (Some (VArray pm_ra))
                 (Some (VArray pm_dec)) (Some (VArray parallax))
                 (Some (VArray v_rad)) epoch (Some instant) =
    ('(raOut, decOut) <-
        mapqkVector (VArray (map fradians ra)) (VArray (map fradians dec))
                    (VArray (zip_with fdiv (map radians_of_arcsec pm_ra)
                                           (map fcos (map fradians dec))))
                    (VArray (map radians_of_arcsec pm_dec))
                    (VArray (map arcsec_of_radians (map radians_of_arcsec parallax)))
                    (VArray v_rad) (mappa epoch (tdb_of instant)) ;;
     Ok (VArray (map fdegrees raOut), VArray (map fdegrees decOut))).
Proof.
  intros Hdec Hpm Hpmd Hpx Hv.
  assert (Hcore : forall ra dec pm_ra pm_dec parallax v_rad : list F,
    List.length dec = List.length ra ->
    List.length pm_ra = List.length ra ->
    List.length pm_dec = List.length ra ->
    List.length parallax = List.length ra ->
    List.length v_rad = List.length ra ->
    _applyProperMotion (VArray ra) (VArray dec) (VArray pm_ra) (VArray pm_dec)
                       (VArray parallax) (VArray v_rad) epoch (Some instant) =
      ('(raOut, decOut) <-
          pmVector (VArray ra) (VArray dec)
                   (VArray (zip_with fdiv pm_ra (map fcos dec)))
                   (VArray pm_dec) (VArray (map arcsec_of_radians parallax))
                   (VArray v_rad) epoch (epj (tt_of instant)) ;;
       Ok (VArray raOut, VArray decOut))).
  { clear. intros ra dec pm_ra pm_dec parallax v_rad Hdec Hpm Hpmd Hpx Hv.
    unfold _applyProperMotion. cbn [isinstance_list orb].
    rewrite result_TT. cbn [res_bind].
    rewrite divide_by_cos_dec by congruence. cbn [res_bind isinstance_ndarray].
    unfold lazy_or, len_differs, arcsecFromRadians. cbn [ufunc len res_bind].
    rewrite length_map, Hdec, Hpm, Hpmd, Hpx, Hv, Nat.eqb_refl.
    reflexivity. }
  assert (Hgeo : forall ra dec pm_ra pm_dec parallax v_rad : list F,
    List.length dec = List.length ra ->
    List.length pm_ra = List.length ra ->
    _appGeoFromICRS (VArray ra) (VArray dec) (Some (VArray pm_ra))
                    (Some (VArray pm_dec)) (Some (VArray parallax))
                    (Some (VArray v_rad)) epoch (Some instant) =
      ('(raOut, decOut) <-
          mapqkVector (VArray ra) (VArray dec)
                      (VArray (zip_with fdiv pm_ra (map fcos dec)))
                      (VArray pm_dec) (VArray (map arcsec_of_radians parallax))
                      (VArray v_rad) (mappa epoch (tdb_of instant)) ;;
       Ok (VArray raOut, VArray decOut))).
  { clear. intros ra dec pm_ra pm_dec parallax v_rad Hdec Hpm.
    unfold _appGeoFromICRS. cbn [len res_bind].
    rewrite Hdec, Nat.eqb_refl. cbn [negb raise_if res_bind].
    rewrite result_TDB. cbn [res_bind].
    rewrite divide_by_cos_dec by congruence. reflexivity. }
  repeat split.
  - apply Hcore; assumption.
  - unfold _applyProperMotion. cbn [isinstance_list orb].
    rewrite result_TT. reflexivity.
  - unfold applyProperMotion, radiansFromArcsec, np_radians. cbn [ufunc].
    rewrite Hcore by (rewrite !length_map; assumption).
    destruct (pmVector _ _ _ _ _ _ _ _) as [[raOut decOut]|e]; reflexivity.
  - apply Hgeo; assumption.
  - unfold appGeoFromICRS, radiansFromArcsec, np_radians. cbn [ufunc].
    rewrite Hgeo by (rewrite !length_map; assumption).
    destruct (mapqkVector _ _ _ _ _ _ _) as [[raOut decOut]|e]; reflexivity.
Qed.

(** C3 (where the code departs from it).  [_appGeoFromICRS] compares the
    lengths of RA and Dec only: a proper-motion array of length one is
    broadcast over a batch of two and handed to [palpy.mapqkVector], and
    no configuration error is raised.  [_icrsFromAppGeo] compares no
    lengths at all. *)
Theorem appGeoFromICRS_broadcasts_a_short_proper_motion
    (ra1 ra2 dec1 dec2 pm1 : F) (ra dec : value F)
    (epoch : F) (instant : MJD.ModifiedJulianDate F) :
  _appGeoFromICRS (VArray [ra1; ra2]) (VArray [dec1; dec2]) (Some (VArray [pm1]))
                  None None None epoch (Some instant) =
    ('(raOut, decOut) <-
        mapqkVector (VArray [ra1; ra2]) (VArray [dec1; dec2])
                    (VArray [fdiv pm1 (fcos dec1); fdiv pm1 (fcos dec2)])
                    (VArray [fzero; fzero])
                    (VArray [arcsec_of_radians fzero; arcsec_of_radians fzero])
                    (VArray [fzero; fzero])
                    (mappa epoch (tdb_of instant)) ;;
     Ok (VArray raOut, VArray decOut)) /\
  _icrsFromAppGeo ra dec epoch (Some instant) =
    ('(raOut, decOut) <- ampqkVector ra dec (mappa epoch (tdb_of instant)) ;;
     Ok (VArray raOut, VArray decOut)).
Proof.
  split.
  - unfold _appGeoFromICRS. cbn [len res_bind List.length Nat.eqb negb raise_if].
    rewrite result_TDB. reflexivity.
  - unfold _icrsFromAppGeo. cbn [getattr res_bind].
    rewrite result_TDB. reflexivity.
Qed.

(** What the entry points do check: RA and Dec arrays of different lengths
    are a configuration error wherever the two lengths are compared, and
    omitted motion terms become zero arrays of the length of RA. *)
Lemma ra_dec_length_mismatch_is_a_configuration_error
    (ra dec : list F) (pm_ra pm_dec parallax v_rad : option (value F))
    (the_site : Site F) (instant : MJD.ModifiedJulianDate F)
    (epoch wavelength : F) (includeRefraction altAzHr : bool) :
  List.length ra <> List.length dec ->
  let om := mkObservationMetaData (Some the_site) (Some instant) in
  is_configuration_error
    (_appGeoFromICRS (VArray ra) (VArray dec) pm_ra pm_dec parallax v_rad
                     epoch (Some instant)) /\
  is_configuration_error
    (appGeoFromICRS (VArray ra) (VArray dec) pm_ra pm_dec parallax v_rad
                    epoch (Some instant)) /\
  is_configuration_error
    (_observedFromAppGeo (VArray ra) (VArray dec) includeRefraction altAzHr
                         wavelength (Some om)) /\
  is_configuration_error
    (_appGeoFromObserved (VArray ra) (VArray dec) includeRefraction wavelength
                         (Some om)) /\
  is_configuration_error
    (_observedFromICRS (VArray ra) (VArray dec) pm_ra pm_dec parallax v_rad
                       (Some om) (Some epoch) includeRefraction) /\
  is_configuration_error
    (_icrsFromObserved (VArray ra) (VArray dec) (Some om) (Some epoch)
                       includeRefraction) /\
  is_configuration_error
    (_applyPrecession (VArray ra) (VArray dec) epoch (Some instant)).
Proof.
  intros Hne om. apply Nat.eqb_neq in Hne.
  assert (Hne' : Nat.eqb (List.length (map fradians ra))
                         (List.length (map fradians dec)) = false)
    by (rewrite !length_map; exact Hne).
  unfold is_configuration_error, _appGeoFromICRS, appGeoFromICRS,
    _observedFromAppGeo, _appGeoFromObserved, _observedFromICRS,
    _icrsFromObserved, _applyPrecession, _appGeoFromICRS, np_radians.
  cbn [site mjd _site _mjd om len ufunc hasattr_len res_bind].
  rewrite Hne, Hne'. cbn.
  repeat split; eexists; reflexivity.
Qed.

Lemma omitted_motion_terms_are_zero_arrays
    (ra dec : list F) (epoch : F) (instant : MJD.ModifiedJulianDate F) :
  _appGeoFromICRS (VArray ra) (VArray dec) None None None None epoch (Some instant) =
  _appGeoFromICRS (VArray ra) (VArray dec)
                  (Some (np_zeros (List.length ra))) (Some (np_zeros (List.length ra)))
                  (Some (np_zeros (List.length ra))) (Some (np_zeros (List.length ra)))
                  epoch (Some instant).
Proof. reflexivity. Qed.

(** C5 (where the code departs from it).  [_icrsFromAppGeo] has no guard
    for a missing Instant: with [mjd=None] it fails on the attribute access
    [mjd.TDB] with an [AttributeError], which is not the configuration
    error its sibling [_appGeoFromICRS] raises; the degrees-facing wrapper
    inherits this. *)
Theorem icrsFromAppGeo_without_mjd_is_an_AttributeError
    (ra dec : value F) (epoch : F) :
  _icrsFromAppGeo ra dec epoch None =
    Raise (AttributeError "'NoneType' object has no attribute 'TDB'") /\
  icrsFromAppGeo ra dec epoch None =
    Raise (AttributeError "'NoneType' object has no attribute 'TDB'") /\
  ~ is_configuration_error (_icrsFromAppGeo ra dec epoch None) /\
  ~ is_configuration_error (icrsFromAppGeo ra dec epoch None) /\
  is_configuration_error
    (_appGeoFromICRS ra dec None None None None epoch None).
Proof.
  repeat split; try (intros [msg H]; discriminate H).
  eexists; reflexivity.
Qed.

(** The guards the other entry points do have. *)
Lemma missing_context_is_a_configuration_error
    (ra dec : value F) (pm_ra pm_dec parallax v_rad : option (value F))
    (the_site : Site F) (instant : MJD.ModifiedJulianDate F)
    (epoch wavelength : F) (includeRefraction altAzHr : bool) :
  is_configuration_error (refractionCoefficients wavelength None) /\
  is_configuration_error
    (_observedFromAppGeo ra dec includeRefraction altAzHr wavelength None) /\
  is_configuration_error
    (_observedFromAppGeo ra dec includeRefraction altAzHr wavelength
       (Some (mkObservationMetaData None (Some instant)))) /\
  is_configuration_error
    (_observedFromAppGeo ra dec includeRefraction altAzHr wavelength
       (Some (mkObservationMetaData (Some the_site) None))) /\
  is_configuration_error
    (_appGeoFromObserved ra dec includeRefraction wavelength None) /\
  is_configuration_error
    (_appGeoFromObserved ra dec includeRefraction wavelength
       (Some (mkObservationMetaData None (Some instant)))) /\
  is_configuration_error
    (_appGeoFromObserved ra dec includeRefraction wavelength
       (Some (mkObservationMetaData (Some the_site) None))) /\
  is_configuration_error
    (_observedFromICRS ra dec pm_ra pm_dec parallax v_rad None (Some epoch)
                       includeRefraction) /\
  is_configuration_error
    (_observedFromICRS ra dec pm_ra pm_dec parallax v_rad
       (Some (mkObservationMetaData (Some the_site) None)) (Some epoch)
       includeRefraction) /\
  is_configuration_error
    (_observedFromICRS ra dec pm_ra pm_dec parallax v_rad
       (Some (mkObservationMetaData (Some the_site) (Some instant))) None
       includeRefraction) /\
  is_configuration_error
    (_icrsFromObserved ra dec None (Some epoch) includeRefraction) /\
  is_configuration_error
    (_icrsFromObserved ra dec
       (Some (mkObservationMetaData (Some the_site) None)) (Some epoch)
       includeRefraction) /\
  is_configuration_error
    (_icrsFromObserved ra dec
       (Some (mkObservationMetaData (Some the_site) (Some instant))) None
       includeRefraction) /\
  is_configuration_error
    (_appGeoFromICRS ra dec pm_ra pm_dec parallax v_rad epoch None).
Proof.
  repeat split; eexists; reflexivity.
Qed.

(** What [includeRefraction=False] does: the refraction-enabled computation
    on a site whose pressure and humidity are zero and whose temperature in
    kelvin is replaced by [site.temperature]; time, longitude, latitude,
    height, polar motion, wavelength and lapse rate are those of the
    refraction-enabled path. *)
Lemma no_refraction_parameters
    (the_site : Site F) (instant : MJD.ModifiedJulianDate F) (wavelength : F) :
  _calculateObservatoryParameters
    (mkObservationMetaData (Some the_site) (Some instant)) wavelength false =
  _calculateObservatoryParameters
    (mkObservationMetaData
       (Some (mkSite (height the_site) (temperature the_site)
                     (temperature the_site) fzero fzero
                     (latitude_rad the_site) (longitude_rad the_site)
                     (lapseRate the_site)))
       (Some instant)) wavelength true.
Proof. reflexivity. Qed.

(** C8 (as amended).  Ten of the twelve public functions are the
    radians-facing core between unit conversions: RA, Dec and zenith-free
    angles go through [numpy.radians], proper motions and parallax through
    [radiansFromArcsec], every returned array through [numpy.degrees].
    [applyRefraction] and [refractionCoefficients] have no such core: they
    hand their arguments to palpy as they come and return its answer as it
    is. *)
Theorem public_functions_wrap_their_radians_core
    (ra dec pm_ra pm_dec parallax v_rad : value F)
    (opm_ra opm_dec oparallax ov_rad : option (value F))
    (date epoch wavelength tanzCoeff tan3zCoeff z : F) (zs : list F)
    (oepoch : option F) (instant : option (MJD.ModifiedJulianDate F))
    (obs_metadata : option (ObservationMetaData F)) (the_site : Site F)
    (includeRefraction altAzHr : bool) :
  solarRaDec date epoch =
    (fdegrees (fst (_solarRaDec date epoch)),
     fdegrees (snd (_solarRaDec date epoch))) /\
  distanceToSun ra dec date epoch =
    np_degrees (_distanceToSun (np_radians ra) (np_radians dec) date epoch) /\
  applyPrecession ra dec epoch instant =
    res_map degrees2
      (_applyPrecession (np_radians ra) (np_radians dec) epoch instant) /\
  applyProperMotion ra dec pm_ra pm_dec parallax v_rad epoch instant =
    res_map degrees2
      (_applyProperMotion (np_radians ra) (np_radians dec)
         (radiansFromArcsec pm_ra) (radiansFromArcsec pm_dec)
         (radiansFromArcsec parallax) v_rad epoch instant) /\
  appGeoFromICRS ra dec opm_ra opm_dec oparallax ov_rad epoch instant =
    res_map degrees2
      (_appGeoFromICRS (np_radians ra) (np_radians dec)
         (option_map radiansFromArcsec opm_ra)
         (option_map radiansFromArcsec opm_dec)
         (option_map radiansFromArcsec oparallax) ov_rad epoch instant) /\
  icrsFromAppGeo ra dec epoch instant =
    res_map degrees2
      (_icrsFromAppGeo (np_radians ra) (np_radians dec) epoch instant) /\
  observedFromAppGeo ra dec includeRefraction altAzHr wavelength obs_metadata =
    res_map (fun r => (degrees2 (fst r), option_map degrees2 (snd r)))
      (_observedFromAppGeo (np_radians ra) (np_radians dec)
         includeRefraction altAzHr wavelength obs_metadata) /\
  appGeoFromObserved ra dec includeRefraction wavelength obs_metadata =
    res_map degrees2
      (_appGeoFromObserved (np_radians ra) (np_radians dec)
         includeRefraction wavelength obs_metadata) /\
  observedFromICRS ra dec opm_ra opm_dec oparallax ov_rad obs_metadata oepoch
                   includeRefraction =
    res_map degrees2
      (_observedFromICRS (np_radians ra) (np_radians dec)
         (option_map radiansFromArcsec opm_ra)
         (option_map radiansFromArcsec opm_dec)
         (option_map radiansFromArcsec oparallax) ov_rad obs_metadata oepoch
         includeRefraction) /\
  icrsFromObserved ra dec obs_metadata oepoch includeRefraction =
    res_map degrees2
      (_icrsFromObserved (np_radians ra) (np_radians dec) obs_metadata oepoch
         includeRefraction) /\
  applyRefraction (VFloat z) tanzCoeff tan3zCoeff =
    Ok (VFloat (refz z tanzCoeff tan3zCoeff)) /\
  applyRefraction (VArray zs) tanzCoeff tan3zCoeff =
    Ok (VArray (refzVector zs tanzCoeff tan3zCoeff)) /\
  refractionCoefficients wavelength (Some the_site) =
    Ok (refco (height the_site) (temperature_kelvin the_site)
              (pressure the_site) (humidity the_site) wavelength
              (latitude_rad the_site) (lapseRate the_site) f1em10).
Proof.
  repeat split.
  - unfold solarRaDec. destruct (_solarRaDec date epoch); reflexivity.
  - unfold icrsFromAppGeo, res_map, res_bind.
    destruct (_icrsFromAppGeo _ _ _ _) as [[raOut decOut]|e]; reflexivity.
  - unfold observedFromAppGeo, res_map, res_bind.
    destruct (_observedFromAppGeo _ _ _ _ _ _) as [[raDec [altAz|]]|e]; reflexivity.
  - unfold appGeoFromObserved, res_map, res_bind.
    destruct (_appGeoFromObserved _ _ _ _ _) as [[raOut decOut]|e]; reflexivity.
  - unfold icrsFromObserved, res_map, res_bind.
    destruct (_icrsFromObserved _ _ _ _ _) as [[raOut decOut]|e]; reflexivity.
  - unfold refractionCoefficients.
    destruct (refco _ _ _ _ _ _ _ _); reflexivity.
Qed.

End PipelineFacts.

(** ** Runs in the symbolic run-time *)

Section SymbolicRuns.
Import Spec Astrometry Symbolic.

(** C1 (counterexample).  Given both TAI and UTC the constructor raises
    nothing: it returns the Instant built from TAI. *)
Lemma init_accepts_both_TAI_and_UTC :
  MJD.__init__ (Some (Lit 57388)) (Some (Lit 57387)) = Ok (instant_of 57388) /\
  ~ is_configuration_error (MJD.__init__ (Some (Lit 57388)) (Some (Lit 57387))).
Proof.
  split.
  - reflexivity.
  - intros [msg H]. discriminate H.
Qed.

Lemma UT1_and_dut1_fall_back_outside_IERS_witness :
  reachable (instant_of 70000) /\
  outside_IERS (instant_of 70000) /\
  MJD.result MJD.UT1 (instant_of 70000) = Ok (App "utc" [Lit 70000]) /\
  MJD.result MJD.UTC (instant_of 70000) = Ok (App "utc" [Lit 70000]) /\
  MJD.warnings MJD.UT1 (instant_of 70000) =
    [MJD.OutsideIERS (App "utc" [Lit 70000])] /\
  MJD.result MJD.dut1 (instant_of 70000) = Ok (Lit 0) /\
  MJD.warnings MJD.dut1 (instant_of 70000) =
    [MJD.OutsideIERS (App "utc" [Lit 70000])].
Proof.
  assert (Hr : reachable (instant_of 70000)).
  { apply (reach_init (Some (Lit 70000)) None). reflexivity. }
  assert (Ho : outside_IERS (instant_of 70000)).
  { split; exists out_of_range; reflexivity. }
  split; [exact Hr|]. split; [exact Ho|].
  exact (UT1_and_dut1_fall_back_outside_IERS (instant_of 70000) Hr Ho).
Defined.

(** The warning is emitted once: a second read of [UT1] returns the cached
    value silently, and [dut1] read afterwards still warns. *)
Example second_read_of_UT1_is_silent :
  let self := MJD.after MJD.UT1 (instant_of 70000) in
  MJD.result MJD.UT1 self = Ok (App "utc" [Lit 70000]) /\
  MJD.warnings MJD.UT1 self = [] /\
  MJD.result MJD.dut1 self = Ok (Lit 0) /\
  MJD.warnings MJD.dut1 self = [MJD.OutsideIERS (App "utc" [Lit 70000])].
Proof. repeat split. Qed.

(** Inside the table nothing falls back and nothing warns. *)
Example UT1_inside_IERS :
  MJD.UT1 (instant_of 57388) =
  (Ok (App "ut1" [Lit 57388]),
   MJD.set_ut1 (App "ut1" [Lit 57388]) (instant_of 57388),
   []).
Proof. reflexivity. Qed.

Lemma proper_motion_is_divided_by_cos_dec_once_witness :
  List.length [Var "dec1"; Var "dec2"] = List.length [Var "ra1"; Var "ra2"] /\
  List.length [Var "pm_ra1"; Var "pm_ra2"] = List.length [Var "ra1"; Var "ra2"] /\
  List.length [Var "pm_dec1"; Var "pm_dec2"] = List.length [Var "ra1"; Var "ra2"] /\
  List.length [Var "px1"; Var "px2"] = List.length [Var "ra1"; Var "ra2"] /\
  List.length [Var "v1"; Var "v2"] = List.length [Var "ra1"; Var "ra2"] /\
  _applyProperMotion
    (VArray [Var "ra1"; Var "ra2"]) (VArray [Var "dec1"; Var "dec2"])
    (VArray [Var "pm_ra1"; Var "pm_ra2"]) (VArray [Var "pm_dec1"; Var "pm_dec2"])
    (VArray [Var "px1"; Var "px2"]) (VArray [Var "v1"; Var "v2"])
    (Lit 2000) (Some (instant_of 57388)) =
  Ok (VArray
        [App "pm.ra"
           [Var "ra1"; Var "dec1";
            App "div" [Var "pm_ra1"; App "cos" [Var "dec1"]];
            Var "pm_dec1"; App "arcsecFromRadians" [Var "px1"];
            Var "v1"; Lit 2000; App "epj" [App "tt" [Lit 57388]]];
         App "pm.ra"
           [Var "ra2"; Var "dec2";
            App "div" [Var "pm_ra2"; App "cos" [Var "dec2"]];
            Var "pm_dec2"; App "arcsecFromRadians" [Var "px2"];
            Var "v2"; Lit 2000; App "epj" [App "tt" [Lit 57388]]]],
      VArray
        [App "pm.dec"
           [Var "ra1"; Var "dec1";
            App "div" [Var "pm_ra1"; App "cos" [Var "dec1"]];
            Var "pm_dec1"; App "arcsecFromRadians" [Var "px1"];
            Var "v1"; Lit 2000; App "epj" [App "tt" [Lit 57388]]];
         App "pm.dec"
           [Var "ra2"; Var "dec2";
            App "div" [Var "pm_ra2"; App "cos" [Var "dec2"]];
            Var "pm_dec2"; App "arcsecFromRadians" [Var "px2"];
            Var "v2"; Lit 2000; App "epj" [App "tt" [Lit 57388]]]]).
Proof.
  repeat (split; [reflexivity|]).
  exact (proj1 (proper_motion_is_divided_by_cos_dec_once
                  [Var "ra1"; Var "ra2"] [Var "dec1"; Var "dec2"]
                  [Var "pm_ra1"; Var "pm_ra2"] [Var "pm_dec1"; Var "pm_dec2"]
                  [Var "px1"; Var "px2"] [Var "v1"; Var "v2"]
                  (Var "ra") (Var "dec") (Var "pm_ra") (Var "pm_dec")
                  (Var "px") (Var "v") (Lit 2000) (instant_of 57388)
                  eq_refl eq_refl eq_refl eq_refl eq_refl)).
Defined.

(** C2 (where the code departs from it).  Without refraction the block is
    computed from [site.temperature] (10, in Celsius, at this site), where
    the refraction-enabled computation on the same site with pressure and
    humidity set to zero reads [site.temperature_kelvin] (283). *)
Theorem no_refraction_path_reads_another_temperature :
  _calculateObservatoryParameters an_observation (Var "wavelength") false =
    Ok [App "utc" [Lit 57388]; App "delta_ut1_utc" [Lit 57388];
        Var "longitude"; Var "latitude"; Var "height"; Lit 0; Lit 0;
        Lit 10; Lit 0; Lit 0; Var "wavelength"; Var "lapseRate"] /\
  _calculateObservatoryParameters a_dry_observation (Var "wavelength") true =
    Ok [App "utc" [Lit 57388]; App "delta_ut1_utc" [Lit 57388];
        Var "longitude"; Var "latitude"; Var "height"; Lit 0; Lit 0;
        Lit 283; Lit 0; Lit 0; Var "wavelength"; Var "lapseRate"] /\
  _calculateObservatoryParameters an_observation (Var "wavelength") false <>
  _calculateObservatoryParameters a_dry_observation (Var "wavelength") true.
Proof.
  repeat split. intros H. discriminate H.
Qed.

(** The batch of two with a proper motion of length one goes through. *)
Example short_proper_motion_is_accepted :
  succeeds
    (_appGeoFromICRS (VArray [Var "ra1"; Var "ra2"])
                     (VArray [Var "dec1"; Var "dec2"])
                     (Some (VArray [Var "pm"])) None None None
                     (Lit 2000) (Some (instant_of 57388))).
Proof. eexists. vm_compute. reflexivity. Qed.

(** Five right ascensions and four declinations are refused. *)
Example appGeoFromICRS_5_RA_4_Dec :
  appGeoFromICRS (VArray [Lit 1; Lit 2; Lit 3; Lit 4; Lit 5])
                 (VArray [Lit 1; Lit 2; Lit 3; Lit 4])
                 None None None None (Lit 2000) (Some (instant_of 57388)) =
  Raise (RuntimeError "appGeoFromICRS: len(ra) 5 len(dec) 4 ").
Proof. reflexivity. Qed.

(** C8 (counterexample).  [applyRefraction] is not the degrees-facing
    wrapper of any core: what it returns is palpy's answer, not a
    conversion to degrees of anything. *)
Lemma applyRefraction_is_not_a_degrees_wrapper :
  ~ exists core : value term -> term -> term -> res (value term),
      forall (zenithDistance : value term) (tanzCoeff tan3zCoeff : term),
        applyRefraction zenithDistance tanzCoeff tan3zCoeff =
        res_map np_degrees (core (np_radians zenithDistance) tanzCoeff tan3zCoeff).
Proof.
  intros [core H].
  specialize (H (VFloat (Var "z")) (Var "a") (Var "b")).
  cbn in H.
  destruct (core _ _ _) as [[x|xs|xs]|e]; cbn in H; discriminate H.
Qed.

End SymbolicRuns.

(** ** More on the Instant *)

Section MoreInstantFacts.
Context {F : Type} {float64 : Float64 F} {astropy : Astropy F}.
Import Spec.

Ltac unfold_property :=
  unfold MJD.TAI, MJD.UTC, MJD.UT1, MJD.dut1, MJD.TT, MJD.TDB,
         MJD.cached, MJD.try_except, MJD.bind, MJD.get, MJD.ret,
         MJD.modify, MJD.warn, MJD.call;
  cbn.

Ltac cases_of_read :=
  repeat (match goal with
          | |- context [match ?x with _ => _ end] => is_var x; destruct x
          | |- context [match time_ut1 ?t with _ => _ end] =>
              destruct (time_ut1 t) eqn:?
          | |- context [match time_get_delta_ut1_utc ?t with _ => _ end] =>
              destruct (time_get_delta_ut1_utc t) as [[?|?]|?] eqn:?
          end; cbn).

(** X1.  Whatever astropy answers and whatever is cached, no property read
    raises: the two look-ups that can fail are caught. *)
Theorem no_read_raises p (self : MJD.ModifiedJulianDate F) :
  succeeds (MJD.result (read p) self).
Proof.
  unfold succeeds, MJD.result.
  destruct self as [t tai utc tt_ tdb ut1 dut1].
  destruct p; cbn [read]; unfold_property; cases_of_read; eexists; reflexivity.
Qed.

(** X2.  A second read of the same property returns the value of the
    first, emits no warning and leaves the object as the first read left
    it. *)
Theorem second_read_is_cached p (self : MJD.ModifiedJulianDate F) :
  let once := MJD.after (read p) self in
  MJD.result (read p) once = MJD.result (read p) self /\
  MJD.warnings (read p) once = [] /\
  MJD.after (read p) once = once.
Proof.
  unfold MJD.result, MJD.warnings, MJD.after.
  destruct self as [t tai utc tt_ tdb ut1 dut1].
  destruct p; cbn [read]; unfold_property; cases_of_read;
    repeat split; try congruence.
Qed.

(** X3.  The value given to the constructor is the value its own scale
    reads back, unconverted, however many properties have been read in
    between. *)
Theorem constructor_value_is_read_back
    (x : F) (other : option F) (ps : list property) :
  (forall self, MJD.__init__ (Some x) other = Ok self ->
     MJD.result MJD.TAI (fst (Instants.reads ps self)) = Ok x) /\
  (forall self, MJD.__init__ None (Some x) = Ok self ->
     MJD.result MJD.UTC (fst (Instants.reads ps self)) = Ok x).
Proof.
  assert (Hgen : forall q ps (self : MJD.ModifiedJulianDate F),
            MJD.result (read q) (fst (Instants.reads ps self)) =
            MJD.result (read q) self).
  { intros q ps0. induction ps0 as [|p ps0 IH]; intros self; cbn.
    - reflexivity.
    - destruct (Instants.reads ps0 (MJD.after (read p) self)) as [self' ws] eqn:E.
      cbn. specialize (IH (MJD.after (read p) self)). rewrite E in IH. cbn in IH.
      rewrite IH. apply read_stable. }
  split; intros self H; cbn in H; inversion H; subst; clear H.
  - rewrite (Hgen pTAI). reflexivity.
  - rewrite (Hgen pUTC). reflexivity.
Qed.

Lemma read_pays_for_its_warning p (self : MJD.ModifiedJulianDate F) :
  List.length (MJD.warnings (read p) self) +
  Instants.pending (MJD.after (read p) self) <= Instants.pending self.
Proof.
  unfold MJD.warnings, MJD.after, Instants.pending.
  destruct self as [t tai utc tt_ tdb ut1 dut1].
  destruct p; cbn [read]; unfold_property; cases_of_read; cbn; auto.
Qed.

(** X4.  Over any sequence of reads on one Instant at most two warnings are
    ever emitted, one for the UT1 fallback and one for the dut1 fallback;
    none once both values are cached. *)
Theorem at_most_two_warnings (ps : list property)
    (self : MJD.ModifiedJulianDate F) :
  List.length (snd (Instants.reads ps self)) <= Instants.pending self /\
  Instants.pending self <= 2.
Proof.
  split.
  - revert self. induction ps as [|p ps IH]; intros self; cbn.
    + apply Nat.le_0_l.
    + specialize (IH (MJD.after (read p) self)).
      destruct (Instants.reads ps (MJD.after (read p) self)) as [self' ws].
      cbn in *. rewrite length_app.
      pose proof (read_pays_for_its_warning p self) as Hp.
      eapply Nat.le_trans; [|exact Hp].
      apply Nat.add_le_mono_l. exact IH.
  - unfold Instants.pending.
    destruct (MJD._ut1 self), (MJD._dut1 self); cbn; auto.
Qed.

(** X5.  Inside the Earth-orientation table nothing falls back: on an
    Instant built by the constructor and read any number of times, [UT1]
    returns astropy's UT1, [dut1] returns the value of astropy's UT1-UTC
    (taken out of its quantity when it is one), and neither warns. *)
Theorem UT1_and_dut1_inside_IERS (self : MJD.ModifiedJulianDate F) (u d : F) :
  reachable self ->
  time_ut1 (MJD._time self) = Ok u ->
  (time_get_delta_ut1_utc (MJD._time self) = Ok (Quantity d) \/
   time_get_delta_ut1_utc (MJD._time self) = Ok (Bare d)) ->
  MJD.UT1 self =
    (Ok u, match MJD._ut1 self with Some _ => self | None => MJD.set_ut1 u self end, []) /\
  MJD.dut1 self =
    (Ok d, match MJD._dut1 self with Some _ => self | None => MJD.set_dut1 d self end, []).
Proof.
  intros Hr Hu Hd.
  destruct (reachable_coherent _ Hr) as (C1 & C2 & _ & _).
  split.
  - destruct (MJD._ut1 self) as [v|] eqn:E.
    + unfold MJD.UT1. rewrite (cached_hit _ _ _ _ v E).
      destruct (C1 v eq_refl) as [H | [[e He] _]]; congruence.
    + unfold MJD.UT1, MJD.cached, MJD.try_except, MJD.bind, MJD.get, MJD.call,
             MJD.modify, MJD.ret.
      rewrite E, Hu. reflexivity.
  - destruct (MJD._dut1 self) as [v|] eqn:E.
    + unfold MJD.dut1. rewrite (cached_hit _ _ _ _ v E).
      destruct (C2 v eq_refl) as [H | [H | [[e He] _]]];
        destruct Hd as [Hd|Hd]; congruence.
    + unfold MJD.dut1, MJD.cached, MJD.try_except, MJD.bind, MJD.get, MJD.call,
             MJD.modify, MJD.ret.
      rewrite E. destruct Hd as [Hd|Hd]; rewrite Hd; reflexivity.
Qed.

(** X6.  Equality of two Instants looks at the underlying times only:
    reading properties on either side never changes it. *)
Theorem eq_is_unchanged_by_reads {time_eq : TimeEq F}
    (ps qs : list property) (a b : MJD.ModifiedJulianDate F) :
  Instants.__eq__ (fst (Instants.reads ps a)) (fst (Instants.reads qs b)) =
  Instants.__eq__ a b.
Proof.
  assert (Htime : forall ps (self : MJD.ModifiedJulianDate F),
            MJD._time (fst (Instants.reads ps self)) = MJD._time self).
  { intros ps0. induction ps0 as [|p ps0 IH]; intros self; cbn.
    - reflexivity.
    - destruct (Instants.reads ps0 (MJD.after (read p) self)) as [self' ws] eqn:E.
      cbn. specialize (IH (MJD.after (read p) self)). rewrite E in IH. cbn in IH.
      rewrite IH. apply read_keeps_time. }
  unfold Instants.__eq__. rewrite !Htime. reflexivity.
Qed.

End MoreInstantFacts.

(** ** More on the pipeline *)

Section MorePipelineFacts.
Context {F : Type} {float64 : Float64 F} {astropy : Astropy F}
        {linalg : Linalg F} {sims : SimsUtils F} {palpy : Palpy F}.
Import Spec Astrometry.
Local Open Scope res_scope.

Lemma broadcast_raises_ValueError (f : F -> F -> F) (xs ys : list F) e :
  broadcast f xs ys = Raise e -> class_of e = CValue.
Proof.
  unfold broadcast.
  destruct (Nat.eqb (List.length xs) (List.length ys)); [discriminate|].
  destruct xs as [|x [|x' xs]]; destruct ys as [|y [|y' ys]];
    intros H; inversion H; reflexivity.
Qed.

Lemma zip_with_repeat_left (f : F -> F -> F) (x : F) (ys : list F) :
  zip_with f (repeat x (List.length ys)) ys = map (f x) ys.
Proof.
  induction ys as [|y ys IH]; cbn; [reflexivity|]. rewrite IH. reflexivity.
Qed.

(** X7.  The space-motion stage never hands palpy a batch whose six arrays
    do not all have one length: it raises its configuration error, or
    numpy's [ValueError] when the proper motion cannot even be divided by
    [cos(dec)]. *)
Theorem applyProperMotion_refuses_unequal_lengths
    (ra dec pm_ra pm_dec parallax v_rad : list F)
    (epoch : F) (instant : MJD.ModifiedJulianDate F) :
  ~ (List.length dec = List.length ra /\
     List.length pm_ra = List.length ra /\
     List.length pm_dec = List.length ra /\
     List.length parallax = List.length ra /\
     List.length v_rad = List.length ra) ->
  exists e,
    _applyProperMotion (VArray ra) (VArray dec) (VArray pm_ra) (VArray pm_dec)
                       (VArray parallax) (VArray v_rad) epoch (Some instant) =
    Raise e /\
    (class_of e = CRuntime \/ class_of e = CValue).
Proof.
  intros Hne.
  unfold _applyProperMotion. cbn [isinstance_list orb].
  rewrite result_TT. cbn [res_bind].
  unfold np_divide, np_cos. cbn [ufunc].
  destruct (broadcast fdiv pm_ra (map fcos dec)) as [rate|e] eqn:Hb.
  2:{ exists e. split; [reflexivity|]. right.
      exact (broadcast_raises_ValueError _ _ _ _ Hb). }
  cbn [res_map res_bind isinstance_ndarray].
  unfold lazy_or, len_differs, arcsecFromRadians. cbn [ufunc len res_bind].
  rewrite length_map.
  destruct (Nat.eqb (List.length ra) (List.length dec)) eqn:E1; cbn;
    [|eexists; split; [reflexivity|left; reflexivity]].
  destruct (Nat.eqb (List.length ra) (List.length pm_ra)) eqn:E2; cbn;
    [|eexists; split; [reflexivity|left; reflexivity]].
  destruct (Nat.eqb (List.length ra) (List.length pm_dec)) eqn:E3; cbn;
    [|eexists; split; [reflexivity|left; reflexivity]].
  destruct (Nat.eqb (List.length ra) (List.length parallax)) eqn:E4; cbn;
    [|eexists; split; [reflexivity|left; reflexivity]].
  destruct (Nat.eqb (List.length ra) (List.length v_rad)) eqn:E5; cbn;
    [|eexists; split; [reflexivity|left; reflexivity]].
  apply Nat.eqb_eq in E1, E2, E3, E4, E5.
  exfalso. apply Hne. repeat split; congruence.
Qed.

(** X8.  With RA and Dec given as arrays, a float for the proper motion in
    RA is refused with a [TypeError] (the length comparison takes its
    [len]), although the division by [cos(dec)] accepts it. *)
Theorem applyProperMotion_float_rate_on_arrays_is_a_TypeError
    (ra dec pm_dec parallax v_rad : list F) (pm_ra : F)
    (epoch : F) (instant : MJD.ModifiedJulianDate F) :
  np_divide (VFloat pm_ra) (np_cos (VArray dec)) =
    Ok (VArray (map (fdiv pm_ra) (map fcos dec))) /\
  _applyProperMotion (VArray ra) (VArray dec) (VFloat pm_ra) (VArray pm_dec)
                     (VArray parallax) (VArray v_rad) epoch (Some instant) =
    Raise (TypeError "object of type 'float' has no len()").
Proof.
  split; [reflexivity|].
  unfold _applyProperMotion. cbn [isinstance_list orb].
  rewrite result_TT. cbn [res_bind np_divide np_cos ufunc isinstance_ndarray].
  unfold lazy_or, len_differs. cbn [len res_bind].
  destruct (Nat.eqb (List.length ra) (List.length dec)); reflexivity.
Qed.

(** X9.  The precession stage succeeds exactly when an Instant is given and
    RA is a float, or RA and Dec both have a length and the lengths agree. *)
Theorem applyPrecession_succeeds_iff
    (ra dec : value F) (epoch : F) (instant : option (MJD.ModifiedJulianDate F)) :
  succeeds (_applyPrecession ra dec epoch instant) <->
  instant <> None /\
  (hasattr_len ra = false \/
   exists n, len ra = Ok n /\ len dec = Ok n).
Proof.
  unfold succeeds, _applyPrecession. split.
  - intros [out H].
    destruct instant as [m|].
    + split; [discriminate|].
      destruct ra as [x|xs|xs]; cbn in *; [left; reflexivity| |];
        right; destruct dec as [y|ys|ys]; cbn in H; try discriminate H;
        destruct (Nat.eqb (List.length xs) (List.length ys)) eqn:E;
        cbn in H; try discriminate H;
        apply Nat.eqb_eq in E; exists (List.length xs); rewrite E; split; reflexivity.
    + exfalso.
      destruct ra as [x|xs|xs]; cbn in H; try discriminate H;
        destruct dec as [y|ys|ys]; cbn in H; try discriminate H;
        destruct (Nat.eqb (List.length xs) (List.length ys));
        cbn in H; discriminate H.
  - intros [Hm Hlen]. destruct instant as [m|]; [|contradiction Hm; reflexivity].
    assert (Hcheck :
      (if hasattr_len ra
       then n_ra <- len ra ;; n_dec <- len dec ;;
            raise_if (negb (Nat.eqb n_ra n_dec))
              (String.append "You supplied "
                 (String.append (pct_d n_ra)
                    (String.append " RAs but "
                       (String.append (pct_d n_dec) " Decs to applyPrecession"))))
       else Ok tt) = Ok tt).
    { destruct Hlen as [Hf | [n [Hra Hdec]]].
      - rewrite Hf. reflexivity.
      - destruct (hasattr_len ra); [|reflexivity].
        rewrite Hra, Hdec. cbn. rewrite Nat.eqb_refl. reflexivity. }
    rewrite Hcheck. cbn [res_bind]. rewrite result_TT. cbn [res_bind].
    destruct (sphericalFromCartesian _) as [raOut decOut].
    eexists; reflexivity.
Qed.

(** X10.  Without a site nothing comes out of the composed transforms,
    although they do not look at the site themselves: the guard of the
    second stage (first stage, for the inverse) stops them. *)
Theorem composed_transforms_need_a_site
    (ra dec : value F) (pm_ra pm_dec parallax v_rad : option (value F))
    (instant : option (MJD.ModifiedJulianDate F)) (epoch : option F)
    (includeRefraction : bool) :
  let om := mkObservationMetaData None instant in
  ~ succeeds (_observedFromICRS ra dec pm_ra pm_dec parallax v_rad
                                (Some om) epoch includeRefraction) /\
  ~ succeeds (_icrsFromObserved ra dec (Some om) epoch includeRefraction).
Proof.
  cbn zeta. unfold succeeds, _observedFromICRS, _icrsFromObserved.
  cbn [mjd _mjd].
  split; intros [out H];
    destruct instant as [m|]; try discriminate H;
    destruct epoch as [e|]; try discriminate H;
    destruct (len ra) as [n_ra|?]; try discriminate H;
    destruct (len dec) as [n_dec|?]; try discriminate H;
    cbn [res_bind] in H;
    destruct (Nat.eqb n_ra n_dec); cbn [negb raise_if res_bind] in H;
    try discriminate H.
  destruct (_appGeoFromICRS _ _ _ _ _ _ _ _) as [[a b]|?];
    cbn [res_bind] in H; discriminate H.
Qed.

(** X11.  When every motion term is omitted, the rate handed to the
    mean-to-apparent primitive is still a division, [0.0 / cos(dec)] star
    by star, next to zero arrays of the batch's length. *)
Theorem omitted_proper_motion_is_zero_over_cos_dec
    (ra dec : list F) (epoch : F) (instant : MJD.ModifiedJulianDate F) :
  List.length ra = List.length dec ->
  _appGeoFromICRS (VArray ra) (VArray dec) None None None None epoch (Some instant) =
    ('(raOut, decOut) <-
        mapqkVector (VArray ra) (VArray dec)
                    (VArray (map (fun d => fdiv fzero (fcos d)) dec))
                    (VArray (repeat fzero (List.length ra)))
                    (VArray (repeat (arcsec_of_radians fzero) (List.length ra)))
                    (VArray (repeat fzero (List.length ra)))
                    (mappa epoch (tdb_of instant)) ;;
     Ok (VArray raOut, VArray decOut)).
Proof.
  intros Hlen.
  unfold _appGeoFromICRS. cbn [len res_bind].
  rewrite Hlen, Nat.eqb_refl. cbn [negb raise_if res_bind].
  rewrite result_TDB. cbn [res_bind].
  unfold np_zeros. rewrite divide_by_cos_dec by apply repeat_length.
  cbn [res_bind]. rewrite <- (length_map fcos dec), zip_with_repeat_left.
  rewrite map_map, length_map.
  unfold arcsecFromRadians. cbn [ufunc]. rewrite map_repeat. reflexivity.
Qed.

(** X12.  The transforms that compare [len(ra)] with [len(dec)] take arrays
    only: a float RA is a [TypeError], with full context, where the
    precession stage takes floats. *)
Theorem float_RA_is_a_TypeError_in_the_array_transforms
    (x y : F) (dec : value F) (pm_ra pm_dec parallax v_rad : option (value F))
    (the_site : Site F) (instant : MJD.ModifiedJulianDate F)
    (epoch wavelength : F) (includeRefraction altAzHr : bool) :
  let om := mkObservationMetaData (Some the_site) (Some instant) in
  let float_has_no_len := TypeError "object of type 'float' has no len()" in
  _appGeoFromICRS (VFloat x) dec pm_ra pm_dec parallax v_rad epoch (Some instant) =
    Raise float_has_no_len /\
  _observedFromAppGeo (VFloat x) dec includeRefraction altAzHr wavelength (Some om) =
    Raise float_has_no_len /\
  _appGeoFromObserved (VFloat x) dec includeRefraction wavelength (Some om) =
    Raise float_has_no_len /\
  _observedFromICRS (VFloat x) dec pm_ra pm_dec parallax v_rad (Some om)
                    (Some epoch) includeRefraction =
    Raise float_has_no_len /\
  _icrsFromObserved (VFloat x) dec (Some om) (Some epoch) includeRefraction =
    Raise float_has_no_len /\
  succeeds (_applyPrecession (VFloat x) (VFloat y) epoch (Some instant)).
Proof.
  cbn zeta. repeat split.
  unfold succeeds, _applyPrecession. cbn [hasattr_len res_bind].
  rewrite result_TT. cbn [res_bind].
  destruct (sphericalFromCartesian _) as [raOut decOut].
  eexists; reflexivity.
Qed.

(** The observed-place transform returns the altitude/azimuth array
    when [altAzHr] is set and only then. *)
Theorem altAz_is_returned_exactly_when_asked
    (ra dec : value F) (includeRefraction altAzHr : bool) (wavelength : F)
    (obs_metadata : option (ObservationMetaData F))
    (raDec : array2 F) (altAz : option (array2 F)) :
  _observedFromAppGeo ra dec includeRefraction altAzHr wavelength obs_metadata =
    Ok (raDec, altAz) ->
  (altAz <> None <-> altAzHr = true).
Proof.
  unfold _observedFromAppGeo. intros H.
  destruct obs_metadata as [om|]; [|discriminate H].
  destruct (site om) as [s|]; [|discriminate H].
  destruct (mjd om) as [m|]; [|discriminate H].
  destruct (len ra) as [n_ra|?]; [|discriminate H].
  destruct (len dec) as [n_dec|?]; [|discriminate H].
  cbn [res_bind] in H.
  destruct (raise_if _ _); [|discriminate H]. cbn [res_bind] in H.
  destruct (_calculateObservatoryParameters _ _ _) as [prms|?]; [|discriminate H].
  cbn [res_bind] in H.
  destruct (aopqkVector _ _ _) as [[[[[az zd] ha] d] r]|?]; [|discriminate H].
  cbn [res_bind] in H.
  destruct altAzHr.
  - destruct (de2hVector _ _ _) as [az' alt']. inversion H; subst.
    split; [reflexivity|discriminate].
  - inversion H; subst. split; [intros Hn; contradiction Hn; reflexivity|discriminate].
Qed.

End MorePipelineFacts.

(** ** The observation object *)

Section ObservationFacts.
Context {F : Type} {float64 : Float64 F} {astropy : Astropy F}
        {bounds_api : SpatialBoundsAPI F} {python : Python F}.
Import OMDSpec.

(** *** Dicts keyed by bandpass *)

Lemma getitem_app (k : string) (d1 d2 : OMD.dict F) :
  OMD.getitem k (d1 ++ d2) =
  match OMD.getitem k d1 with
  | Some v => Some v
  | None => OMD.getitem k d2
  end.
Proof.
  induction d1 as [|[k' v] d1 IH]; cbn; [reflexivity|].
  destruct (String.eqb k k'); [reflexivity|exact IH].
Qed.

Lemma getitem_not_a_key (k : string) (d : OMD.dict F) :
  ~ In k (map fst d) -> OMD.getitem k d = None.
Proof.
  induction d as [|[k' v] d IH]; cbn; intros H; [reflexivity|].
  destruct (String.eqb_spec k k') as [->|Hne].
  - contradiction H. left; reflexivity.
  - apply IH. intros Hin. apply H. right; exact Hin.
Qed.

Lemma getitem_rev (k : string) (d : OMD.dict F) :
  NoDup (map fst d) -> OMD.getitem k (rev d) = OMD.getitem k d.
Proof.
  induction d as [|[k' v] d IH]; cbn; intros Hnd; [reflexivity|].
  inversion Hnd as [|? ? Hnotin Hnd']; subst.
  rewrite getitem_app, (IH Hnd'). cbn.
  destruct (String.eqb_spec k k') as [->|Hne].
  - rewrite (getitem_not_a_key _ _ Hnotin). reflexivity.
  - destruct (OMD.getitem k d); reflexivity.
Qed.

Lemma dict_of_assignments (kvs : list (string * F)) (acc : OMD.dict F) :
  fold_left (fun outputDict bm => OMD.setitem (fst bm) (snd bm) outputDict) kvs acc =
  rev kvs ++ acc.
Proof.
  revert acc. induction kvs as [|[k v] kvs IH]; intros acc; cbn; [reflexivity|].
  rewrite IH, <- app_assoc. reflexivity.
Qed.

Lemma map_fst_combine (ks : list string) (vs : list F) :
  List.length vs = List.length ks -> map fst (combine ks vs) = ks.
Proof.
  revert vs. induction ks as [|k ks IH]; intros [|v vs] H; cbn in *;
    try discriminate; [reflexivity|].
  rewrite IH by congruence. reflexivity.
Qed.

Lemma getitem_combine_nth (ks : list string) (vs : list F) (i : nat) :
  NoDup ks -> List.length vs = List.length ks -> i < List.length ks ->
  OMD.getitem (nth i ks "") (combine ks vs) = Some (nth i vs fzero).
Proof.
  revert vs i. induction ks as [|k ks IH]; intros [|v vs] i Hnd Hlen Hi;
    cbn in *; try discriminate; [inversion Hi|].
  inversion Hnd as [|? ? Hnotin Hnd']; subst.
  destruct i as [|i].
  - rewrite String.eqb_refl. reflexivity.
  - destruct (String.eqb_spec (nth i ks "") k) as [E|_].
    + contradiction Hnotin. rewrite <- E. apply nth_In.
      apply Nat.succ_lt_mono. exact Hi.
    + apply IH; [exact Hnd'|congruence|apply Nat.succ_lt_mono; exact Hi].
Qed.

(** X13.  Given a list of distinct bandpass names and a list of as many
    values, the dict built for [m5] or [seeing] maps the i-th name to the
    i-th value and has no other key; the object is not touched. *)
Theorem dict_keyed_to_the_bandpasses
    (names : list string) (values : list F) (inputName : string)
    (self : OMD.ObservationMetaData F) :
  OMD._bandpass self = Some (OMD.BNames names) ->
  List.length values = List.length names ->
  NoDup names ->
  exists d,
    OMD._assignDictKeyedToBandpass (Some (OMD.Many values)) inputName self =
      (Ok (Some d), self) /\
    (forall i, i < List.length names ->
       OMD.getitem (nth i names "") d = Some (nth i values fzero)) /\
    (forall k, ~ In k names -> OMD.getitem k d = None).
Proof.
  intros Hb Hlen Hnd.
  exists (rev (combine names values) ++ []).
  split; [|split].
  - unfold OMD._assignDictKeyedToBandpass, OMD.bind, OMD.get. cbv beta.
    rewrite Hb. cbn. rewrite Hlen, Nat.eqb_refl. cbn.
    rewrite dict_of_assignments. reflexivity.
  - intros i Hi. rewrite app_nil_r, getitem_rev.
    + apply getitem_combine_nth; assumption.
    + rewrite map_fst_combine; assumption.
  - intros k Hk. rewrite app_nil_r. apply getitem_not_a_key.
    rewrite map_rev, map_fst_combine by assumption.
    intros Hin. apply Hk. apply in_rev. exact Hin.
Qed.

Lemma assignDict_keeps_the_object (v : option (OMD.per_band F)) (name : string)
    (self : OMD.ObservationMetaData F) :
  snd (OMD._assignDictKeyedToBandpass v name self) = self.
Proof.
  unfold OMD._assignDictKeyedToBandpass, OMD.bind, OMD.get, OMD.raise_if,
         OMD.raise, OMD.ret.
  destruct v as [[x|xs]|]; cbn; [| |reflexivity];
    destruct (OMD._bandpass self) as [[b|bs]|]; cbn; try reflexivity;
    try (destruct str_has_iter; cbn; try reflexivity);
    try (destruct (Nat.eqb _ _); reflexivity).
Qed.

Lemma assignDict_raises_RuntimeError (v : option (OMD.per_band F)) (name : string)
    (self : OMD.ObservationMetaData F) (e : exn) :
  fst (OMD._assignDictKeyedToBandpass v name self) = Raise e ->
  class_of e = CRuntime.
Proof.
  intros H.
  unfold OMD._assignDictKeyedToBandpass, OMD.bind, OMD.get, OMD.raise_if,
         OMD.raise, OMD.ret in H.
  destruct v as [[x|xs]|]; cbn in H; [| |discriminate H];
    destruct (OMD._bandpass self) as [[b|bs]|]; cbn in H;
    try (destruct str_has_iter; cbn in H);
    try (destruct (Nat.eqb _ _); cbn in H);
    inversion H; reflexivity.
Qed.

(** X14.  For a list of bandpass names, [m5] and [seeing] are accepted
    exactly when they are omitted or are a list of as many values; without
    any bandpass, exactly when they are omitted; and what is refused is
    refused with the configuration error. *)
Theorem shapes_of_m5_and_seeing
    (v : option (OMD.per_band F)) (inputName : string)
    (self : OMD.ObservationMetaData F) :
  (forall names, OMD._bandpass self = Some (OMD.BNames names) ->
     (succeeds (fst (OMD._assignDictKeyedToBandpass v inputName self)) <->
      v = None \/
      exists values, v = Some (OMD.Many values) /\
                     List.length values = List.length names)) /\
  (OMD._bandpass self = None ->
     (succeeds (fst (OMD._assignDictKeyedToBandpass v inputName self)) <->
      v = None)) /\
  (forall e, fst (OMD._assignDictKeyedToBandpass v inputName self) = Raise e ->
     class_of e = CRuntime).
Proof.
  assert (Hrun : forall xs : list F, forall names,
            OMD._bandpass self = Some (OMD.BNames names) ->
            fst (OMD._assignDictKeyedToBandpass (Some (OMD.Many xs)) inputName self) =
            if Nat.eqb (List.length xs) (List.length names)
            then Ok (Some (fold_left
                             (fun outputDict bm =>
                                OMD.setitem (fst bm) (snd bm) outputDict)
                             (combine names xs) []))
            else Raise (RuntimeError
                   (String.append "The list of "
                      (String.append inputName
                         (String.append " you passed to ObservationMetaData "
                            "has a different length than the list of bandpass names you passed"))))).
  { intros xs names Hb.
    unfold OMD._assignDictKeyedToBandpass, OMD.bind, OMD.get. cbv beta.
    rewrite Hb. cbn. destruct (Nat.eqb _ _); reflexivity. }
  unfold succeeds. split; [|split].
  - intros names Hb. split.
    + intros [out H]. destruct v as [[x|xs]|]; [| |left; reflexivity].
      * unfold OMD._assignDictKeyedToBandpass, OMD.bind, OMD.get in H.
        cbv beta in H. rewrite Hb in H. discriminate H.
      * right. exists xs. split; [reflexivity|].
        rewrite (Hrun xs names Hb) in H.
        destruct (Nat.eqb (List.length xs) (List.length names)) eqn:E;
          [apply Nat.eqb_eq; exact E|discriminate H].
    + intros [->|[values [-> Hlen]]].
      * eexists; reflexivity.
      * rewrite (Hrun values names Hb), Hlen, Nat.eqb_refl. eexists; reflexivity.
  - intros Hb. split.
    + intros [out H]. destruct v as [[x|xs]|]; [| |reflexivity];
        unfold OMD._assignDictKeyedToBandpass, OMD.bind, OMD.get in H;
        cbv beta in H; rewrite Hb in H; discriminate H.
    + intros ->. eexists; reflexivity.
  - intros e. apply assignDict_raises_RuntimeError.
Qed.

(** X15.  A single bandpass name with a single value gives the one-entry
    dict where a [str] has no [__iter__] (Python 2); where it has one
    (Python 3) the name counts as a list and the value is refused. *)
Theorem single_bandpass_with_single_value
    (name : string) (x : F) (inputName : string)
    (self : OMD.ObservationMetaData F) :
  OMD._bandpass self = Some (OMD.BName name) ->
  OMD._assignDictKeyedToBandpass (Some (OMD.Single x)) inputName self =
    if str_has_iter
    then (Raise (RuntimeError
                   (String.append "You passed a list of bandpass names"
                      (String.append "but did not pass a list of "
                         (String.append inputName " to ObservationMetaData")))),
          self)
    else (Ok (Some [(name, x)]), self).
Proof.
  intros Hb.
  unfold OMD._assignDictKeyedToBandpass, OMD.bind, OMD.get. cbv beta.
  rewrite Hb. cbn. destruct str_has_iter; reflexivity.
Qed.

(** *** Running the methods *)

Lemma assignDict_run (v : option (OMD.per_band F)) (name : string)
    (self : OMD.ObservationMetaData F) :
  OMD._assignDictKeyedToBandpass v name self =
  (fst (OMD._assignDictKeyedToBandpass v name self), self).
Proof.
  rewrite <- (assignDict_keeps_the_object v name self) at 3.
  apply surjective_pairing.
Qed.

Lemma buildBounds_run (self : OMD.ObservationMetaData F) :
  OMD._buildBounds self =
  match OMD._boundType self, OMD._boundLength self,
        OMD._pointingRA self, OMD._pointingDec self with
  | Some t, Some l, Some ra, Some dec =>
      match getSpatialBounds t ra dec l with
      | Ok b => (Ok tt, OMD.set_bounds (Some b) self)
      | Raise e => (Raise e, self)
      end
  | _, _, _, _ => (Ok tt, self)
  end.
Proof.
  unfold OMD._buildBounds, OMD.bind, OMD.get, OMD.lift, OMD.assign, OMD.ret.
  destruct (OMD._boundType self), (OMD._boundLength self),
           (OMD._pointingRA self), (OMD._pointingDec self); reflexivity.
Qed.

(** The bounds are the only thing [_buildBounds] writes. *)
Lemma buildBounds_writes_bounds_only (self : OMD.ObservationMetaData F) :
  exists b, snd (OMD._buildBounds self) = OMD.set_bounds b self /\
            (b = OMD._bounds self \/ exists b', b = Some b').
Proof.
  rewrite buildBounds_run.
  assert (Hsame : self = OMD.set_bounds (OMD._bounds self) self)
    by (destruct self; reflexivity).
  destruct (OMD._boundType self), (OMD._boundLength self),
           (OMD._pointingRA self), (OMD._pointingDec self);
    try (exists (OMD._bounds self); split; [exact Hsame|left; reflexivity]).
  destruct (getSpatialBounds _ _ _ _) as [b|e].
  - exists (Some b). split; [reflexivity|right; eexists; reflexivity].
  - exists (OMD._bounds self); split; [exact Hsame|left; reflexivity].
Qed.

(** When the phoSimMetaData are accepted, nothing set by hand is
    overwritten, the dict is consistent about the pointing, and the object
    is the one with the entries written in, bounds rebuilt. *)
Lemma assignPhoSimMetaData_accepts (d : OMD.PhoSimMetaData F)
    (self self' : OMD.ObservationMetaData F) :
  OMD._assignPhoSimMetaData d self = (Ok tt, self') ->
  OMD._buildBounds (written d self) = (Ok tt, self') /\
  (OMD.is_some (OMD.Opsim_expmjd d) && OMD.is_some (OMD._mjd self) = false) /\
  (OMD.is_some (OMD.Opsim_rotskypos d) && OMD.is_some (OMD._rotSkyPos self) = false) /\
  (OMD.is_some (OMD.Opsim_filter d) && OMD.is_some (OMD._bandpass self) = false) /\
  (OMD.is_some (OMD.phoSim_pointingRA d) = OMD.is_some (OMD.phoSim_pointingDec d)) /\
  (OMD.is_some (OMD.phoSim_pointingRA d) &&
   (OMD.is_some (OMD._pointingRA self) || OMD.is_some (OMD._pointingDec self)) = false).
Proof.
  destruct d as [expmjd rotskypos filter rawseeing pRA pDec].
  destruct self as [b bt bp sky st ep mj rot ra dec bl ph m5d see].
  unfold OMD._assignPhoSimMetaData, written, instant.
  intros H.
  destruct expmjd as [x|], mj as [m|]; cbn in H |- *; try discriminate H.
  all: destruct rotskypos as [r|], rot as [r0|]; cbn in H |- *; try discriminate H.
  all: destruct filter as [f|], bp as [f0|]; cbn in H |- *; try discriminate H.
  all: destruct rawseeing as [s|]; [destruct see as [|[s0|]]|];
         cbn in H |- *; try discriminate H.
  all: destruct pRA as [pr|], pDec as [pd|]; cbn in H |- *; try discriminate H.
  all: try (destruct ra as [ra0|], dec as [dec0|]; cbn in H |- *;
            try discriminate H).
  all: repeat split; exact H.
Qed.

(** What a successful construction went through. *)
Lemma init_accepts
    (boundType : option string) (boundLength : option (value F))
    (mjd : option (OMD.mjd_arg F)) (pointingRA pointingDec rotSkyPos : option F)
    (bandpassName : option OMD.bands) (phoSimMetaData : option (OMD.PhoSimMetaData F))
    (site : option (Site F)) (m5 : option (OMD.per_band F)) (skyBrightness : option F)
    (seeing : option (OMD.per_band F)) (epoch : F)
    (om : OMD.ObservationMetaData F) :
  OMD.__init__ boundType boundLength mjd pointingRA pointingDec rotSkyPos
               bandpassName phoSimMetaData site m5 skyBrightness seeing epoch = Ok om ->
  exists s1 m5d seed,
    mjd <> Some OMD.MjdOther /\
    match phoSimMetaData with
    | Some d => OMD._assignPhoSimMetaData d
    | None => OMD.assign (OMD.set_phoSimMetaData None)
    end (fresh boundType boundLength
               (match mjd with Some a => instant_of_arg a | None => None end)
               pointingRA pointingDec rotSkyPos bandpassName site
               skyBrightness epoch) = (Ok tt, s1) /\
    fst (OMD._assignDictKeyedToBandpass m5 "m5" s1) = Ok m5d /\
    fst (OMD._assignDictKeyedToBandpass seeing "seeing" (OMD.set_m5 m5d s1)) = Ok seed /\
    (if OMD.is_some (OMD._bounds s1)
     then (Ok tt, OMD.set_seeing seed (OMD.set_m5 m5d s1))
     else OMD._buildBounds (OMD.set_seeing seed (OMD.set_m5 m5d s1))) = (Ok tt, om).
Proof.
  assert (Htail : forall self0,
    OMD.exec
      (OMD.bind
         match phoSimMetaData with
         | Some d => OMD._assignPhoSimMetaData d
         | None => OMD.assign (OMD.set_phoSimMetaData None)
         end
         (fun _ =>
          OMD.bind (OMD._assignDictKeyedToBandpass m5 "m5") (fun the_m5 =>
          OMD.bind (OMD.assign (OMD.set_m5 the_m5)) (fun _ =>
          OMD.bind (OMD._assignDictKeyedToBandpass seeing "seeing") (fun the_seeing =>
          OMD.bind (OMD.assign (OMD.set_seeing the_seeing)) (fun _ =>
          OMD.bind (OMD.get OMD._bounds) (fun bounds =>
          OMD.when (negb (OMD.is_some bounds)) OMD._buildBounds)))))))
      self0 = Ok om ->
    exists s1 m5d seed,
      match phoSimMetaData with
      | Some d => OMD._assignPhoSimMetaData d
      | None => OMD.assign (OMD.set_phoSimMetaData None)
      end self0 = (Ok tt, s1) /\
      fst (OMD._assignDictKeyedToBandpass m5 "m5" s1) = Ok m5d /\
      fst (OMD._assignDictKeyedToBandpass seeing "seeing" (OMD.set_m5 m5d s1)) = Ok seed /\
      (if OMD.is_some (OMD._bounds s1)
       then (Ok tt, OMD.set_seeing seed (OMD.set_m5 m5d s1))
       else OMD._buildBounds (OMD.set_seeing seed (OMD.set_m5 m5d s1))) = (Ok tt, om)).
  { intros self0 H. unfold OMD.exec, OMD.bind in H.
    destruct (match phoSimMetaData with
              | Some d => OMD._assignPhoSimMetaData d
              | None => OMD.assign (OMD.set_phoSimMetaData None)
              end self0) as [[[]|e] s1] eqn:E1; [|discriminate H].
    rewrite assignDict_run in H.
    destruct (fst (OMD._assignDictKeyedToBandpass m5 "m5" s1)) as [m5d|e] eqn:E2;
      [|discriminate H].
    unfold OMD.assign at 1 in H. cbv beta iota in H.
    rewrite assignDict_run in H.
    destruct (fst (OMD._assignDictKeyedToBandpass seeing "seeing" (OMD.set_m5 m5d s1)))
      as [seed|e] eqn:E3; [|discriminate H].
    unfold OMD.assign, OMD.get, OMD.when in H. cbv beta iota in H.
    exists s1, m5d, seed. repeat split; try assumption.
    cbn [OMD._bounds OMD.set_seeing OMD.set_m5] in H.
    destruct (OMD.is_some (OMD._bounds s1)); cbn [negb] in H.
    - unfold OMD.ret in H. inversion H. reflexivity.
    - destruct (OMD._buildBounds _) as [[[]|e] s4]; inversion H. reflexivity. }
  unfold OMD.__init__. intros H.
  destruct mjd as [[x|z|m|]|]; cbn [res_bind res_map MJD.__init__] in H;
    try discriminate H;
    destruct (Htail _ H) as (s1 & m5d & seed & H1 & H2 & H3 & H4);
    exists s1, m5d, seed; repeat split; try assumption; discriminate.
Qed.

Lemma buildBounds_bounds_of (self : OMD.ObservationMetaData F) :
  OMD._buildBounds self =
  match bounds_of self with
  | Ok b => (Ok tt, OMD.set_bounds b self)
  | Raise e => (Raise e, self)
  end.
Proof.
  rewrite buildBounds_run. unfold bounds_of.
  destruct self as [b bt bp sky st ep mj rot ra dec bl ph m5d see]. cbn.
  destruct bt, bl, ra, dec; try reflexivity.
  destruct (getSpatialBounds _ _ _ _); reflexivity.
Qed.

(** [m5] and [seeing] are keyed to [self._bandpass] and to nothing else. *)
Lemma assignDict_reads_the_bandpass (v : option (OMD.per_band F)) (name : string)
    (s s' : OMD.ObservationMetaData F) :
  OMD._bandpass s = OMD._bandpass s' ->
  fst (OMD._assignDictKeyedToBandpass v name s) =
  fst (OMD._assignDictKeyedToBandpass v name s').
Proof.
  intros H.
  unfold OMD._assignDictKeyedToBandpass, OMD.bind, OMD.get, OMD.raise_if,
         OMD.raise, OMD.ret.
  destruct v as [[x|xs]|]; cbn; [| |reflexivity]; rewrite H;
    destruct (OMD._bandpass s') as [[b|bs]|]; cbn; try reflexivity;
    try (destruct str_has_iter; cbn; try reflexivity);
    try (destruct (Nat.eqb _ _); reflexivity).
Qed.

(** The object a successful construction returns. *)
Lemma init_shape
    (boundType : option string) (boundLength : option (value F))
    (mjd : option (OMD.mjd_arg F)) (pointingRA pointingDec rotSkyPos : option F)
    (bandpassName : option OMD.bands) (phoSimMetaData : option (OMD.PhoSimMetaData F))
    (site : option (Site F)) (m5 : option (OMD.per_band F)) (skyBrightness : option F)
    (seeing : option (OMD.per_band F)) (epoch : F)
    (om : OMD.ObservationMetaData F) :
  OMD.__init__ boundType boundLength mjd pointingRA pointingDec rotSkyPos
               bandpassName phoSimMetaData site m5 skyBrightness seeing epoch = Ok om ->
  let start := fresh boundType boundLength
                     (match mjd with Some a => instant_of_arg a | None => None end)
                     pointingRA pointingDec rotSkyPos bandpassName site
                     skyBrightness epoch in
  let base := match phoSimMetaData with
              | Some d => written d start
              | None => start
              end in
  exists b m5d seed,
    om = OMD.set_bounds b (OMD.set_seeing seed (OMD.set_m5 m5d base)) /\
    bounds_of base = Ok b /\
    fst (OMD._assignDictKeyedToBandpass m5 "m5" base) = Ok m5d /\
    fst (OMD._assignDictKeyedToBandpass seeing "seeing" base) = Ok seed /\
    mjd <> Some OMD.MjdOther /\
    match phoSimMetaData with
    | Some d =>
        OMD.is_some (OMD.Opsim_expmjd d) && OMD.is_some (OMD._mjd start) = false /\
        OMD.is_some (OMD.Opsim_rotskypos d) && OMD.is_some (OMD._rotSkyPos start) = false /\
        OMD.is_some (OMD.Opsim_filter d) && OMD.is_some (OMD._bandpass start) = false /\
        OMD.is_some (OMD.phoSim_pointingRA d) = OMD.is_some (OMD.phoSim_pointingDec d) /\
        OMD.is_some (OMD.phoSim_pointingRA d) &&
        (OMD.is_some (OMD._pointingRA start) || OMD.is_some (OMD._pointingDec start)) = false
    | None => True
    end.
Proof.
  intros H start base.
  destruct (init_accepts _ _ _ _ _ _ _ _ _ _ _ _ _ _ H)
    as (s1 & m5d & seed & Hmjd & H1 & H2 & H3 & H4).
  fold start in H1.
  assert (Hbase : OMD._bounds base = None)
    by (subst base; destruct phoSimMetaData; reflexivity).
  assert (Hs1 : exists b1, s1 = OMD.set_bounds b1 base /\
                (b1 = None \/ bounds_of base = Ok b1) /\
                match phoSimMetaData with
                | Some d =>
                    OMD.is_some (OMD.Opsim_expmjd d) && OMD.is_some (OMD._mjd start) = false /\
                    OMD.is_some (OMD.Opsim_rotskypos d) && OMD.is_some (OMD._rotSkyPos start) = false /\
                    OMD.is_some (OMD.Opsim_filter d) && OMD.is_some (OMD._bandpass start) = false /\
                    OMD.is_some (OMD.phoSim_pointingRA d) = OMD.is_some (OMD.phoSim_pointingDec d) /\
                    OMD.is_some (OMD.phoSim_pointingRA d) &&
                    (OMD.is_some (OMD._pointingRA start) || OMD.is_some (OMD._pointingDec start)) = false
                | None => True
                end).
  { subst base. destruct phoSimMetaData as [d|].
    - destruct (assignPhoSimMetaData_accepts _ _ _ H1) as (Hb & Hrest).
      rewrite buildBounds_bounds_of in Hb.
      destruct (bounds_of (written d start)) as [b1|e]; [|discriminate Hb].
      inversion Hb. exists b1. repeat split; try (right; reflexivity); apply Hrest.
    - unfold OMD.assign in H1. inversion H1.
      exists None. repeat split. left; reflexivity. }
  destruct Hs1 as (b1 & -> & Hb1 & Hconf).
  assert (Hbp : OMD._bandpass (OMD.set_bounds b1 base) = OMD._bandpass base)
    by reflexivity.
  rewrite (assignDict_reads_the_bandpass _ _ _ _ Hbp) in H2.
  assert (Hbp' : OMD._bandpass (OMD.set_m5 m5d (OMD.set_bounds b1 base)) =
                 OMD._bandpass base) by reflexivity.
  rewrite (assignDict_reads_the_bandpass _ _ _ _ Hbp') in H3.
  cbn [OMD._bounds OMD.set_bounds] in H4.
  destruct b1 as [b1|]; cbn [OMD.is_some] in H4.
  - destruct Hb1 as [Hb1|Hb1]; [discriminate Hb1|].
    inversion H4. exists (Some b1), m5d, seed. repeat split; assumption.
  - clear Hb1. rewrite buildBounds_bounds_of in H4.
    assert (Hsame : bounds_of (OMD.set_seeing seed (OMD.set_m5 m5d (OMD.set_bounds None base))) =
                    bounds_of base).
    { unfold bounds_of.
      cbn [OMD._boundType OMD._boundLength OMD._pointingRA OMD._pointingDec
           OMD._bounds OMD.set_bounds OMD.set_seeing OMD.set_m5].
      rewrite Hbase. reflexivity. }
    rewrite Hsame in H4.
    destruct (bounds_of base) as [b|e]; [|discriminate H4].
    inversion H4. exists b, m5d, seed. repeat split; assumption.
Qed.

(** *** The constructor *)

(** X16.  What the pipeline sees of a constructed observation: the site
    as given, and for the time the Instant passed in, or the Instant built
    from the float or int [mjd] taken as TAI, or, when no [mjd] is given,
    the Instant built from the [Opsim_expmjd] entry of phoSimMetaData taken
    as TAI; no Instant otherwise. *)
Theorem what_the_pipeline_sees_of_an_observation
    (boundType : option string) (boundLength : option (value F))
    (mjd : option (OMD.mjd_arg F)) (pointingRA pointingDec rotSkyPos : option F)
    (bandpassName : option OMD.bands) (phoSimMetaData : option (OMD.PhoSimMetaData F))
    (site : option (Site F)) (m5 : option (OMD.per_band F)) (skyBrightness : option F)
    (seeing : option (OMD.per_band F)) (epoch : F)
    (om : OMD.ObservationMetaData F) :
  OMD.__init__ boundType boundLength mjd pointingRA pointingDec rotSkyPos
               bandpassName phoSimMetaData site m5 skyBrightness seeing epoch = Ok om ->
  for_pipeline om =
  mkObservationMetaData site
    match mjd with
    | Some a => instant_of_arg a
    | None =>
        match phoSimMetaData with
        | Some d => option_map instant (OMD.Opsim_expmjd d)
        | None => None
        end
    end.
Proof.
  intros H.
  destruct (init_shape _ _ _ _ _ _ _ _ _ _ _ _ _ _ H)
    as (b & m5d & seed & -> & _ & _ & _ & Hmjd & Hconf).
  unfold for_pipeline, OMD.site, OMD.mjd.
  destruct phoSimMetaData as [d|]; cbn; [|destruct mjd; reflexivity].
  destruct Hconf as (Hc & _). cbn in Hc.
  destruct (OMD.Opsim_expmjd d) as [x|]; cbn in *.
  - destruct mjd as [[y|z|m|]|]; cbn in *;
      try discriminate Hc; try reflexivity.
    contradiction Hmjd; reflexivity.
  - destruct mjd; reflexivity.
Qed.

(** X17.  Angles given to the constructor are degrees, converted to
    radians on the way in and back to degrees on the way out; the pointing
    and the rotation taken from phoSimMetaData are stored as they come and
    only converted on the way out. *)
Theorem angles_of_a_constructed_observation
    (boundType : option string) (boundLength : option (value F))
    (mjd : option (OMD.mjd_arg F)) (pointingRA pointingDec rotSkyPos : option F)
    (bandpassName : option OMD.bands) (phoSimMetaData : option (OMD.PhoSimMetaData F))
    (site : option (Site F)) (m5 : option (OMD.per_band F)) (skyBrightness : option F)
    (seeing : option (OMD.per_band F)) (epoch : F)
    (om : OMD.ObservationMetaData F) :
  OMD.__init__ boundType boundLength mjd pointingRA pointingDec rotSkyPos
               bandpassName phoSimMetaData site m5 skyBrightness seeing epoch = Ok om ->
  let from_phoSim key :=
    match phoSimMetaData with
    | Some d => option_map fdegrees (key d)
    | None => None
    end in
  OMD.pointingRA om =
    match pointingRA with
    | Some x => Some (fdegrees (fradians x))
    | None => from_phoSim OMD.phoSim_pointingRA
    end /\
  OMD.pointingDec om =
    match pointingDec with
    | Some x => Some (fdegrees (fradians x))
    | None => from_phoSim OMD.phoSim_pointingDec
    end /\
  OMD.rotSkyPos om =
    match rotSkyPos with
    | Some x => Some (fdegrees (fradians x))
    | None => from_phoSim OMD.Opsim_rotskypos
    end /\
  OMD.boundLength om = option_map (fun v => np_degrees (np_radians v)) boundLength.
Proof.
  intros H.
  destruct (init_shape _ _ _ _ _ _ _ _ _ _ _ _ _ _ H)
    as (b & m5d & seed & -> & _ & _ & _ & _ & Hconf).
  unfold OMD.pointingRA, OMD.pointingDec, OMD.rotSkyPos, OMD.boundLength.
  destruct phoSimMetaData as [d|]; cbn.
  - destruct Hconf as (_ & Hrot & _ & Hboth & Hpt). cbn in Hrot, Hboth, Hpt.
    destruct d as [e r f s pra pdec]; cbn in *.
    destruct pra, pdec, r, pointingRA, pointingDec, rotSkyPos, boundLength;
      cbn in *; try discriminate; repeat split.
  - destruct pointingRA, pointingDec, rotSkyPos, boundLength; repeat split.
Qed.

(** X18.  An observation constructed without phoSimMetaData has bounds
    exactly when the bound type, the bound length and both pointing angles
    were given, and they are the bounds computed for the pointing and the
    bound length in radians. *)
Theorem bounds_of_a_constructed_observation
    (boundType : option string) (boundLength : option (value F))
    (mjd : option (OMD.mjd_arg F)) (pointingRA pointingDec rotSkyPos : option F)
    (bandpassName : option OMD.bands)
    (site : option (Site F)) (m5 : option (OMD.per_band F)) (skyBrightness : option F)
    (seeing : option (OMD.per_band F)) (epoch : F)
    (om : OMD.ObservationMetaData F) :
  OMD.__init__ boundType boundLength mjd pointingRA pointingDec rotSkyPos
               bandpassName None site m5 skyBrightness seeing epoch = Ok om ->
  match boundType, boundLength, pointingRA, pointingDec with
  | Some t, Some l, Some ra, Some dec =>
      exists b, OMD.bounds om = Some b /\
                getSpatialBounds t (fradians ra) (fradians dec) (np_radians l) = Ok b
  | _, _, _, _ => OMD.bounds om = None
  end.
Proof.
  intros H.
  destruct (init_shape _ _ _ _ _ _ _ _ _ _ _ _ _ _ H)
    as (b & m5d & seed & -> & Hb & _).
  unfold OMD.bounds, bounds_of in *. cbn in *.
  destruct boundType, boundLength, pointingRA, pointingDec; cbn in *;
    try (inversion Hb; reflexivity).
  destruct (getSpatialBounds _ _ _ _) as [b0|e]; [|discriminate Hb].
  inversion Hb. exists b0. split; reflexivity.
Qed.

(** X19.  The constructor refuses, with a configuration error, to be given
    by hand a value that the phoSimMetaData also carry (the time, the
    rotation, the bandpass, the pointing), and phoSimMetaData that carry
    one pointing angle without the other. *)
Theorem constructor_refuses_to_overwrite
    (boundType : option string) (boundLength : option (value F))
    (mjd : option (OMD.mjd_arg F)) (pointingRA pointingDec rotSkyPos : option F)
    (bandpassName : option OMD.bands)
    (site : option (Site F)) (m5 : option (OMD.per_band F)) (skyBrightness : option F)
    (seeing : option (OMD.per_band F)) (epoch : F)
    (a : OMD.mjd_arg F) (x y : F) (b f : OMD.bands)
    (expmjd rotskypos rawseeing pRA pDec : option F) (filter : option OMD.bands) :
  let construct mjd pointingRA pointingDec rotSkyPos bandpassName d :=
    OMD.__init__ boundType boundLength mjd pointingRA pointingDec rotSkyPos
                 bandpassName (Some d) site m5 skyBrightness seeing epoch in
  is_configuration_error
    (construct (Some a) pointingRA pointingDec rotSkyPos bandpassName
       (OMD.mkPhoSimMetaData (Some y) rotskypos filter rawseeing pRA pDec)) /\
  is_configuration_error
    (construct mjd pointingRA pointingDec (Some x) bandpassName
       (OMD.mkPhoSimMetaData expmjd (Some y) filter rawseeing pRA pDec)) /\
  is_configuration_error
    (construct mjd pointingRA pointingDec rotSkyPos (Some b)
       (OMD.mkPhoSimMetaData expmjd rotskypos (Some f) rawseeing pRA pDec)) /\
  is_configuration_error
    (construct mjd (Some x) pointingDec rotSkyPos bandpassName
       (OMD.mkPhoSimMetaData expmjd rotskypos filter rawseeing (Some y) pDec)) /\
  is_configuration_error
    (construct mjd pointingRA (Some x) rotSkyPos bandpassName
       (OMD.mkPhoSimMetaData expmjd rotskypos filter rawseeing pRA (Some y))) /\
  is_configuration_error
    (construct mjd pointingRA pointingDec rotSkyPos bandpassName
       (OMD.mkPhoSimMetaData expmjd rotskypos filter rawseeing (Some y) None)) /\
  is_configuration_error
    (construct mjd pointingRA pointingDec rotSkyPos bandpassName
       (OMD.mkPhoSimMetaData expmjd rotskypos filter rawseeing None (Some y))).
Proof.
  cbn zeta. unfold is_configuration_error, OMD.__init__, OMD.exec,
    OMD._assignPhoSimMetaData.
  repeat split.
  1: destruct a as [t|z|m|]; cbn; eexists; reflexivity.
  all: destruct mjd as [[t|z|m|]|]; cbn; try (eexists; reflexivity).
  all: destruct expmjd as [e|]; cbn; try (eexists; reflexivity).
  all: try (destruct rotskypos as [r|], rotSkyPos as [r0|]; cbn;
            try (eexists; reflexivity)).
  all: try (destruct filter as [f1|], bandpassName as [f0|]; cbn;
            try (eexists; reflexivity)).
  all: try (destruct rawseeing as [s|]; cbn; try (eexists; reflexivity)).
  all: try (destruct pRA as [pr|]; cbn; try (eexists; reflexivity)).
  all: try (destruct pDec as [pd|]; cbn; try (eexists; reflexivity)).
  all: try (destruct pointingRA as [ra|]; cbn; try (eexists; reflexivity)).
  all: try (destruct pointingDec as [dec|]; cbn; try (eexists; reflexivity)).
Qed.

(** *** The setters *)

(** X20.  To the constructor an int [mjd] is the float it stands for; the
    [mjd] setter takes a float or a ModifiedJulianDate and refuses an int
    with a configuration error, leaving the object as it was. *)
Theorem int_mjd_for_the_constructor_not_for_the_setter
    (z : Z) (x : F) (m : MJD.ModifiedJulianDate F)
    (boundType : option string) (boundLength : option (value F))
    (pointingRA pointingDec rotSkyPos : option F)
    (bandpassName : option OMD.bands) (phoSimMetaData : option (OMD.PhoSimMetaData F))
    (site : option (Site F)) (m5 : option (OMD.per_band F)) (skyBrightness : option F)
    (seeing : option (OMD.per_band F)) (epoch : F)
    (self : OMD.ObservationMetaData F) :
  OMD.__init__ boundType boundLength (Some (OMD.MjdInt z)) pointingRA pointingDec
               rotSkyPos bandpassName phoSimMetaData site m5 skyBrightness seeing epoch =
  OMD.__init__ boundType boundLength (Some (OMD.MjdFloat (float_of_int z)))
               pointingRA pointingDec
               rotSkyPos bandpassName phoSimMetaData site m5 skyBrightness seeing epoch /\
  is_configuration_error (fst (OMD.mjd_setter (OMD.MjdInt z) self)) /\
  snd (OMD.mjd_setter (OMD.MjdInt z) self) = self /\
  (OMD.set_by_phoSim OMD.Opsim_expmjd self = false ->
   OMD.mjd_setter (OMD.MjdFloat x) self = (Ok tt, OMD.set_mjd (Some (instant x)) self) /\
   OMD.mjd_setter (OMD.MjdInstant m) self = (Ok tt, OMD.set_mjd (Some m) self)).
Proof.
  split; [reflexivity|].
  unfold is_configuration_error, OMD.mjd_setter, OMD.bind, OMD.get, OMD.raise_if.
  cbv beta.
  destruct (OMD.set_by_phoSim OMD.Opsim_expmjd self); cbn;
    (split; [eexists; reflexivity|]); (split; [reflexivity|]); intros Hf;
    [discriminate Hf|split; reflexivity].
Qed.

Lemma holds_on_the_same_fields (d : OMD.PhoSimMetaData F)
    (s s' : OMD.ObservationMetaData F) :
  OMD._phoSimMetaData s' = OMD._phoSimMetaData s ->
  OMD._mjd s' = OMD._mjd s ->
  OMD._rotSkyPos s' = OMD._rotSkyPos s ->
  OMD._bandpass s' = OMD._bandpass s ->
  OMD._pointingRA s' = OMD._pointingRA s ->
  OMD._pointingDec s' = OMD._pointingDec s ->
  holds d s -> holds d s'.
Proof.
  unfold holds. intros -> -> -> -> -> ->. exact (fun H => H).
Qed.

Lemma after_buildBounds_holds (d : OMD.PhoSimMetaData F)
    (s : OMD.ObservationMetaData F) :
  holds d s -> holds d (snd (OMD._buildBounds s)).
Proof.
  intros H. rewrite buildBounds_bounds_of.
  destruct (bounds_of s); [|exact H].
  revert H. apply holds_on_the_same_fields; reflexivity.
Qed.

Lemma call_keeps_what_phoSim_gave (d : OMD.PhoSimMetaData F) (c : setter_call)
    (self : OMD.ObservationMetaData F) :
  holds d self -> holds d (snd (call c self)).
Proof.
  intros H. pose proof H as (Hp & Hm & Hr & Hf & Hra & Hdec).
  destruct c as [v|v|v|v|v|v|v|v|v|v|b m s]; cbn [call].
  - unfold OMD.pointingRA_setter, OMD.bind, OMD.get, OMD.raise_if,
           OMD.set_by_phoSim, OMD.assign, OMD.raise, OMD.ret.
    cbv beta. rewrite Hp.
    destruct (OMD.phoSim_pointingRA d) as [ra|] eqn:E; cbn [OMD.is_some]; [exact H|].
    cbv beta iota.
    match goal with |- holds d (snd (OMD._buildBounds ?s)) =>
      apply (after_buildBounds_holds d s) end.
    unfold holds; cbn; repeat split; try assumption. intros ra Hx; congruence.
  - unfold OMD.pointingDec_setter, OMD.bind, OMD.get, OMD.raise_if,
           OMD.set_by_phoSim, OMD.assign, OMD.raise, OMD.ret.
    cbv beta. rewrite Hp.
    destruct (OMD.phoSim_pointingDec d) as [dec|] eqn:E; cbn [OMD.is_some]; [exact H|].
    cbv beta iota.
    match goal with |- holds d (snd (OMD._buildBounds ?s)) =>
      apply (after_buildBounds_holds d s) end.
    unfold holds; cbn; repeat split; try assumption. intros dec Hx; congruence.
  - unfold OMD.boundLength_setter, OMD.bind, OMD.assign. cbv beta iota.
    match goal with |- holds d (snd (OMD._buildBounds ?s)) =>
      apply (after_buildBounds_holds d s) end.
    revert H. apply holds_on_the_same_fields; reflexivity.
  - unfold OMD.boundType_setter, OMD.bind, OMD.assign. cbv beta iota.
    match goal with |- holds d (snd (OMD._buildBounds ?s)) =>
      apply (after_buildBounds_holds d s) end.
    revert H. apply holds_on_the_same_fields; reflexivity.
  - unfold OMD.rotSkyPos_setter, OMD.bind, OMD.get, OMD.raise_if,
           OMD.set_by_phoSim, OMD.assign, OMD.raise, OMD.ret.
    cbv beta. rewrite Hp.
    destruct (OMD.Opsim_rotskypos d) as [r|] eqn:E; cbn [OMD.is_some]; [exact H|].
    cbn. unfold holds; cbn; repeat split; try assumption.
    intros r Hx; congruence.
  - unfold OMD.m5_setter, OMD.bind. rewrite assignDict_run.
    destruct (fst _); [|exact H]. cbn.
    revert H. apply holds_on_the_same_fields; reflexivity.
  - unfold OMD.seeing_setter, OMD.bind, OMD.get, OMD.raise_if, OMD.raise, OMD.ret.
    cbv beta.
    destruct (OMD.set_by_phoSim OMD.Opsim_rawseeing self); cbv iota; [exact H|].
    rewrite assignDict_run.
    destruct (fst _); [|exact H]. cbn.
    revert H. apply holds_on_the_same_fields; reflexivity.
  - cbn. revert H. apply holds_on_the_same_fields; reflexivity.
  - cbn. revert H. apply holds_on_the_same_fields; reflexivity.
  - unfold OMD.mjd_setter, OMD.bind, OMD.get, OMD.raise_if,
           OMD.set_by_phoSim, OMD.assign, OMD.raise, OMD.ret.
    cbv beta. rewrite Hp.
    destruct (OMD.Opsim_expmjd d) as [x|] eqn:E; cbn [OMD.is_some]; [exact H|].
    destruct v as [x|z|m|]; cbn; try exact H;
      unfold holds; cbn; repeat split; try assumption;
      intros x' Hx; congruence.
  - unfold OMD.setBandpassM5andSeeing, OMD.bind, OMD.get, OMD.raise_if,
           OMD.set_by_phoSim, OMD.raise, OMD.ret.
    cbv beta. rewrite Hp.
    destruct (OMD.Opsim_filter d) as [f|] eqn:E; cbn [OMD.is_some]; [exact H|].
    destruct (OMD.is_some (OMD.Opsim_rawseeing d)); cbv iota; [exact H|].
    assert (H0 : holds d (OMD.set_bandpass b self)).
    { unfold holds; cbn; repeat split; try assumption.
      intros f Hx; congruence. }
    unfold OMD.assign at 1. cbv beta iota.
    rewrite assignDict_run. destruct (fst _); [|exact H0].
    unfold OMD.assign at 1. cbv beta iota.
    rewrite assignDict_run.
    destruct (fst _); cbn; revert H0; apply holds_on_the_same_fields; reflexivity.
Qed.

(** X21.  What phoSimMetaData gave a constructed observation (its time,
    rotation, bandpass and pointing) is still there after any sequence of
    setter calls, accepted or refused, short of assigning new
    phoSimMetaData. *)
Theorem phoSimMetaData_values_survive_the_setters
    (boundType : option string) (boundLength : option (value F))
    (mjd : option (OMD.mjd_arg F)) (pointingRA pointingDec rotSkyPos : option F)
    (bandpassName : option OMD.bands) (d : OMD.PhoSimMetaData F)
    (site : option (Site F)) (m5 : option (OMD.per_band F)) (skyBrightness : option F)
    (seeing : option (OMD.per_band F)) (epoch : F)
    (om : OMD.ObservationMetaData F) (calls : list setter_call) :
  OMD.__init__ boundType boundLength mjd pointingRA pointingDec rotSkyPos
               bandpassName (Some d) site m5 skyBrightness seeing epoch = Ok om ->
  holds d (after_calls calls om).
Proof.
  intros H.
  assert (H0 : holds d om).
  { destruct (init_shape _ _ _ _ _ _ _ _ _ _ _ _ _ _ H)
      as (b & m5d & seed & -> & _ & _ & _ & _ & Hconf).
    destruct Hconf as (_ & _ & _ & Hboth & _).
    destruct d as [e r f s pra pdec]; cbn in Hboth.
    unfold holds; cbn.
    destruct pra, pdec; cbn in Hboth; try discriminate Hboth;
      repeat split; intros v Hv; try discriminate Hv;
      try (inversion Hv; reflexivity); subst; reflexivity. }
  clear H. revert om H0.
  induction calls as [|c calls IH]; intros om H0; cbn.
  - exact H0.
  - apply IH. apply call_keeps_what_phoSim_gave. exact H0.
Qed.

(** X22.  Assigning new phoSimMetaData, when accepted, leaves the object
    holding every value of the new dict, whatever had been set by hand
    before, and new phoSimMetaData that name a filter leave it without
    [m5] and [seeing]. *)
Theorem phoSimMetaData_setter_takes_over
    (d : OMD.PhoSimMetaData F) (self self' : OMD.ObservationMetaData F) :
  OMD.phoSimMetaData_setter d self = (Ok tt, self') ->
  holds d self' /\
  match OMD.Opsim_filter d with
  | Some _ => OMD._m5 self' = None /\ OMD._seeing self' = OMD.Attr None
  | None => OMD._m5 self' = OMD._m5 self /\ OMD._seeing self' = OMD._seeing self
  end.
Proof.
  intros H.
  assert (Hfinish : forall cleared,
            OMD._assignPhoSimMetaData d cleared = (Ok tt, self') ->
            holds d self' /\
            OMD._m5 self' = OMD._m5 cleared /\
            OMD._seeing self' = OMD._seeing cleared).
  { intros cleared Hc.
    destruct (assignPhoSimMetaData_accepts _ _ _ Hc) as (Hb & _ & _ & _ & Hboth & _).
    rewrite buildBounds_bounds_of in Hb.
    destruct (bounds_of (written d cleared)) as [b|e]; [|discriminate Hb].
    inversion Hb. split; [|split; reflexivity].
    destruct d as [e r f s pra pdec]; cbn in Hboth.
    unfold holds; cbn.
    destruct pra, pdec; cbn in Hboth; try discriminate Hboth;
      repeat split; intros v Hv; try discriminate Hv;
      try (inversion Hv; reflexivity); subst; reflexivity. }
  unfold OMD.phoSimMetaData_setter, OMD.bind, OMD.when, OMD.assign, OMD.ret in H.
  destruct (OMD.phoSim_pointingRA d), (OMD.phoSim_pointingDec d),
           (OMD.Opsim_rotskypos d), (OMD.Opsim_expmjd d), (OMD.Opsim_filter d);
    cbn [OMD.is_some] in H; cbv beta iota in H;
    destruct (Hfinish _ H) as (Hh & Hm5 & Hsee);
    (split; [exact Hh|split; [exact Hm5|exact Hsee]]).
Qed.

(** X23.  [setBandpassM5andSeeing] is not all-or-nothing: when it gets
    past its two guards and then refuses [m5] or [seeing], which it does
    with the configuration error, the new bandpass is already in place. *)
Theorem failed_setBandpassM5andSeeing_has_replaced_the_bandpass
    (bandpassName : option OMD.bands) (m5 seeing : option (OMD.per_band F))
    (self self' : OMD.ObservationMetaData F) (e : exn) :
  OMD.set_by_phoSim OMD.Opsim_filter self = false ->
  OMD.set_by_phoSim OMD.Opsim_rawseeing self = false ->
  OMD.setBandpassM5andSeeing bandpassName m5 seeing self = (Raise e, self') ->
  OMD._bandpass self' = bandpassName /\
  OMD._seeing self' = OMD._seeing self /\
  class_of e = CRuntime.
Proof.
  intros Hf Hr H.
  unfold OMD.setBandpassM5andSeeing, OMD.bind, OMD.get, OMD.raise_if in H.
  cbv beta in H. rewrite Hf, Hr in H.
  unfold OMD.ret, OMD.assign at 1 in H. cbv beta iota in H.
  rewrite assignDict_run in H.
  destruct (fst (OMD._assignDictKeyedToBandpass m5 "m5" _)) as [m5d|e1] eqn:E1.
  - unfold OMD.assign at 1 in H. cbv beta iota in H.
    rewrite assignDict_run in H.
    destruct (fst (OMD._assignDictKeyedToBandpass seeing "seeing" _))
      as [seed|e2] eqn:E2.
    + discriminate H.
    + inversion H; subst. repeat split.
      exact (assignDict_raises_RuntimeError _ _ _ _ E2).
  - inversion H; subst. repeat split.
    exact (assignDict_raises_RuntimeError _ _ _ _ E1).
Qed.

End ObservationFacts.

(** *** The observation and the pipeline *)

Section ObservationInThePipeline.
Context {F : Type} {float64 : Float64 F} {astropy : Astropy F}
        {linalg : Linalg F} {sims : SimsUtils F} {palpy : Palpy F}
        {bounds_api : SpatialBoundsAPI F} {python : Python F}.
Import OMDSpec Astrometry.

(** X24.  An observation constructed with no [mjd], and with no
    [Opsim_expmjd] in its phoSimMetaData, is refused with a configuration
    error by every transform that takes an observation. *)
Theorem observation_without_time_is_refused
    (boundType : option string) (boundLength : option (value F))
    (pointingRA pointingDec rotSkyPos : option F)
    (bandpassName : option OMD.bands) (phoSimMetaData : option (OMD.PhoSimMetaData F))
    (the_site : option (Site F)) (m5 : option (OMD.per_band F)) (skyBrightness : option F)
    (seeing : option (OMD.per_band F)) (epoch : F)
    (om : OMD.ObservationMetaData F)
    (ra dec : value F) (pm_ra pm_dec parallax v_rad : option (value F))
    (an_epoch : option F) (wavelength : F) (includeRefraction altAzHr : bool) :
  OMD.__init__ boundType boundLength None pointingRA pointingDec rotSkyPos
               bandpassName phoSimMetaData the_site m5 skyBrightness seeing epoch = Ok om ->
  match phoSimMetaData with
  | Some d => OMD.Opsim_expmjd d = None
  | None => True
  end ->
  is_configuration_error
    (_observedFromAppGeo ra dec includeRefraction altAzHr wavelength
                         (Some (for_pipeline om))) /\
  is_configuration_error
    (_appGeoFromObserved ra dec includeRefraction wavelength
                         (Some (for_pipeline om))) /\
  is_configuration_error
    (_observedFromICRS ra dec pm_ra pm_dec parallax v_rad
                       (Some (for_pipeline om)) an_epoch includeRefraction) /\
  is_configuration_error
    (_icrsFromObserved ra dec (Some (for_pipeline om)) an_epoch includeRefraction).
Proof.
  intros H Hno.
  assert (Hview : for_pipeline om = mkObservationMetaData the_site None).
  { destruct (init_shape _ _ _ _ _ _ _ _ _ _ _ _ _ _ H)
      as (b & m5d & seed & -> & _).
    unfold for_pipeline, OMD.site, OMD.mjd.
    destruct phoSimMetaData as [d|]; cbn; [rewrite Hno|]; reflexivity. }
  rewrite Hview.
  unfold is_configuration_error, _observedFromAppGeo, _appGeoFromObserved,
         _observedFromICRS, _icrsFromObserved.
  cbn [site mjd _site _mjd].
  destruct the_site; repeat split; eexists; reflexivity.
Qed.

End ObservationInThePipeline.

(** ** More runs in the symbolic run-time *)

Section MoreSymbolicRuns.
Import Spec OMDSpec Astrometry Symbolic SymbolicObservation.

Lemma ra_dec_length_mismatch_is_a_configuration_error_witness :
  List.length [Var "ra1"; Var "ra2"] <> List.length [Var "dec1"] /\
  is_configuration_error
    (_appGeoFromICRS (VArray [Var "ra1"; Var "ra2"]) (VArray [Var "dec1"])
                     None None None None (Lit 2000) (Some (instant_of 57388))).
Proof.
  assert (Hne : List.length [Var "ra1"; Var "ra2"] <> List.length [Var "dec1"])
    by (intros H; discriminate H).
  split; [exact Hne|].
  exact (proj1 (ra_dec_length_mismatch_is_a_configuration_error
                  [Var "ra1"; Var "ra2"] [Var "dec1"] None None None None
                  a_site (instant_of 57388) (Lit 2000) (Var "wavelength")
                  true false Hne)).
Defined.

Lemma UT1_and_dut1_inside_IERS_witness :
  reachable (instant_of 57388) /\
  time_ut1 (MJD._time (instant_of 57388)) = Ok (App "ut1" [Lit 57388]) /\
  (time_get_delta_ut1_utc (MJD._time (instant_of 57388)) =
     Ok (Quantity (App "delta_ut1_utc" [Lit 57388])) \/
   time_get_delta_ut1_utc (MJD._time (instant_of 57388)) =
     Ok (Bare (App "delta_ut1_utc" [Lit 57388]))) /\
  MJD.UT1 (instant_of 57388) =
    (Ok (App "ut1" [Lit 57388]),
     MJD.set_ut1 (App "ut1" [Lit 57388]) (instant_of 57388), []) /\
  MJD.dut1 (instant_of 57388) =
    (Ok (App "delta_ut1_utc" [Lit 57388]),
     MJD.set_dut1 (App "delta_ut1_utc" [Lit 57388]) (instant_of 57388), []).
Proof.
  assert (Hr : reachable (instant_of 57388)).
  { apply (reach_init (Some (Lit 57388)) None). reflexivity. }
  assert (Hd : time_get_delta_ut1_utc (MJD._time (instant_of 57388)) =
                 Ok (Quantity (App "delta_ut1_utc" [Lit 57388])) \/
               time_get_delta_ut1_utc (MJD._time (instant_of 57388)) =
                 Ok (Bare (App "delta_ut1_utc" [Lit 57388])))
    by (left; reflexivity).
  split; [exact Hr|]. split; [reflexivity|]. split; [exact Hd|].
  exact (UT1_and_dut1_inside_IERS (instant_of 57388) _ _ Hr eq_refl Hd).
Defined.

Lemma applyProperMotion_refuses_unequal_lengths_witness :
  ~ (List.length [Var "dec1"] = List.length [Var "ra1"; Var "ra2"] /\
     List.length [Var "pm_ra1"; Var "pm_ra2"] = List.length [Var "ra1"; Var "ra2"] /\
     List.length [Var "pm_dec1"; Var "pm_dec2"] = List.length [Var "ra1"; Var "ra2"] /\
     List.length [Var "px1"; Var "px2"] = List.length [Var "ra1"; Var "ra2"] /\
     List.length [Var "v1"; Var "v2"] = List.length [Var "ra1"; Var "ra2"]) /\
  exists e,
    _applyProperMotion (VArray [Var "ra1"; Var "ra2"]) (VArray [Var "dec1"])
                       (VArray [Var "pm_ra1"; Var "pm_ra2"])
                       (VArray [Var "pm_dec1"; Var "pm_dec2"])
                       (VArray [Var "px1"; Var "px2"]) (VArray [Var "v1"; Var "v2"])
                       (Lit 2000) (Some (instant_of 57388)) = Raise e /\
    (class_of e = CRuntime \/ class_of e = CValue).
Proof.
  assert (Hne :
    ~ (List.length [Var "dec1"] = List.length [Var "ra1"; Var "ra2"] /\
       List.length [Var "pm_ra1"; Var "pm_ra2"] = List.length [Var "ra1"; Var "ra2"] /\
       List.length [Var "pm_dec1"; Var "pm_dec2"] = List.length [Var "ra1"; Var "ra2"] /\
       List.length [Var "px1"; Var "px2"] = List.length [Var "ra1"; Var "ra2"] /\
       List.length [Var "v1"; Var "v2"] = List.length [Var "ra1"; Var "ra2"]))
    by (intros [H _]; discriminate H).
  split; [exact Hne|].
  exact (applyProperMotion_refuses_unequal_lengths
           [Var "ra1"; Var "ra2"] [Var "dec1"] [Var "pm_ra1"; Var "pm_ra2"]
           [Var "pm_dec1"; Var "pm_dec2"] [Var "px1"; Var "px2"]
           [Var "v1"; Var "v2"] (Lit 2000) (instant_of 57388) Hne).
Defined.

Lemma omitted_proper_motion_is_zero_over_cos_dec_witness :
  List.length [Var "ra1"; Var "ra2"] = List.length [Var "dec1"; Var "dec2"] /\
  _appGeoFromICRS (VArray [Var "ra1"; Var "ra2"]) (VArray [Var "dec1"; Var "dec2"])
                  None None None None (Lit 2000) (Some (instant_of 57388)) =
  res_bind
    (mapqkVector (VArray [Var "ra1"; Var "ra2"]) (VArray [Var "dec1"; Var "dec2"])
                 (VArray [App "div" [Lit 0; App "cos" [Var "dec1"]];
                          App "div" [Lit 0; App "cos" [Var "dec2"]]])
                 (VArray [Lit 0; Lit 0])
                 (VArray [App "arcsecFromRadians" [Lit 0];
                          App "arcsecFromRadians" [Lit 0]])
                 (VArray [Lit 0; Lit 0])
                 (mappa (Lit 2000) (App "tdb" [Lit 57388])))
    (fun out => Ok (VArray (fst out), VArray (snd out))).
Proof.
  split; [reflexivity|].
  exact (omitted_proper_motion_is_zero_over_cos_dec
           [Var "ra1"; Var "ra2"] [Var "dec1"; Var "dec2"] (Lit 2000)
           (instant_of 57388) eq_refl).
Defined.

Lemma altAz_is_returned_exactly_when_asked_witness :
  _observedFromAppGeo (VArray [Var "ra1"]) (VArray [Var "dec1"]) true true
                      (Var "wavelength") (Some an_observation) =
    Ok (fst observed_with_altAz, snd observed_with_altAz) /\
  (snd observed_with_altAz <> None <-> true = true).
Proof.
  assert (H : _observedFromAppGeo (VArray [Var "ra1"]) (VArray [Var "dec1"]) true true
                (Var "wavelength") (Some an_observation) =
              Ok (fst observed_with_altAz, snd observed_with_altAz))
    by reflexivity.
  split; [exact H|].
  exact (altAz_is_returned_exactly_when_asked _ _ _ _ _ _ _ _ H).
Defined.

Lemma dict_keyed_to_the_bandpasses_witness :
  OMD._bandpass by_hand_object = Some (OMD.BNames ["u"; "g"]) /\
  List.length [Lit 23; Lit 24] = List.length ["u"; "g"] /\
  NoDup ["u"; "g"] /\
  exists d,
    OMD._assignDictKeyedToBandpass (Some (OMD.Many [Lit 23; Lit 24])) "m5"
                                   by_hand_object =
      (Ok (Some d), by_hand_object) /\
    (forall i, i < List.length ["u"; "g"] ->
       OMD.getitem (nth i ["u"; "g"] "") d = Some (nth i [Lit 23; Lit 24] fzero)) /\
    (forall k, ~ In k ["u"; "g"] -> OMD.getitem k d = None).
Proof.
  assert (Hnd : NoDup ["u"; "g"]).
  { constructor.
    - intros [H|[]]. discriminate H.
    - constructor; [intros []|constructor]. }
  split; [reflexivity|]. split; [reflexivity|]. split; [exact Hnd|].
  exact (dict_keyed_to_the_bandpasses ["u"; "g"] [Lit 23; Lit 24] "m5"
           by_hand_object eq_refl eq_refl Hnd).
Defined.

Lemma single_bandpass_with_single_value_witness :
  OMD._bandpass from_phoSim_object = Some (OMD.BName "r") /\
  OMD._assignDictKeyedToBandpass (Some (OMD.Single (Lit 24))) "m5"
                                 from_phoSim_object =
    (Ok (Some [("r", Lit 24)]), from_phoSim_object).
Proof.
  split; [reflexivity|].
  exact (single_bandpass_with_single_value "r" (Lit 24) "m5" from_phoSim_object
           eq_refl).
Defined.

Lemma what_the_pipeline_sees_of_an_observation_witness :
  by_hand = Ok by_hand_object /\
  for_pipeline by_hand_object = an_observation.
Proof.
  assert (H : by_hand = Ok by_hand_object) by reflexivity.
  split; [exact H|].
  exact (what_the_pipeline_sees_of_an_observation _ _ _ _ _ _ _ _ _ _ _ _ _ _ H).
Defined.

Lemma angles_of_a_constructed_observation_witness :
  from_phoSim = Ok from_phoSim_object /\
  OMD.pointingRA from_phoSim_object = Some (App "degrees" [Var "ra"]) /\
  OMD.pointingDec from_phoSim_object = Some (App "degrees" [Var "dec"]) /\
  OMD.rotSkyPos from_phoSim_object = Some (App "degrees" [Var "rot"]) /\
  OMD.boundLength from_phoSim_object =
    Some (VFloat (App "degrees" [App "radians" [Var "radius"]])).
Proof.
  assert (H : from_phoSim = Ok from_phoSim_object) by reflexivity.
  split; [exact H|].
  exact (angles_of_a_constructed_observation _ _ _ _ _ _ _ _ _ _ _ _ _ _ H).
Defined.

Lemma bounds_of_a_constructed_observation_witness :
  by_hand = Ok by_hand_object /\
  exists b,
    OMD.bounds by_hand_object = Some b /\
    getSpatialBounds "circle" (fradians (Var "ra")) (fradians (Var "dec"))
                     (np_radians (VFloat (Var "radius"))) = Ok b.
Proof.
  assert (H : by_hand = Ok by_hand_object) by reflexivity.
  split; [exact H|].
  exact (bounds_of_a_constructed_observation _ _ _ _ _ _ _ _ _ _ _ _ _ H).
Defined.

Lemma phoSimMetaData_values_survive_the_setters_witness :
  from_phoSim = Ok from_phoSim_object /\
  holds phoSim_dict
    (after_calls [SetMjd (OMD.MjdFloat (Lit 50000));
                  SetPointingRA (Var "elsewhere");
                  SetBoundLength (VFloat (Var "wider"));
                  SetBandpassM5andSeeing (Some (OMD.BName "u")) None None;
                  SetRotSkyPos (Lit 90)]
                 from_phoSim_object).
Proof.
  assert (H : from_phoSim = Ok from_phoSim_object) by reflexivity.
  split; [exact H|].
  exact (phoSimMetaData_values_survive_the_setters
           (Some "circle") (Some (VFloat (Var "radius"))) None None None None None
           phoSim_dict (Some a_site) None None None (Lit 2000) from_phoSim_object
           [SetMjd (OMD.MjdFloat (Lit 50000));
            SetPointingRA (Var "elsewhere");
            SetBoundLength (VFloat (Var "wider"));
            SetBandpassM5andSeeing (Some (OMD.BName "u")) None None;
            SetRotSkyPos (Lit 90)]
           H).
Defined.

Lemma phoSimMetaData_setter_takes_over_witness :
  OMD.phoSimMetaData_setter phoSim_dict by_hand_object = (Ok tt, taken_over) /\
  holds phoSim_dict taken_over /\
  OMD._m5 taken_over = None /\ OMD._seeing taken_over = OMD.Attr None.
Proof.
  assert (H : OMD.phoSimMetaData_setter phoSim_dict by_hand_object = (Ok tt, taken_over))
    by reflexivity.
  split; [exact H|].
  exact (phoSimMetaData_setter_takes_over _ _ _ H).
Defined.

Lemma failed_setBandpassM5andSeeing_has_replaced_the_bandpass_witness :
  OMD.set_by_phoSim OMD.Opsim_filter by_hand_object = false /\
  OMD.set_by_phoSim OMD.Opsim_rawseeing by_hand_object = false /\
  OMD.setBandpassM5andSeeing None (Some (OMD.Single (Lit 24))) None by_hand_object =
    (Raise (RuntimeError
              "You cannot set m5 if you have not set bandpass in ObservationMetaData"),
     OMD.set_bandpass None by_hand_object) /\
  OMD._bandpass (OMD.set_bandpass None by_hand_object) = None /\
  OMD._seeing (OMD.set_bandpass None by_hand_object) = OMD._seeing by_hand_object /\
  class_of (RuntimeError
              "You cannot set m5 if you have not set bandpass in ObservationMetaData") =
    CRuntime.
Proof.
  assert (H : OMD.setBandpassM5andSeeing None (Some (OMD.Single (Lit 24))) None
                by_hand_object =
              (Raise (RuntimeError
                 "You cannot set m5 if you have not set bandpass in ObservationMetaData"),
               OMD.set_bandpass None by_hand_object))
    by reflexivity.
  split; [reflexivity|]. split; [reflexivity|]. split; [exact H|].
  exact (failed_setBandpassM5andSeeing_has_replaced_the_bandpass
           None (Some (OMD.Single (Lit 24))) None by_hand_object
           (OMD.set_bandpass None by_hand_object)
           (RuntimeError
              "You cannot set m5 if you have not set bandpass in ObservationMetaData")
           eq_refl eq_refl H).
Defined.

Lemma observation_without_time_is_refused_witness :
  timeless = Ok timeless_object /\
  True /\
  is_configuration_error
    (_observedFromAppGeo (VArray [Var "ra1"]) (VArray [Var "dec1"]) true false
                         (Var "wavelength") (Some (for_pipeline timeless_object))) /\
  is_configuration_error
    (_appGeoFromObserved (VArray [Var "ra1"]) (VArray [Var "dec1"]) true
                         (Var "wavelength") (Some (for_pipeline timeless_object))) /\
  is_configuration_error
    (_observedFromICRS (VArray [Var "ra1"]) (VArray [Var "dec1"]) None None None None
                       (Some (for_pipeline timeless_object)) (Some (Lit 2000)) true) /\
  is_configuration_error
    (_icrsFromObserved (VArray [Var "ra1"]) (VArray [Var "dec1"])
                       (Some (for_pipeline timeless_object)) (Some (Lit 2000)) true).
Proof.
  assert (H : timeless = Ok timeless_object) by reflexivity.
  split; [exact H|]. split; [exact I|].
  exact (observation_without_time_is_refused
           _ _ _ _ _ _ _ _ _ _ _ _ _
           (VArray [Var "ra1"]) (VArray [Var "dec1"]) None None None None
           (Some (Lit 2000)) (Var "wavelength") true false H I).
Defined.

Lemma constructor_value_is_read_back_witness :
  MJD.__init__ (Some (Lit 57388)) None = Ok (instant_of 57388) /\
  MJD.result MJD.TAI
    (fst (Instants.reads [pUT1; pTT; pdut1; pUTC] (instant_of 57388))) =
    Ok (Lit 57388).
Proof.
  split; [reflexivity|].
  exact (proj1 (constructor_value_is_read_back (Lit 57388) None
                  [pUT1; pTT; pdut1; pUTC])
               (instant_of 57388) eq_refl).
Defined.

Lemma shapes_of_m5_and_seeing_witness :
  OMD._bandpass by_hand_object = Some (OMD.BNames ["u"; "g"]) /\
  (succeeds (fst (OMD._assignDictKeyedToBandpass
                    (Some (OMD.Many [Lit 23; Lit 24; Lit 25])) "m5" by_hand_object)) <->
   Some (OMD.Many [Lit 23; Lit 24; Lit 25]) = None \/
   exists values,
     Some (OMD.Many [Lit 23; Lit 24; Lit 25]) = Some (OMD.Many values) /\
     List.length values = List.length ["u"; "g"]).
Proof.
  split; [reflexivity|].
  exact (proj1 (shapes_of_m5_and_seeing
                  (Some (OMD.Many [Lit 23; Lit 24; Lit 25])) "m5" by_hand_object)
               ["u"; "g"] eq_refl).
Defined.

Lemma int_mjd_for_the_constructor_not_for_the_setter_witness :
  OMD.set_by_phoSim OMD.Opsim_expmjd by_hand_object = false /\
  OMD.mjd_setter (OMD.MjdFloat (Lit 50000)) by_hand_object =
    (Ok tt, OMD.set_mjd (Some (instant (Lit 50000))) by_hand_object) /\
  OMD.mjd_setter (OMD.MjdInstant (instant_of 50000)) by_hand_object =
    (Ok tt, OMD.set_mjd (Some (instant_of 50000)) by_hand_object).
Proof.
  split; [reflexivity|].
  exact (proj2 (proj2 (proj2
           (int_mjd_for_the_constructor_not_for_the_setter
              57388%Z (Lit 50000) (instant_of 50000)
              None None None None None None None None None None None (Lit 2000)
              by_hand_object)))
           eq_refl).
Defined.

(** The phoSimMetaData setter takes over the time set by hand, which the
    constructor refuses to do. *)
Example setter_overrides_where_constructor_refuses :
  OMD.mjd by_hand_object = Some (instant_of 57388) /\
  OMD.mjd taken_over = Some (instant_of 57388) /\
  is_configuration_error
    (OMD.__init__ None None (Some (OMD.MjdFloat (Lit 50000))) None None None None
                  (Some phoSim_dict) None None None None (Lit 2000)).
Proof.
  repeat split. eexists. vm_compute. reflexivity.
Qed.

End MoreSymbolicRuns.
